(** * fastify-bullmq: the migration queue processor

    A shallow embedding of the BullMQ worker of [queue.ts], in the three
    revisions the repository holds side by side:

    - [Components1]: [src/src/queue.ts], the worker driven by
      [job.components] whose snapshot is still a placeholder object;
    - [Components2]: [src/unnamed/part_001], the worker driven by
      [job.components] that fetches and validates the snapshot;
    - [Ignored]: [src/unnamed/part_000], the worker driven by
      [MIGRATION_ORDER] minus [ignoredItems];
    - [Intake1]: the [/migration] route of the second revision held in
      [src/src/index.ts], which feeds the worker of [src/src/queue.ts].

    The worker is an [async] function whose observable behaviour is the
    sequence of [job.log] / [job.updateProgress] calls, the final content of
    [job.data] and the value it returns or throws.  It is embedded in a small
    monad [M] that writes the calls to a trace, threads [job.data] as state and
    propagates thrown values.

    Conventions of the embedding:
    - a JS object used as a dictionary (the snapshot [breakdown], the mock
      snapshot table) is an association list of its own properties; a read
      [o[key]] looks the key up there and then among the properties every
      plain object inherits from [Object.prototype];
    - [job.updateProgress] receives [(currentStep / totalSteps) * 100], a
      double-precision number computed with the two roundings of IEEE 754;
    - a thrown value is an [Error] (with its message), a [TypeError] raised by
      a property read on [undefined], or any other value. *)

From Stdlib Require Import PrimFloat.
From Stdlib Require Uint63.
From Stdlib Require Import String Ascii List Bool Arith ZArith Lia.
From Stdlib Require Import Permutation Sorted DecimalString.
Import ListNotations.

Set Warnings "-inexact-float".

Local Open Scope list_scope.
Local Open Scope string_scope.

(** ** Strings of the template literals *)

(** [`${n}`] for a non-negative integer. *)
Definition showNat (n : nat) : string := NilZero.string_of_uint (Nat.to_uint n).

(** [Array.prototype.join]. *)
Fixpoint join (sep : string) (l : list string) : string :=
  match l with
  | [] => ""
  | [x] => x
  | x :: rest => x ++ sep ++ join sep rest
  end.

(** [Array.prototype.includes] on an array of strings. *)
Definition includes (l : list string) (x : string) : bool :=
  existsb (String.eqb x) l.

(** [hay] contains [needle] as a contiguous piece. *)
Definition contains (hay needle : string) : Prop :=
  exists before after, hay = before ++ needle ++ after.

(** [prefix] is how [s] begins. *)
Fixpoint startsWith (s prefix : string) {struct prefix} : bool :=
  match prefix, s with
  | EmptyString, _ => true
  | String a prefix', String b s' => Ascii.eqb a b && startsWith s' prefix'
  | String _ _, EmptyString => false
  end.

(** Whether [hay] contains [needle], decided. *)
Fixpoint containsb (hay needle : string) : bool :=
  startsWith hay needle
  || match hay with
     | EmptyString => false
     | String _ rest => containsb rest needle
     end.

(** ** The component catalog *)

Definition MIGRATION_ORDER : list string :=
  [ "custom_statuses"; "groups"; "custom_roles"; "ticket_fields";
    "ticket_forms"; "brands"; "dynamic_content"; "macros"; "triggers";
    "trigger_categories"; "views"; "webhooks"; "apps"; "skills" ].

(** [Array.prototype.indexOf]: position of the first occurrence, [-1] when
    there is none. *)
Fixpoint indexOfFrom (i : Z) (l : list string) (x : string) : Z :=
  match l with
  | [] => (-1)%Z
  | y :: rest => if String.eqb y x then i else indexOfFrom (i + 1)%Z rest x
  end.

Definition indexOf (l : list string) (x : string) : Z := indexOfFrom 0%Z l x.

(** ** [Array.prototype.sort] with a comparator

    ECMAScript's sort is stable, and with a consistent comparator its result
    is the one stable arrangement in comparator order; it is written here as
    an insertion sort that keeps equal elements in their original order. *)
Section ArraySort.
Context {A : Type} (compareFn : A -> A -> Z).

Fixpoint insertSorted (x : A) (l : list A) : list A :=
  match l with
  | [] => [x]
  | y :: rest =>
      if (compareFn x y <=? 0)%Z then x :: y :: rest
      else y :: insertSorted x rest
  end.

Fixpoint arraySort (l : list A) : list A :=
  match l with
  | [] => []
  | x :: rest => insertSorted x (arraySort rest)
  end.
End ArraySort.

(** The comparator of the worker:
    [(a, b) => MIGRATION_ORDER.indexOf(a) - MIGRATION_ORDER.indexOf(b)]. *)
Definition byMigrationOrder (a b : string) : Z :=
  (indexOf MIGRATION_ORDER a - indexOf MIGRATION_ORDER b)%Z.

(** [migrationJob.components.sort(...)], as a function of the array content. *)
Definition sortedComponents (components : list string) : list string :=
  arraySort byMigrationOrder components.

(** ** Thrown values, log lines and the worker monad *)

Inductive exn : Type :=
| Error (message : string)
| TypeError (message : string)
| Thrown (value : string).

(** [error instanceof Error ? error.message : 'An unknown error occurred']. *)
Definition errorMessage (error : exn) : string :=
  match error with
  | Error message => message
  | TypeError message => message
  | Thrown _ => "An unknown error occurred"
  end.

(** The lines the workers pass to [job.log], by template. *)
Inductive LogLine : Type :=
| Initializing (jobTempPath : string)
| FetchingSnapshot (snapshotId : string)
| ValidatingSnapshot (name : string)
| ValidationSuccessful
| Starting (component : string)
| FetchingFromSnapshot (component : string) (size : option nat)
| FetchingFromLive (component subdomain : string)
| Processing (component : string) (step total : nat)
| Creating (component subdomain : string)
| ErrorProcessing (component message : string)
| FatalError (message : string).

(** The text of each line, as the template literal builds it. *)
Definition render (l : LogLine) : string :=
  match l with
  | Initializing p => "Initializing migration job at " ++ p
  | FetchingSnapshot i => "Fetching snapshot " ++ i
  | ValidatingSnapshot n => "Validating snapshot " ++ n
  | ValidationSuccessful => "Snapshot validation successful"
  | Starting c => "Starting migration of " ++ c
  | FetchingFromSnapshot c s =>
      "Fetching " ++ c ++ " from snapshot (size: "
      ++ match s with Some n => showNat n | None => "undefined" end
      ++ " bytes)"
  | FetchingFromLive c d => "Fetching " ++ c ++ " from live instance " ++ d
  | Processing c k n =>
      "Processing " ++ c ++ " (" ++ showNat k ++ "/" ++ showNat n ++ ")"
  | Creating c d => "Creating " ++ c ++ " in target instance " ++ d
  | ErrorProcessing c m => "Error processing " ++ c ++ ": " ++ m
  | FatalError m => "Fatal error in migration job: " ++ m
  end.

Inductive Event : Type :=
| Log (line : LogLine)
| UpdateProgress (percent : float).

Module WorkerMonad.
(** A computation over the job data [S]: the calls it made, the job data it
    leaves, and the value it returned or threw. *)
Definition M (S A : Type) : Type := S -> list Event * S * (exn + A).

Definition ret {S A} (a : A) : M S A := fun s => ([], s, inr a).

Definition throw {S A} (e : exn) : M S A := fun s => ([], s, inl e).

Definition bind {S A B} (m : M S A) (f : A -> M S B) : M S B :=
  fun s =>
    match m s with
    | (t1, s1, inl e) => (t1, s1, inl e)
    | (t1, s1, inr a) =>
        match f a s1 with
        | (t2, s2, r) => ((t1 ++ t2)%list, s2, r)
        end
    end.

(** [try { m } catch (error) { handler(error) }]. *)
Definition tryCatch {S A} (m : M S A) (handler : exn -> M S A) : M S A :=
  fun s =>
    match m s with
    | (t1, s1, inl e) =>
        match handler e s1 with
        | (t2, s2, r) => ((t1 ++ t2)%list, s2, r)
        end
    | (t1, s1, inr a) => (t1, s1, inr a)
    end.

Definition emit {S} (ev : Event) : M S unit := fun s => ([ev], s, inr tt).

Definition get {S} : M S S := fun s => ([], s, inr s).

Definition put {S} (s' : S) : M S unit := fun _ => ([], s', inr tt).

(** A call to a collaborator that returns or throws. *)
Definition call {S A} (r : exn + A) : M S A := fun s => ([], s, r).

Definition events {S A} (x : list Event * S * (exn + A)) : list Event :=
  fst (fst x).
Definition finalData {S A} (x : list Event * S * (exn + A)) : S :=
  snd (fst x).
Definition outcome {S A} (x : list Event * S * (exn + A)) : exn + A :=
  snd x.
End WorkerMonad.
Import WorkerMonad.

Declare Scope worker_scope.
Delimit Scope worker_scope with worker.
Notation "x <- m ;; k" := (bind m (fun x => k))
  (at level 61, m at next level, right associativity) : worker_scope.
Notation "m ;; k" := (bind m (fun _ => k))
  (at level 61, right associativity) : worker_scope.
Local Open Scope worker_scope.

(** [await job.log(...)] and [await job.updateProgress(...)]. *)
Definition log {S} (l : LogLine) : M S unit := emit (Log l).
Definition updateProgress {S} (p : float) : M S unit :=
  emit (UpdateProgress p).

(** A step count or an array length as a JS number (a double; the conversion
    is exact below [2^53], and an array has fewer than [2^32] elements). *)
Definition numberOfNat (n : nat) : float :=
  of_uint63 (Uint63.of_Z (Z.of_nat n)).

(** [(currentStep / totalSteps) * 100] in double precision: the quotient is
    rounded to a double, and so is its product with [100]. *)
Definition progressValue (currentStep totalSteps : nat) : float :=
  ((numberOfNat currentStep / numberOfNat totalSteps) * 100)%float.

(** ** Snapshots *)

Record ComponentBreakdown : Type := {
  count : string;
  size : nat;
  file : string
}.

(** The [breakdown] object: component name to its entry. *)
Definition Breakdown : Type := list (string * ComponentBreakdown).

(** The own property [key] of an object literal. *)
Fixpoint lookup {V : Type} (key : string) (o : list (string * V)) : option V :=
  match o with
  | [] => None
  | (k, v) :: rest => if String.eqb k key then Some v else lookup key rest
  end.

(** The property names a plain object inherits from [Object.prototype]
    (ECMAScript 2019, 19.1.3 and Annex B.2.2).  Read on an object that has no
    own property of that name, each of them yields a function, and
    [__proto__] the prototype object itself: a truthy value with none of the
    properties [breakdown], [locked], [size] and [file]. *)
Definition objectPrototypeKeys : list string :=
  [ "constructor"; "hasOwnProperty"; "isPrototypeOf"; "propertyIsEnumerable";
    "toLocaleString"; "toString"; "valueOf"; "__proto__";
    "__defineGetter__"; "__defineSetter__"; "__lookupGetter__";
    "__lookupSetter__" ].

(** What the read [o[key]] yields on a plain object. *)
Inductive Property (V : Type) : Type :=
| Own (value : V)
| Inherited (key : string)
| Undefined.
Arguments Own {V} value.
Arguments Inherited {V} key.
Arguments Undefined {V}.

(** [o[key]]: the own property, else the one found on [Object.prototype],
    else [undefined]. *)
Definition getProperty {V : Type} (o : list (string * V)) (key : string)
  : Property V :=
  match lookup key o with
  | Some value => Own value
  | None =>
      if includes objectPrototypeKeys key then Inherited key else Undefined
  end.

(** The snapshot object.  [breakdown] is [None] when the property is missing
    (as in the placeholder [{} as Snapshot]); [parent] is [parentId] or, in
    part_000, [sourceId]. *)
Record Snapshot : Type := {
  snapshot_id : string;
  snapshot_name : string;
  tags : list string;
  parent : option string;
  locked : bool;
  createdAt : string;
  breakdown : option Breakdown
}.

(** [comp => !snapshot.breakdown[comp]]: an entry and an inherited function
    are both truthy. *)
Definition isMissing (b : Breakdown) (comp : string) : bool :=
  match getProperty b comp with
  | Undefined => true
  | Own _ | Inherited _ => false
  end.

(** [validateSnapshot] of part_001 (lines 85-101) and part_000 (lines 71-87).
    The argument is [None] for a [null] snapshot. *)
Definition validateSnapshot (snapshot : option Snapshot)
    (components : list string) : exn + unit :=
  match snapshot with
  | None => inl (Error "Snapshot not found")
  | Some snapshot =>
      match breakdown snapshot with
      | None => inl (Error "Snapshot breakdown is missing")
      | Some b =>
          let missingComponents := filter (isMissing b) components in
          if (0 <? length missingComponents)%nat then
            inl (Error ("Snapshot missing required components: "
                        ++ join ", " missingComponents))
          else if locked snapshot then
            inl (Error "Cannot use locked snapshot for migration")
          else inr tt
      end
  end.

(** [validateSnapshot] of src/src/queue.ts (lines 85-93): no guard on the
    snapshot or on its breakdown, so reading [snapshot.breakdown[comp]] on a
    missing breakdown throws as soon as the filter visits a component. *)
Definition validateSnapshot1 (snapshot : Snapshot)
    (components : list string) : exn + unit :=
  match breakdown snapshot with
  | None =>
      match components with
      | [] =>
          if locked snapshot then
            inl (Error "Cannot use locked snapshot for migration")
          else inr tt
      | comp :: _ =>
          inl (TypeError ("Cannot read properties of undefined (reading '"
                          ++ comp ++ "')"))
      end
  | Some b =>
      let missingComponents := filter (isMissing b) components in
      if (0 <? length missingComponents)%nat then
        inl (Error ("Snapshot missing required components: "
                    ++ join ", " missingComponents))
      else if locked snapshot then
        inl (Error "Cannot use locked snapshot for migration")
      else inr tt
  end.

(** ** The component loop

    All three revisions run the same loop:
[[
  for (const component of items) {
    await job.log(`Starting migration of ${component}`);
    try { ...; currentStep++; await job.updateProgress(...); }
    catch (error) {
      await job.log(`Error processing ${component}: ${errorMessage}`);
      throw error;
    }
  }
]]
    [body component currentStep] is the content of the [try] block and returns
    the incremented [currentStep]. *)
Section ComponentLoop.
Context {S : Type} (body : string -> nat -> M S nat).

Definition migrateComponent (component : string) (currentStep : nat)
  : M S nat :=
  log (Starting component) ;;
  tryCatch (body component currentStep)
    (fun error =>
       log (ErrorProcessing component (errorMessage error)) ;;
       throw error).

Fixpoint migrateAll (items : list string) (currentStep : nat) : M S nat :=
  match items with
  | [] => ret currentStep
  | component :: rest =>
      next <- migrateComponent component currentStep ;;
      migrateAll rest next
  end.
End ComponentLoop.

(** What [fetchSnapshotData] and [fetchLiveData] hand back; [filePath] is
    [None] when the argument was [undefined]. *)
Inductive SourceData : Type :=
| MockData (component : string) (filePath : option string)
| NullData.

(** [string | number] identifiers of [IdMapping]. *)
Inductive Id : Type :=
| IdString (s : string)
| IdNumber (n : Z).

Record IdMapping : Type := {
  oldId : Id;
  newId : Id;
  type : string;
  metadata : option (list (string * string))
}.

(** [source.type]: ['snapshot' | 'live']. *)
Inductive SourceType : Type := SourceSnapshot | SourceLive.

(** [source.type === 'snapshot']. *)
Definition isSnapshot (t : SourceType) : bool :=
  match t with SourceSnapshot => true | SourceLive => false end.

(** Truthiness of an optional string ([undefined] and [''] are falsy). *)
Definition truthy (s : option string) : bool :=
  match s with
  | Some (String _ _) => true
  | _ => false
  end.

(** [snapshot.breakdown[component]] followed by a property read on what it
    yields: either read throws a [TypeError] when its object is [undefined].
    The value handed on is the component's entry or, for a name found on
    [Object.prototype] only, the inherited value. *)
Definition componentInfoOf (snapshot : Snapshot) (component property : string)
  : exn + Property ComponentBreakdown :=
  match breakdown snapshot with
  | None =>
      inl (TypeError ("Cannot read properties of undefined (reading '"
                      ++ component ++ "')"))
  | Some b =>
      match getProperty b component with
      | Undefined =>
          inl (TypeError ("Cannot read properties of undefined (reading '"
                          ++ property ++ "')"))
      | componentInfo => inr componentInfo
      end
  end.

(** [componentInfo.size] and [componentInfo.file]: [undefined] on an
    inherited value. *)
Definition sizeOf (componentInfo : Property ComponentBreakdown)
  : option nat :=
  match componentInfo with
  | Own info => Some (size info)
  | Inherited _ | Undefined => None
  end.

Definition fileOf (componentInfo : Property ComponentBreakdown)
  : option string :=
  match componentInfo with
  | Own info => Some (file info)
  | Inherited _ | Undefined => None
  end.

(** An [Object.prototype] value read where a snapshot is expected
    ([mockSnapshots[snapshotId]] for an inherited name).  Its [name] is the
    function's name, [Object] for [constructor]; the prototype object that
    [__proto__] yields has none, which the template prints as [undefined].
    It has no [breakdown] and no [locked]. *)
Definition inheritedAsSnapshot (key : string) : Snapshot :=
  {| snapshot_id := "";
     snapshot_name :=
       if String.eqb key "constructor" then "Object"
       else if String.eqb key "__proto__" then "undefined"
       else key;
     tags := [];
     parent := None;
     locked := false;
     createdAt := "";
     breakdown := None |}.

(** [table[snapshotId] || null] on a table of snapshots. *)
Definition snapshotOrNull (table : list (string * Snapshot))
    (snapshotId : string) : option Snapshot :=
  match getProperty table snapshotId with
  | Own snapshot => Some snapshot
  | Inherited key => Some (inheritedAsSnapshot key)
  | Undefined => None
  end.

(** ** part_001: components chosen by the job, snapshot fetched and validated *)
Module Components2.

Record ZendeskCredentials : Type := { token : string; email : string }.

Record InstanceInfo : Type := {
  instance_id : string;
  instance_name : string;
  subdomain : string;
  instance_tags : list string;
  credentials : ZendeskCredentials
}.

Record Source : Type := {
  source_type : SourceType;
  source_instanceInfo : InstanceInfo;
  snapshotId : option string
}.

Record Target : Type := { target_instanceInfo : InstanceInfo }.

Record Job : Type := { job_id : string; components : list string }.

Record MigrationJobData : Type := {
  source : Source;
  target : Target;
  job : Job
}.

Record Result : Type := {
  status : string;
  idMappings : list IdMapping;
  jobId : string
}.

(** The mock table of [fetchSnapshotFromConvex] (lines 105-132): one
    snapshot under key [1]. *)
Definition mockSnapshots : list (string * Snapshot) :=
  [ ("1",
     {| snapshot_id := "1";
        snapshot_name := "Snapshot 1";
        tags := ["dev"; "stable"; "backup"];
        parent := Some "1";
        locked := false;
        createdAt := "2024-01-01T00:00:00.000Z";
        breakdown := Some
          [ ("ticket_fields",
             {| count := "10"; size := 4500;
                file := "/1/1/ticket_fields.json" |});
            ("ticket_forms",
             {| count := "1"; size := 2500;
                file := "/1/1/ticket_forms.json" |}) ] |}) ].

(** [return mockSnapshots[snapshotId] || null]. *)
Definition fetchSnapshotFromConvex (snapshotId : string) : option Snapshot :=
  snapshotOrNull mockSnapshots snapshotId.

Definition fetchSnapshotData (component : string)
    (filePath : option string) : exn + SourceData :=
  inr (MockData component filePath).

Definition fetchLiveData (component : string) (instanceInfo : InstanceInfo)
  : exn + SourceData :=
  inr NullData.

(** The job processor (lines 162-255).  The three collaborators the source
    leaves as placeholders are parameters; [worker] below closes them with
    the placeholders. *)
Section Processor.
Variable snapshotStore : string -> option Snapshot.
Variable snapshotData : string -> option string -> exn + SourceData.
Variable liveData : string -> InstanceInfo -> exn + SourceData.

(** The [try] block of the loop (lines 199-227). *)
Definition body (source : Source) (target : Target)
    (snapshot : option Snapshot) (totalSteps : nat)
    (component : string) (currentStep : nat)
  : M MigrationJobData nat :=
  _sourceData <-
    (match isSnapshot (source_type source), snapshot with
     | true, Some snapshot =>
         componentInfo <- call (componentInfoOf snapshot component "size") ;;
         log (FetchingFromSnapshot component (sizeOf componentInfo)) ;;
         call (snapshotData component (fileOf componentInfo))
     | _, _ =>
         log (FetchingFromLive component
                (subdomain (source_instanceInfo source))) ;;
         call (liveData component (source_instanceInfo source))
     end) ;;
  log (Processing component (currentStep + 1) totalSteps) ;;
  log (Creating component (subdomain (target_instanceInfo target))) ;;
  let currentStep := (currentStep + 1)%nat in
  updateProgress (progressValue currentStep totalSteps) ;;
  ret currentStep.

(** [migrationJob.components.sort(...)]: sorts the array held by
    [job.data] in place and returns that same array. *)
Definition sortComponents : M MigrationJobData (list string) :=
  data <- get ;;
  let sorted := sortedComponents (components (job data)) in
  put {| source := source data;
         target := target data;
         job := {| job_id := job_id (job data); components := sorted |} |} ;;
  ret sorted.

(** Lines 177-188. *)
Definition validationPhase (source : Source) (requested : list string)
  : M MigrationJobData (option Snapshot) :=
  if isSnapshot (source_type source) && truthy (snapshotId source) then
    match snapshotId source with
    | None => ret None
    | Some sid =>
        log (FetchingSnapshot sid) ;;
        match snapshotStore sid with
        | None => throw (Error ("Snapshot " ++ sid ++ " not found"))
        | Some snapshot =>
            log (ValidatingSnapshot (snapshot_name snapshot)) ;;
            call (validateSnapshot (Some snapshot) requested) ;;
            log ValidationSuccessful ;;
            ret (Some snapshot)
        end
    end
  else ret None.

Definition processJob : M MigrationJobData Result :=
  data <- get ;;
  let source := source data in
  let target := target data in
  let migrationJob := job data in
  let idMappings : list IdMapping := [] in
  let totalSteps := length (components migrationJob) in
  let jobTempPath := "tmp/" ++ job_id migrationJob in
  log (Initializing jobTempPath) ;;
  tryCatch
    (snapshot <- validationPhase source (components migrationJob) ;;
     sortedComponents <- sortComponents ;;
     _ <- migrateAll (body source target snapshot totalSteps)
            sortedComponents 0 ;;
     ret {| status := "completed";
            idMappings := idMappings;
            jobId := job_id migrationJob |})
    (fun error =>
       log (FatalError (errorMessage error)) ;;
       throw error).
End Processor.

Definition worker : M MigrationJobData Result :=
  processJob fetchSnapshotFromConvex fetchSnapshotData fetchLiveData.

End Components2.

(** ** part_000: the whole catalog minus [ignoredItems] *)
Module Ignored.

Record InstanceInfo : Type := {
  instance_id : string;
  instance_name : string;
  subdomain : string;
  instance_tags : list string;
  credentials : list (string * string)
}.

Record Source : Type := {
  source_type : SourceType;
  source_instanceInfo : InstanceInfo;
  snapshotId : option string
}.

Record Target : Type := { target_instanceInfo : InstanceInfo }.

Record MigrationJobData : Type := {
  jobId : string;
  job_type : string;
  source : Source;
  target : Target;
  ignoredItems : option (list string);
  translation : option bool;
  translationLocales : option (list string)
}.

Record Result : Type := {
  status : string;
  result_jobId : string
}.

(** The mock table of [fetchSnapshotFromConvex] (lines 91-118). *)
Definition mockSnapshots : list (string * Snapshot) :=
  [ ("1",
     {| snapshot_id := "1";
        snapshot_name := "Snapshot 1";
        tags := ["dev"; "stable"; "backup"];
        parent := Some "1";
        locked := false;
        createdAt := "2024-01-01T00:00:00.000Z";
        breakdown := Some
          [ ("ticket_fields",
             {| count := "10"; size := 4500;
                file := "/1/1/ticket_fields.json" |});
            ("ticket_forms",
             {| count := "1"; size := 2500;
                file := "/1/1/ticket_forms.json" |}) ] |}) ].

(** [return mockSnapshots[snapshotId] || null]. *)
Definition fetchSnapshotFromConvex (snapshotId : string) : option Snapshot :=
  snapshotOrNull mockSnapshots snapshotId.

Definition fetchSnapshotData (component : string)
    (filePath : option string) : exn + SourceData :=
  inr (MockData component filePath).

Definition fetchLiveData (component : string) (instanceInfo : InstanceInfo)
  : exn + SourceData :=
  inr NullData.

(** [MIGRATION_ORDER.filter(comp => !ignoredItems.includes(comp))]. *)
Definition componentsToMigrate (ignoredItems : list string) : list string :=
  filter (fun comp => negb (includes ignoredItems comp)) MIGRATION_ORDER.

(** The job processor (lines 148-222), over its three collaborators. *)
Section Processor.
Variable snapshotStore : string -> option Snapshot.
Variable snapshotData : string -> option string -> exn + SourceData.
Variable liveData : string -> InstanceInfo -> exn + SourceData.

(** The [try] block of the loop (lines 184-201). *)
Definition body (source : Source) (target : Target)
    (snapshot : option Snapshot) (totalSteps : nat)
    (component : string) (currentStep : nat)
  : M MigrationJobData nat :=
  _sourceData <-
    (match isSnapshot (source_type source), snapshot with
     | true, Some snapshot =>
         componentInfo <- call (componentInfoOf snapshot component "size") ;;
         log (FetchingFromSnapshot component (sizeOf componentInfo)) ;;
         call (snapshotData component (fileOf componentInfo))
     | _, _ =>
         log (FetchingFromLive component
                (subdomain (source_instanceInfo source))) ;;
         call (liveData component (source_instanceInfo source))
     end) ;;
  log (Creating component (subdomain (target_instanceInfo target))) ;;
  let currentStep := (currentStep + 1)%nat in
  updateProgress (progressValue currentStep totalSteps) ;;
  ret currentStep.

(** Lines 162-173. *)
Definition validationPhase (source : Source)
  : M MigrationJobData (option Snapshot) :=
  if isSnapshot (source_type source) && truthy (snapshotId source) then
    match snapshotId source with
    | None => ret None
    | Some sid =>
        log (FetchingSnapshot sid) ;;
        match snapshotStore sid with
        | None => throw (Error ("Snapshot " ++ sid ++ " not found"))
        | Some snapshot =>
            log (ValidatingSnapshot (snapshot_name snapshot)) ;;
            call (validateSnapshot (Some snapshot) MIGRATION_ORDER) ;;
            log ValidationSuccessful ;;
            ret (Some snapshot)
        end
    end
  else ret None.

Definition processJob : M MigrationJobData Result :=
  data <- get ;;
  let source := source data in
  let target := target data in
  let jobId := jobId data in
  let ignoredItems :=
    match ignoredItems data with Some l => l | None => [] end in
  let totalSteps := length MIGRATION_ORDER in
  let jobTempPath := "tmp/" ++ jobId in
  log (Initializing jobTempPath) ;;
  tryCatch
    (snapshot <- validationPhase source ;;
     let componentsToMigrate := componentsToMigrate ignoredItems in
     _ <- migrateAll (body source target snapshot totalSteps)
            componentsToMigrate 0 ;;
     ret {| status := "completed"; result_jobId := jobId |})
    (fun error =>
       log (FatalError (errorMessage error)) ;;
       throw error).
End Processor.

Definition worker : M MigrationJobData Result :=
  processJob fetchSnapshotFromConvex fetchSnapshotData fetchLiveData.

End Ignored.

(** ** src/src/queue.ts: components chosen by the job, placeholder snapshot *)
Module Components1.

Record ZendeskCredentials : Type := { token : string; email : string }.

Record InstanceInfo : Type := {
  instance_id : Z;
  instance_name : string;
  subdomain : string;
  instance_tags : list string;
  credentials : ZendeskCredentials
}.

Record Source : Type := {
  source_type : SourceType;
  source_instanceInfo : InstanceInfo;
  snapshotId : option Z
}.

Record Target : Type := { target_instanceInfo : InstanceInfo }.

Record Job : Type := { job_id : string; components : list string }.

Record MigrationJobData : Type := {
  source : Source;
  target : Target;
  job : Job
}.

Record Result : Type := {
  status : string;
  idMappings : list IdMapping;
  jobId : string
}.

(** Truthiness of the optional numeric [snapshotId]. *)
Definition truthyNumber (n : option Z) : bool :=
  match n with
  | Some n => negb (n =? 0)%Z
  | None => false
  end.

(** [{} as Snapshot]: every property is [undefined]. *)
Definition placeholderSnapshot : Snapshot :=
  {| snapshot_id := "";
     snapshot_name := "";
     tags := [];
     parent := None;
     locked := false;
     createdAt := "";
     breakdown := None |}.

Definition fetchSnapshotData (component : string)
    (filePath : option string) : exn + SourceData :=
  inr NullData.

Definition fetchLiveData (component : string) (instanceInfo : InstanceInfo)
  : exn + SourceData :=
  inr NullData.

(** The job processor (lines 118-201), over its two collaborators. *)
Section Processor.
Variable snapshotData : string -> option string -> exn + SourceData.
Variable liveData : string -> InstanceInfo -> exn + SourceData.

(** The [try] block of the loop (lines 147-173). *)
Definition body (source : Source) (totalSteps : nat)
    (component : string) (currentStep : nat)
  : M MigrationJobData nat :=
  _sourceData <-
    (if isSnapshot (source_type source) && truthyNumber (snapshotId source)
     then
       let snapshot := placeholderSnapshot in
       componentInfo <- call (componentInfoOf snapshot component "file") ;;
       call (snapshotData component (fileOf componentInfo))
     else call (liveData component (source_instanceInfo source))) ;;
  log (Processing component (currentStep + 1) totalSteps) ;;
  let currentStep := (currentStep + 1)%nat in
  updateProgress (progressValue currentStep totalSteps) ;;
  ret currentStep.

(** Lines 127-129: the sort of [job.data]'s own array. *)
Definition sortComponents : M MigrationJobData (list string) :=
  data <- get ;;
  let sorted := sortedComponents (components (job data)) in
  put {| source := source data;
         target := target data;
         job := {| job_id := job_id (job data); components := sorted |} |} ;;
  ret sorted.

Definition processJob : M MigrationJobData Result :=
  data <- get ;;
  let source := source data in
  let migrationJob := job data in
  let idMappings : list IdMapping := [] in
  let totalSteps := length (components migrationJob) in
  sortedComponents <- sortComponents ;;
  let jobTempPath := "tmp/" ++ job_id migrationJob in
  log (Initializing jobTempPath) ;;
  tryCatch
    ((if isSnapshot (source_type source)
         && truthyNumber (snapshotId source)
      then
        let snapshot := placeholderSnapshot in
        (* [migrationJob.components] is the array just sorted *)
        call (validateSnapshot1 snapshot sortedComponents)
      else ret tt) ;;
     _ <- migrateAll (body source totalSteps) sortedComponents 0 ;;
     ret {| status := "completed";
            idMappings := idMappings;
            jobId := job_id migrationJob |})
    (fun error =>
       log (FatalError (errorMessage error)) ;;
       throw error).
End Processor.

Definition worker : M MigrationJobData Result :=
  processJob fetchSnapshotData fetchLiveData.

End Components1.

(** ** Observations on a run *)

(** The components whose step was started, in order. *)
Definition startedComponents (t : list Event) : list string :=
  flat_map (fun ev => match ev with Log (Starting c) => [c] | _ => [] end) t.

(** The values passed to [job.updateProgress], in order. *)
Definition progressUpdates (t : list Event) : list float :=
  flat_map (fun ev => match ev with UpdateProgress p => [p] | _ => [] end) t.

(** What a run reports in its first [m] steps when each step reports
    [(currentStep / totalSteps) * 100]. *)
Definition progressSteps (totalSteps m : nat) : list float :=
  map (fun i => progressValue i totalSteps) (seq 1 m).

(** Each value is strictly below the next one, as [<] compares doubles. *)
Fixpoint increasing (l : list float) : bool :=
  match l with
  | [] => true
  | p :: rest =>
      match rest with
      | [] => true
      | q :: _ => (p <? q)%float && increasing rest
      end
  end.

(** Every value is above 0 and at most 100. *)
Definition inPercentRange (l : list float) : bool :=
  forallb (fun p => (0 <? p)%float && (p <=? 100)%float) l.

(** Every value is strictly below 100. *)
Definition belowFull (l : list float) : bool :=
  forallb (fun p => (p <? 100)%float) l.

(** Some value equals 100, as [===] compares doubles. *)
Definition reportsFull (l : list float) : bool :=
  existsb (fun p => (p =? 100)%float) l.

(** The checks a run of [n] steps is expected to pass: its values increase
    and stay in range, the last one is 100 and none before it is. *)
Definition progressInOrder (n : nat) : bool :=
  increasing (progressSteps n n)
  && inPercentRange (progressSteps n n)
  && belowFull (progressSteps n (n - 1))
  && negb (reportsFull (progressSteps n (n - 1)))
  && ((n =? 0)%nat || (progressValue n n =? 100)%float).

(** The catalog position used by the comparator. *)
Definition catalogIndex (c : string) : Z := indexOf MIGRATION_ORDER c.

(** A straight-line reading of the loop, for a [try] block that leaves the job
    data alone, makes the calls [bodyTrace c k] and throws [failure c] when
    that is [Some]. *)
Section LoopReading.
Variable bodyTrace : string -> nat -> list Event.
Variable failure : string -> option exn.

Fixpoint loopTrace (items : list string) (currentStep : nat) : list Event :=
  match items with
  | [] => []
  | c :: rest =>
      (Log (Starting c) :: bodyTrace c currentStep)
      ++ match failure c with
         | Some e => [Log (ErrorProcessing c (errorMessage e))]
         | None => loopTrace rest (S currentStep)
         end
  end%list.

Fixpoint loopOutcome (items : list string) (currentStep : nat) : exn + nat :=
  match items with
  | [] => inr currentStep
  | c :: rest =>
      match failure c with
      | Some e => inl e
      | None => loopOutcome rest (S currentStep)
      end
  end.

(** The components reached: everything up to and including the first one
    that throws. *)
Fixpoint attempted (items : list string) : list string :=
  match items with
  | [] => []
  | c :: rest =>
      c :: match failure c with
           | Some _ => []
           | None => attempted rest
           end
  end.

(** How many components succeeded before the first one that throws. *)
Fixpoint succeededCount (items : list string) : nat :=
  match items with
  | [] => 0
  | c :: rest =>
      match failure c with
      | Some _ => 0
      | None => S (succeededCount rest)
      end
  end.
End LoopReading.

(** The [try] block of part_001, read as a trace and a possible failure. *)
Module Reading2.
Import Components2.
Section Reading.
Variable snapshotData : string -> option string -> exn + SourceData.
Variable liveData : string -> InstanceInfo -> exn + SourceData.
Variables (source : Source) (target : Target) (snapshot : option Snapshot).
Variable totalSteps : nat.

Definition fetched (component : string) : list Event * (exn + SourceData) :=
  match isSnapshot (source_type source), snapshot with
  | true, Some snapshot =>
      match componentInfoOf snapshot component "size" with
      | inl e => ([], inl e)
      | inr info =>
          ([Log (FetchingFromSnapshot component (sizeOf info))],
           snapshotData component (fileOf info))
      end
  | _, _ =>
      ([Log (FetchingFromLive component
               (subdomain (source_instanceInfo source)))],
       liveData component (source_instanceInfo source))
  end.

Definition failure (component : string) : option exn :=
  match snd (fetched component) with
  | inl e => Some e
  | inr _ => None
  end.

Definition bodyTrace (component : string) (currentStep : nat)
  : list Event :=
  (fst (fetched component)
   ++ match snd (fetched component) with
      | inl _ => []
      | inr _ =>
          [ Log (Processing component (currentStep + 1) totalSteps);
            Log (Creating component
                   (subdomain (target_instanceInfo target)));
            UpdateProgress (progressValue (S currentStep) totalSteps) ]
      end)%list.
(** Lines 177-188 read the same way; the phase leaves the job data
    alone. *)
Definition validated (snapshotStore : string -> option Snapshot)
    (requested : list string)
  : list Event * (exn + option Snapshot) :=
  if isSnapshot (source_type source) && truthy (snapshotId source) then
    match snapshotId source with
    | None => ([], inr None)
    | Some sid =>
        match snapshotStore sid with
        | None =>
            ([Log (FetchingSnapshot sid)],
             inl (Error ("Snapshot " ++ sid ++ " not found")))
        | Some snap =>
            match validateSnapshot (Some snap) requested with
            | inl e =>
                ([Log (FetchingSnapshot sid);
                  Log (ValidatingSnapshot (snapshot_name snap))], inl e)
            | inr _ =>
                ([Log (FetchingSnapshot sid);
                  Log (ValidatingSnapshot (snapshot_name snap));
                  Log ValidationSuccessful], inr (Some snap))
            end
        end
    end
  else ([], inr None).
End Reading.

(** The job data once the components array has been sorted in place. *)
Definition sortedData (d : MigrationJobData) : MigrationJobData :=
  {| source := source d;
     target := target d;
     job := {| job_id := job_id (job d);
               components := sortedComponents (components (job d)) |} |}.
End Reading2.

(** The [try] block of part_000, read the same way. *)
Module Reading0.
Import Ignored.
Section Reading.
Variable snapshotData : string -> option string -> exn + SourceData.
Variable liveData : string -> InstanceInfo -> exn + SourceData.
Variables (source : Source) (target : Target) (snapshot : option Snapshot).
Variable totalSteps : nat.

Definition fetched (component : string) : list Event * (exn + SourceData) :=
  match isSnapshot (source_type source), snapshot with
  | true, Some snapshot =>
      match componentInfoOf snapshot component "size" with
      | inl e => ([], inl e)
      | inr info =>
          ([Log (FetchingFromSnapshot component (sizeOf info))],
           snapshotData component (fileOf info))
      end
  | _, _ =>
      ([Log (FetchingFromLive component
               (subdomain (source_instanceInfo source)))],
       liveData component (source_instanceInfo source))
  end.

Definition failure (component : string) : option exn :=
  match snd (fetched component) with
  | inl e => Some e
  | inr _ => None
  end.

Definition bodyTrace (component : string) (currentStep : nat)
  : list Event :=
  (fst (fetched component)
   ++ match snd (fetched component) with
      | inl _ => []
      | inr _ =>
          [ Log (Creating component
                   (subdomain (target_instanceInfo target)));
            UpdateProgress (progressValue (S currentStep) totalSteps) ]
      end)%list.
(** Lines 162-173 read the same way; the phase leaves the job data
    alone. *)
Definition validated (snapshotStore : string -> option Snapshot)
    (requested : list string)
  : list Event * (exn + option Snapshot) :=
  if isSnapshot (source_type source) && truthy (snapshotId source) then
    match snapshotId source with
    | None => ([], inr None)
    | Some sid =>
        match snapshotStore sid with
        | None =>
            ([Log (FetchingSnapshot sid)],
             inl (Error ("Snapshot " ++ sid ++ " not found")))
        | Some snap =>
            match validateSnapshot (Some snap) requested with
            | inl e =>
                ([Log (FetchingSnapshot sid);
                  Log (ValidatingSnapshot (snapshot_name snap))], inl e)
            | inr _ =>
                ([Log (FetchingSnapshot sid);
                  Log (ValidatingSnapshot (snapshot_name snap));
                  Log ValidationSuccessful], inr (Some snap))
            end
        end
    end
  else ([], inr None).
End Reading.
End Reading0.

(** ** Further observations on a run *)

(** The error lines of a run: the per-component ones and the fatal one. *)
Definition errorLines (t : list Event) : list LogLine :=
  flat_map (fun ev =>
              match ev with
              | Log (ErrorProcessing c m) => [ErrorProcessing c m]
              | Log (FatalError m) => [FatalError m]
              | _ => []
              end) t.

(** The components fetched from the live instance, in order. *)
Definition liveFetches (t : list Event) : list string :=
  flat_map (fun ev =>
              match ev with Log (FetchingFromLive c _) => [c] | _ => [] end) t.

(** The components fetched from the snapshot, with the logged size ([None]
    when the line reads [undefined]). *)
Definition snapshotFetches (t : list Event)
  : list (string * option nat) :=
  flat_map (fun ev =>
              match ev with
              | Log (FetchingFromSnapshot c n) => [(c, n)]
              | _ => []
              end) t.

(** The [Processing] lines of a run: component, step and total. *)
Definition processingLines (t : list Event) : list (string * nat * nat) :=
  flat_map (fun ev =>
              match ev with
              | Log (Processing c k n) => [(c, k, n)]
              | _ => []
              end) t.

(** The [try] block of src/src/queue.ts, read as a trace and a possible
    failure. *)
Module Reading1.
Import Components1.
Section Reading.
Variable snapshotData : string -> option string -> exn + SourceData.
Variable liveData : string -> InstanceInfo -> exn + SourceData.
Variable source : Source.
Variable totalSteps : nat.

Definition fetched (component : string) : exn + SourceData :=
  if isSnapshot (source_type source) && truthyNumber (snapshotId source) then
    match componentInfoOf placeholderSnapshot component "file" with
    | inl e => inl e
    | inr info => snapshotData component (fileOf info)
    end
  else liveData component (source_instanceInfo source).

Definition failure (component : string) : option exn :=
  match fetched component with
  | inl e => Some e
  | inr _ => None
  end.

Definition bodyTrace (component : string) (currentStep : nat)
  : list Event :=
  match fetched component with
  | inl _ => []
  | inr _ =>
      [ Log (Processing component (currentStep + 1) totalSteps);
        UpdateProgress (progressValue (S currentStep) totalSteps) ]
  end.
End Reading.

(** The job data once the components array has been sorted in place. *)
Definition sortedData (d : MigrationJobData) : MigrationJobData :=
  {| source := source d;
     target := target d;
     job := {| job_id := job_id (job d);
               components := sortedComponents (components (job d)) |} |}.
End Reading1.

(** ** src/src/index.ts, second revision: the [/migration] route

    The handler of the revision whose body carries [source.type] and
    [components]; its job data has the shape the worker of src/src/queue.ts
    reads.  [Date.now()] is the argument [now]; [migrationQueue.add] is the
    pair of the job name and the job data it is given; [reply.send] is the
    reply object. *)
Module Intake1.

Record MigrationJobBody : Type := {
  body_source : Components1.Source;
  body_target : Components1.Target;
  body_components : list string
}.

Record SourceDetails : Type := {
  details_source_name : string;
  details_source_type : SourceType;
  details_snapshotId : option Z
}.

Record Details : Type := {
  details_source : SourceDetails;
  details_target_name : string;
  details_components : list string
}.

Record Reply : Type := {
  reply_jobId : string;
  reply_status : string;
  reply_message : string;
  details : Details
}.

(** Lines 280-308. *)
Definition postMigration (now : nat) (body : MigrationJobBody)
  : (string * Components1.MigrationJobData) * Reply :=
  let jobId := "migration-" ++ showNat now in
  let added :=
    (jobId,
     {| Components1.source := body_source body;
        Components1.target := body_target body;
        Components1.job :=
          {| Components1.job_id := jobId;
             Components1.components := body_components body |} |}) in
  let reply :=
    {| reply_jobId := jobId;
       reply_status := "queued";
       reply_message := "Migration job has been queued";
       details :=
         {| details_source :=
              {| details_source_name :=
                   Components1.instance_name
                     (Components1.source_instanceInfo (body_source body));
                 details_source_type :=
                   Components1.source_type (body_source body);
                 (* ...(snapshotId && { snapshotId }) *)
                 details_snapshotId :=
                   if Components1.truthyNumber
                        (Components1.snapshotId (body_source body))
                   then Components1.snapshotId (body_source body)
                   else None |};
            details_target_name :=
              Components1.instance_name
                (Components1.target_instanceInfo (body_target body));
            details_components := body_components body |} |} in
  (added, reply).

End Intake1.

(** ** The Identifier Translator *)

(** The source files declare only the [IdMapping] interface and the
    job-local [idMappings] array; no function inserts into the array or looks
    a key up.  The two operations below follow the specification.  The table
    is that array; a key is the pair [(type, oldId)], compared as [===]
    compares a [string | number]. *)
Module IdentifierTranslator.

(** Modelled from the spec: the two failures of the Identifier Translator
    (section 4.3), which the source does not declare. *)
Inductive TranslatorError : Type := DuplicateMapping | NotFound.

Definition Id_eqb (a b : Id) : bool :=
  match a, b with
  | IdString x, IdString y => String.eqb x y
  | IdNumber x, IdNumber y => (x =? y)%Z
  | _, _ => false
  end.

Definition hasKey (entityType : string) (sourceId : Id) (m : IdMapping)
  : bool :=
  String.eqb (type m) entityType && Id_eqb (oldId m) sourceId.

(** Modelled from the spec: [resolve(entityType, sourceId) -> targetId |
    NotFound] (section 4.3); the source has no lookup over [idMappings]. *)
Definition resolve (table : list IdMapping) (entityType : string)
    (sourceId : Id) : TranslatorError + Id :=
  match find (hasKey entityType sourceId) table with
  | Some m => inr (newId m)
  | None => inl NotFound
  end.

(** Modelled from the spec: [record(entityType, sourceId, targetId,
    metadata)] (section 4.3); the source never inserts into [idMappings].
    The result is the table after the call and whether the call failed; a
    failing call leaves the table as it was. *)
Definition record (entityType : string) (sourceId targetId : Id)
    (meta : option (list (string * string))) (table : list IdMapping)
  : list IdMapping * (TranslatorError + unit) :=
  if existsb (hasKey entityType sourceId) table then
    (table, inl DuplicateMapping)
  else
    ((table ++ [ {| oldId := sourceId; newId := targetId;
                    type := entityType; metadata := meta |} ])%list,
     inr tt).

End IdentifierTranslator.

(** ** Sample jobs *)
Module Samples.

Definition info2 (sub : string) : Components2.InstanceInfo :=
  {| Components2.instance_id := "42";
     Components2.instance_name := "Acme";
     Components2.subdomain := sub;
     Components2.instance_tags := [];
     Components2.credentials :=
       {| Components2.token := "t"; Components2.email := "ops@acme.test" |} |}.

Definition job2 (sourceType : SourceType) (sid : option string)
    (requested : list string) : Components2.MigrationJobData :=
  {| Components2.source :=
       {| Components2.source_type := sourceType;
          Components2.source_instanceInfo := info2 "acme";
          Components2.snapshotId := sid |};
     Components2.target :=
       {| Components2.target_instanceInfo := info2 "acme-new" |};
     Components2.job :=
       {| Components2.job_id := "migration-1";
          Components2.components := requested |} |}.

Definition info0 (sub : string) : Ignored.InstanceInfo :=
  {| Ignored.instance_id := "42";
     Ignored.instance_name := "Acme";
     Ignored.subdomain := sub;
     Ignored.instance_tags := [];
     Ignored.credentials := [("token", "t")] |}.

Definition job0 (sourceType : SourceType) (sid : option string)
    (ignored : option (list string)) : Ignored.MigrationJobData :=
  {| Ignored.jobId := "migration-1";
     Ignored.job_type := "full";
     Ignored.source :=
       {| Ignored.source_type := sourceType;
          Ignored.source_instanceInfo := info0 "acme";
          Ignored.snapshotId := sid |};
     Ignored.target := {| Ignored.target_instanceInfo := info0 "acme-new" |};
     Ignored.ignoredItems := ignored;
     Ignored.translation := None;
     Ignored.translationLocales := None |}.

Definition info1 (sub : string) : Components1.InstanceInfo :=
  {| Components1.instance_id := 42;
     Components1.instance_name := "Acme";
     Components1.subdomain := sub;
     Components1.instance_tags := [];
     Components1.credentials :=
       {| Components1.token := "t"; Components1.email := "ops@acme.test" |} |}.

Definition job1 (sourceType : SourceType) (sid : option Z)
    (requested : list string) : Components1.MigrationJobData :=
  {| Components1.source :=
       {| Components1.source_type := sourceType;
          Components1.source_instanceInfo := info1 "acme";
          Components1.snapshotId := sid |};
     Components1.target :=
       {| Components1.target_instanceInfo := info1 "acme-new" |};
     Components1.job :=
       {| Components1.job_id := "migration-1";
          Components1.components := requested |} |}.

(** A live-instance client that throws on [macros]. *)
Definition macrosFail {I : Type} (component : string) (_ : I)
  : exn + SourceData :=
  if String.eqb component "macros" then inl (Error "429 Too Many Requests")
  else inr NullData.

(** A live-instance client that rejects on [macros] with a value that is
    not an [Error]. *)
Definition macrosThrow {I : Type} (component : string) (_ : I)
  : exn + SourceData :=
  if String.eqb component "macros" then inl (Thrown "429 Too Many Requests")
  else inr NullData.

(** A locked snapshot with an empty breakdown. *)
Definition lockedEmpty : Snapshot :=
  {| snapshot_id := "7"; snapshot_name := "Reserved"; tags := [];
     parent := Some "1"; locked := true;
     createdAt := "2024-02-01T00:00:00.000Z"; breakdown := Some [] |}.

(** A locked snapshot holding [groups]. *)
Definition lockedGroups : Snapshot :=
  {| snapshot_id := "8"; snapshot_name := "Reserved"; tags := [];
     parent := Some "1"; locked := true;
     createdAt := "2024-02-01T00:00:00.000Z";
     breakdown := Some
       [ ("groups",
          {| count := "3"; size := 120; file := "/1/8/groups.json" |}) ] |}.

(** A snapshot that holds every component of the catalog, and a store that
    knows it under id [9]. *)
Definition fullSnapshot : Snapshot :=
  {| snapshot_id := "9"; snapshot_name := "Full"; tags := [];
     parent := Some "1"; locked := false;
     createdAt := "2024-03-01T00:00:00.000Z";
     breakdown := Some
       (map (fun c =>
               (c, {| count := "1"; size := 100;
                      file := "/1/9/" ++ c ++ ".json" |}))
          MIGRATION_ORDER) |}.

Definition fullStore (sid : string) : option Snapshot :=
  if String.eqb sid "9" then Some fullSnapshot else None.

(** A store that knows the locked snapshot [lockedGroups] under id [8]. *)
Definition lockedStore (sid : string) : option Snapshot :=
  if String.eqb sid "8" then Some lockedGroups else None.

(** A request body for the [/migration] route of the second revision of
    index.ts. *)
Definition body1 (sourceType : SourceType) (sid : option Z)
    (requested : list string) : Intake1.MigrationJobBody :=
  {| Intake1.body_source :=
       {| Components1.source_type := sourceType;
          Components1.source_instanceInfo := info1 "acme";
          Components1.snapshotId := sid |};
     Intake1.body_target :=
       {| Components1.target_instanceInfo := info1 "acme-new" |};
     Intake1.body_components := requested |}.

End Samples.

(** * Properties *)

(** ** The monad and the loop *)

Section LoopFacts.
Context {S : Type} (body : string -> nat -> M S nat).
Variable bodyTrace : string -> nat -> list Event.
Variable failure : string -> option exn.
Variable totalSteps : nat.

Hypothesis body_reading : forall c k s,
  body c k s =
    (bodyTrace c k, s,
     match failure c with Some e => inl e | None => inr (Datatypes.S k) end).
Hypothesis body_starts_nothing : forall c k,
  startedComponents (bodyTrace c k) = [].
Hypothesis body_progress : forall c k,
  progressUpdates (bodyTrace c k) =
    match failure c with
    | Some _ => []
    | None => [progressValue (Datatypes.S k) totalSteps]
    end.

Lemma migrateAll_reading : forall items k s,
  migrateAll body items k s =
    (loopTrace bodyTrace failure items k, s, loopOutcome failure items k).
Proof.
  induction items as [|c rest IH]; intros k s; simpl.
  - reflexivity.
  - unfold bind at 1. unfold migrateComponent, bind, log, emit, tryCatch.
    rewrite body_reading.
    destruct (failure c) as [e|].
    + reflexivity.
    + rewrite IH. reflexivity.
Qed.

Lemma startedComponents_app : forall t1 t2,
  startedComponents (t1 ++ t2)
  = (startedComponents t1 ++ startedComponents t2)%list.
Proof. intros. unfold startedComponents. apply flat_map_app. Qed.

Lemma progressUpdates_app : forall t1 t2,
  progressUpdates (t1 ++ t2)
  = (progressUpdates t1 ++ progressUpdates t2)%list.
Proof. intros. unfold progressUpdates. apply flat_map_app. Qed.

Lemma loopTrace_started : forall items k,
  startedComponents (loopTrace bodyTrace failure items k)
  = attempted failure items.
Proof.
  induction items as [|c rest IH]; intros k; simpl; [reflexivity|].
  rewrite startedComponents_app, body_starts_nothing. simpl.
  destruct (failure c); [reflexivity | now rewrite IH].
Qed.

Lemma loopTrace_progress : forall items k,
  progressUpdates (loopTrace bodyTrace failure items k) =
    map (fun i => progressValue i totalSteps)
        (seq (Datatypes.S k) (succeededCount failure items)).
Proof.
  induction items as [|c rest IH]; intros k; simpl; [reflexivity|].
  rewrite progressUpdates_app, body_progress.
  destruct (failure c); simpl; [reflexivity | now rewrite IH].
Qed.

Lemma loopOutcome_ok : forall items k,
  (forall c, In c items -> failure c = None) ->
  loopOutcome failure items k = inr (k + length items)%nat
  /\ attempted failure items = items
  /\ succeededCount failure items = length items.
Proof.
  induction items as [|c rest IH]; intros k Hok; simpl.
  - rewrite Nat.add_0_r. auto.
  - rewrite (Hok c (or_introl eq_refl)).
    destruct (IH (Datatypes.S k) (fun c' H => Hok c' (or_intror H)))
      as (-> & -> & ->).
    repeat split. f_equal. lia.
Qed.

Lemma loopOutcome_succeeds : forall items k n,
  loopOutcome failure items k = inr n ->
  forall c, In c items -> failure c = None.
Proof.
  induction items as [|c0 rest IH]; intros k n H c Hin; [destruct Hin|].
  simpl in H. destruct (failure c0) eqn:E; [discriminate|].
  destruct Hin as [<-|Hin]; [assumption|]. exact (IH _ _ H c Hin).
Qed.

Lemma loop_fails_at : forall before c after e k,
  (forall c', In c' before -> failure c' = None) ->
  failure c = Some e ->
  loopOutcome failure (before ++ c :: after) k = inl e
  /\ attempted failure (before ++ c :: after) = (before ++ [c])%list
  /\ succeededCount failure (before ++ c :: after) = length before
  /\ exists t, loopTrace bodyTrace failure (before ++ c :: after) k
               = (t ++ [Log (ErrorProcessing c (errorMessage e))])%list.
Proof.
  induction before as [|b rest IH]; intros c after e k Hok Hc; simpl.
  - rewrite Hc. repeat split.
    exists (Log (Starting c) :: bodyTrace c k). reflexivity.
  - rewrite (Hok b (or_introl eq_refl)).
    destruct (IH c after e (Datatypes.S k)
                (fun c' H => Hok c' (or_intror H)) Hc)
      as (-> & -> & -> & t & ->).
    repeat split.
    exists ((Log (Starting b) :: bodyTrace b k) ++ t)%list.
    now rewrite <- app_assoc.
Qed.
End LoopFacts.

(** ** part_001 read as a straight line *)
Module Facts2.
Import Components2.
Section Facts.
Variable snapshotStore : string -> option Snapshot.
Variable snapshotData : string -> option string -> exn + SourceData.
Variable liveData : string -> InstanceInfo -> exn + SourceData.

Lemma body2_reading : forall src tgt snapshot totalSteps c k s,
  body snapshotData liveData src tgt snapshot totalSteps c k s =
    (Reading2.bodyTrace snapshotData liveData src tgt snapshot
       totalSteps c k, s,
     match Reading2.failure snapshotData liveData src snapshot c with
     | Some e => inl e
     | None => inr (S k)
     end).
Proof.
  intros. unfold body, Reading2.bodyTrace, Reading2.failure, Reading2.fetched.
  rewrite Nat.add_1_r.
  destruct (isSnapshot (source_type src)), snapshot as [snap|];
    unfold bind, call, log, emit, updateProgress, ret; simpl.
  1: destruct (componentInfoOf snap c "size") as [e|info]; simpl;
       [reflexivity|].
  1: destruct (snapshotData c (fileOf info)) as [e|dat]; reflexivity.
  all: destruct (liveData c (source_instanceInfo src)) as [e|dat];
    reflexivity.
Qed.

Lemma body2_starts_nothing : forall src tgt snapshot totalSteps c k,
  startedComponents
    (Reading2.bodyTrace snapshotData liveData src tgt snapshot
       totalSteps c k) = [].
Proof.
  intros. unfold Reading2.bodyTrace, Reading2.fetched.
  destruct (isSnapshot (source_type src)), snapshot as [snap|]; simpl.
  1: destruct (componentInfoOf snap c "size") as [e|info]; simpl;
       [reflexivity|].
  1: destruct (snapshotData c (fileOf info)); reflexivity.
  all: destruct (liveData c (source_instanceInfo src)); reflexivity.
Qed.

Lemma body2_progress : forall src tgt snapshot totalSteps c k,
  progressUpdates
    (Reading2.bodyTrace snapshotData liveData src tgt snapshot
       totalSteps c k) =
    match Reading2.failure snapshotData liveData src snapshot c with
    | Some _ => []
    | None => [progressValue (S k) totalSteps]
    end.
Proof.
  intros. unfold Reading2.bodyTrace, Reading2.failure, Reading2.fetched.
  destruct (isSnapshot (source_type src)), snapshot as [snap|]; simpl.
  1: destruct (componentInfoOf snap c "size") as [e|info]; simpl;
       [reflexivity|].
  1: destruct (snapshotData c (fileOf info)); reflexivity.
  all: destruct (liveData c (source_instanceInfo src)); reflexivity.
Qed.

Lemma validationPhase2_reading : forall src requested s,
  validationPhase snapshotStore src requested s =
    (fst (Reading2.validated src snapshotStore requested), s,
     snd (Reading2.validated src snapshotStore requested)).
Proof.
  intros. unfold validationPhase, Reading2.validated.
  destruct (isSnapshot (source_type src) && truthy (snapshotId src));
    [|reflexivity].
  destruct (snapshotId src) as [sid|]; [|reflexivity].
  unfold bind, log, emit, throw, call, ret.
  destruct (snapshotStore sid) as [snap|]; [|reflexivity].
  destruct (validateSnapshot (Some snap) requested) as [e|[]]; reflexivity.
Qed.

(** The validation phase starts no component and reports no progress. *)
Lemma validated2_quiet : forall src store requested,
  startedComponents (fst (Reading2.validated src store requested)) = []
  /\ progressUpdates (fst (Reading2.validated src store requested)) = [].
Proof.
  intros. unfold Reading2.validated.
  destruct (isSnapshot (source_type src) && truthy (snapshotId src));
    [|split; reflexivity].
  destruct (snapshotId src) as [sid|]; [|split; reflexivity].
  destruct (store sid) as [snap|]; [|split; reflexivity].
  destruct (validateSnapshot (Some snap) requested) as [e|[]];
    split; reflexivity.
Qed.

(** The whole processor, as one case analysis. *)
Lemma processJob2_reading : forall d,
  let requested := components (job d) in
  let v := Reading2.validated (source d) snapshotStore requested in
  processJob snapshotStore snapshotData liveData d =
    match snd v with
    | inl e =>
        ((Log (Initializing ("tmp/" ++ job_id (job d))) :: fst v)
           ++ [Log (FatalError (errorMessage e))], d, inl e)
    | inr snapshot =>
        let failure :=
          Reading2.failure snapshotData liveData (source d) snapshot in
        let t :=
          loopTrace
            (Reading2.bodyTrace snapshotData liveData (source d) (target d)
               snapshot (length requested))
            failure (sortedComponents requested) 0 in
        match loopOutcome failure (sortedComponents requested) 0 with
        | inl e =>
            ((Log (Initializing ("tmp/" ++ job_id (job d))) :: fst v)
               ++ t ++ [Log (FatalError (errorMessage e))],
             Reading2.sortedData d, inl e)
        | inr _ =>
            ((Log (Initializing ("tmp/" ++ job_id (job d))) :: fst v) ++ t,
             Reading2.sortedData d,
             inr {| status := "completed";
                    idMappings := [];
                    jobId := job_id (job d) |})
        end
    end%list.
Proof.
  intros d requested v. unfold processJob.
  unfold bind at 1. unfold get at 1. cbv iota beta.
  unfold bind at 1. unfold log at 1, emit at 1. cbv iota beta.
  unfold tryCatch.
  unfold bind at 1. rewrite validationPhase2_reading.
  fold requested. fold v.
  destruct (snd v) as [e|snapshot].
  - unfold bind, log, emit, throw. simpl. reflexivity.
  - unfold bind at 1. unfold sortComponents.
    unfold bind at 1. unfold get at 1. cbv iota beta.
    unfold bind at 1. unfold put at 1. cbv iota beta.
    unfold ret at 1. cbv iota beta.
    unfold bind at 1.
    rewrite (migrateAll_reading _ _ _ (body2_reading _ _ _ _)).
    fold requested. fold (Reading2.sortedData d).
    destruct (loopOutcome _ (sortedComponents requested) 0) as [e|n].
    + unfold bind, log, emit, throw. simpl.
      rewrite ?app_nil_r, <- ?app_assoc. reflexivity.
    + unfold ret. simpl. rewrite ?app_nil_r. reflexivity.
Qed.
End Facts.
End Facts2.

(** ** part_000 read as a straight line *)
Module Facts0.
Import Ignored.
Section Facts.
Variable snapshotStore : string -> option Snapshot.
Variable snapshotData : string -> option string -> exn + SourceData.
Variable liveData : string -> InstanceInfo -> exn + SourceData.

Lemma body0_reading : forall src tgt snapshot totalSteps c k s,
  body snapshotData liveData src tgt snapshot totalSteps c k s =
    (Reading0.bodyTrace snapshotData liveData src tgt snapshot
       totalSteps c k, s,
     match Reading0.failure snapshotData liveData src snapshot c with
     | Some e => inl e
     | None => inr (S k)
     end).
Proof.
  intros. unfold body, Reading0.bodyTrace, Reading0.failure, Reading0.fetched.
  rewrite Nat.add_1_r.
  destruct (isSnapshot (source_type src)), snapshot as [snap|];
    unfold bind, call, log, emit, updateProgress, ret; simpl.
  1: destruct (componentInfoOf snap c "size") as [e|info]; simpl;
       [reflexivity|].
  1: destruct (snapshotData c (fileOf info)) as [e|dat]; reflexivity.
  all: destruct (liveData c (source_instanceInfo src)) as [e|dat];
    reflexivity.
Qed.

Lemma body0_starts_nothing : forall src tgt snapshot totalSteps c k,
  startedComponents
    (Reading0.bodyTrace snapshotData liveData src tgt snapshot
       totalSteps c k) = [].
Proof.
  intros. unfold Reading0.bodyTrace, Reading0.fetched.
  destruct (isSnapshot (source_type src)), snapshot as [snap|]; simpl.
  1: destruct (componentInfoOf snap c "size") as [e|info]; simpl;
       [reflexivity|].
  1: destruct (snapshotData c (fileOf info)); reflexivity.
  all: destruct (liveData c (source_instanceInfo src)); reflexivity.
Qed.

Lemma body0_progress : forall src tgt snapshot totalSteps c k,
  progressUpdates
    (Reading0.bodyTrace snapshotData liveData src tgt snapshot
       totalSteps c k) =
    match Reading0.failure snapshotData liveData src snapshot c with
    | Some _ => []
    | None => [progressValue (S k) totalSteps]
    end.
Proof.
  intros. unfold Reading0.bodyTrace, Reading0.failure, Reading0.fetched.
  destruct (isSnapshot (source_type src)), snapshot as [snap|]; simpl.
  1: destruct (componentInfoOf snap c "size") as [e|info]; simpl;
       [reflexivity|].
  1: destruct (snapshotData c (fileOf info)); reflexivity.
  all: destruct (liveData c (source_instanceInfo src)); reflexivity.
Qed.

Lemma validationPhase0_reading : forall src s,
  validationPhase snapshotStore src s =
    (fst (Reading0.validated src snapshotStore MIGRATION_ORDER), s,
     snd (Reading0.validated src snapshotStore MIGRATION_ORDER)).
Proof.
  intros. unfold validationPhase, Reading0.validated.
  destruct (isSnapshot (source_type src) && truthy (snapshotId src));
    [|reflexivity].
  destruct (snapshotId src) as [sid|]; [|reflexivity].
  unfold bind, log, emit, throw, call, ret.
  destruct (snapshotStore sid) as [snap|]; [|reflexivity].
  destruct (validateSnapshot (Some snap) MIGRATION_ORDER) as [e|[]];
    reflexivity.
Qed.

(** The validation phase starts no component and reports no progress. *)
Lemma validated0_quiet : forall src store requested,
  startedComponents (fst (Reading0.validated src store requested)) = []
  /\ progressUpdates (fst (Reading0.validated src store requested)) = [].
Proof.
  intros. unfold Reading0.validated.
  destruct (isSnapshot (source_type src) && truthy (snapshotId src));
    [|split; reflexivity].
  destruct (snapshotId src) as [sid|]; [|split; reflexivity].
  destruct (store sid) as [snap|]; [|split; reflexivity].
  destruct (validateSnapshot (Some snap) requested) as [e|[]];
    split; reflexivity.
Qed.

(** The whole processor, as one case analysis. *)
Lemma processJob0_reading : forall d,
  let ignored := match ignoredItems d with Some l => l | None => [] end in
  let v := Reading0.validated (source d) snapshotStore MIGRATION_ORDER in
  processJob snapshotStore snapshotData liveData d =
    match snd v with
    | inl e =>
        ((Log (Initializing ("tmp/" ++ jobId d)) :: fst v)
           ++ [Log (FatalError (errorMessage e))], d, inl e)
    | inr snapshot =>
        let failure :=
          Reading0.failure snapshotData liveData (source d) snapshot in
        let t :=
          loopTrace
            (Reading0.bodyTrace snapshotData liveData (source d) (target d)
               snapshot (length MIGRATION_ORDER))
            failure (componentsToMigrate ignored) 0 in
        match loopOutcome failure (componentsToMigrate ignored) 0 with
        | inl e =>
            ((Log (Initializing ("tmp/" ++ jobId d)) :: fst v)
               ++ t ++ [Log (FatalError (errorMessage e))], d, inl e)
        | inr _ =>
            ((Log (Initializing ("tmp/" ++ jobId d)) :: fst v) ++ t, d,
             inr {| status := "completed"; result_jobId := jobId d |})
        end
    end%list.
Proof.
  intros d ignored v. unfold processJob.
  unfold bind at 1. unfold get at 1. cbv iota beta.
  unfold bind at 1. unfold log at 1, emit at 1. cbv iota beta.
  unfold tryCatch.
  unfold bind at 1. rewrite validationPhase0_reading.
  fold ignored. fold v.
  destruct (snd v) as [e|snapshot].
  - unfold bind, log, emit, throw. simpl. reflexivity.
  - unfold bind at 1.
    rewrite (migrateAll_reading _ _ _ (body0_reading _ _ _ _)).
    destruct (loopOutcome _ (componentsToMigrate ignored) 0) as [e|n].
    + unfold bind, log, emit, throw. simpl.
      rewrite ?app_nil_r, <- ?app_assoc. reflexivity.
    + unfold ret. simpl. rewrite ?app_nil_r. reflexivity.
Qed.
End Facts.
End Facts0.

(** ** The ordered component list *)

Section SortFacts.
Context {A : Type} (compareFn : A -> A -> Z) (key : A -> Z).
Hypothesis compare_by_key : forall a b, compareFn a b = (key a - key b)%Z.

Lemma insertSorted_perm : forall x l,
  Permutation (x :: l) (insertSorted compareFn x l).
Proof.
  induction l as [|y rest IH]; simpl; [apply Permutation_refl|].
  destruct (compareFn x y <=? 0)%Z; [apply Permutation_refl|].
  eapply perm_trans; [apply perm_swap|]. now apply perm_skip.
Qed.

Lemma arraySort_perm : forall l, Permutation l (arraySort compareFn l).
Proof.
  induction l as [|x rest IH]; simpl; [constructor|].
  eapply perm_trans; [|apply insertSorted_perm]. now apply perm_skip.
Qed.

Lemma insertSorted_sorted : forall x l,
  StronglySorted (fun a b => (key a <= key b)%Z) l ->
  StronglySorted (fun a b => (key a <= key b)%Z)
    (insertSorted compareFn x l).
Proof.
  induction l as [|y rest IH]; intros Hs; simpl.
  - constructor; constructor.
  - inversion Hs as [|? ? Hrest Hall]; subst.
    rewrite compare_by_key.
    destruct (key x - key y <=? 0)%Z eqn:E.
    + apply Z.leb_le in E. constructor; [assumption|].
      constructor; [lia|].
      eapply Forall_impl; [|exact Hall]. simpl. intros; lia.
    + apply Z.leb_gt in E. constructor; [now apply IH|].
      apply Forall_forall. intros z Hz.
      apply (Permutation_in _ (Permutation_sym (insertSorted_perm x rest)))
        in Hz.
      destruct Hz as [<-|Hz]; [lia|].
      rewrite Forall_forall in Hall. now apply Hall.
Qed.

Lemma arraySort_sorted : forall l,
  StronglySorted (fun a b => (key a <= key b)%Z) (arraySort compareFn l).
Proof.
  induction l as [|x rest IH]; simpl; [constructor|].
  now apply insertSorted_sorted.
Qed.

(** Two lists in strictly increasing key order with the same elements are
    the same list. *)
Lemma strictly_sorted_unique : forall l l' : list A,
  StronglySorted (fun a b => (key a < key b)%Z) l ->
  StronglySorted (fun a b => (key a < key b)%Z) l' ->
  (forall x, In x l <-> In x l') ->
  l = l'.
Proof.
  induction l as [|a rest IH]; intros [|a' rest'] Hs Hs' Hin.
  - reflexivity.
  - exfalso. apply (proj2 (Hin a')). now left.
  - exfalso. apply (proj1 (Hin a)). now left.
  - inversion Hs as [|? ? Hrest Hall]; subst.
    inversion Hs' as [|? ? Hrest' Hall']; subst.
    rewrite Forall_forall in Hall, Hall'.
    assert (a = a') as <-.
    { destruct (proj1 (Hin a) (or_introl eq_refl)) as [E|Ha]; [now symmetry|].
      destruct (proj2 (Hin a') (or_introl eq_refl)) as [E|Ha']; [assumption|].
      specialize (Hall _ Ha'). specialize (Hall' _ Ha). lia. }
    f_equal. apply IH; try assumption.
    intros x; split; intros Hx.
    + destruct (proj1 (Hin x) (or_intror Hx)) as [<-|H]; [|assumption].
      specialize (Hall _ Hx). lia.
    + destruct (proj2 (Hin x) (or_intror Hx)) as [<-|H]; [|assumption].
      specialize (Hall' _ Hx). lia.
Qed.

(** Sorted without repetition by an injective key is strictly sorted. *)
Lemma sorted_nodup_strict : forall l : list A,
  (forall a b, In a l -> In b l -> key a = key b -> a = b) ->
  NoDup l ->
  StronglySorted (fun a b => (key a <= key b)%Z) l ->
  StronglySorted (fun a b => (key a < key b)%Z) l.
Proof.
  induction l as [|a rest IH]; intros Hinj Hnd Hs; [constructor|].
  inversion Hnd as [|? ? Hnotin Hnd']; subst.
  inversion Hs as [|? ? Hrest Hall]; subst.
  constructor.
  - apply IH; try assumption. intros; apply Hinj; simpl; auto.
  - rewrite Forall_forall in *. intros b Hb.
    specialize (Hall _ Hb). simpl in Hall.
    destruct (Z.eq_dec (key a) (key b)) as [E|]; [|lia].
    exfalso. apply Hnotin.
    rewrite (Hinj a b (or_introl eq_refl) (or_intror Hb) E). exact Hb.
Qed.

Lemma filter_strictly_sorted : forall (p : A -> bool) (l : list A),
  StronglySorted (fun a b => (key a < key b)%Z) l ->
  StronglySorted (fun a b => (key a < key b)%Z) (filter p l).
Proof.
  induction l as [|a rest IH]; intros Hs; simpl; [constructor|].
  inversion Hs as [|? ? Hrest Hall]; subst.
  destruct (p a); [|now apply IH].
  constructor; [now apply IH|].
  rewrite Forall_forall in *. intros b Hb.
  apply filter_In in Hb. now apply Hall.
Qed.
End SortFacts.

Lemma indexOfFrom_absent : forall l i x,
  ~ In x l -> indexOfFrom i l x = (-1)%Z.
Proof.
  induction l as [|y rest IH]; intros i x Hx; simpl; [reflexivity|].
  destruct (String.eqb_spec y x) as [->|_]; [exfalso; apply Hx; now left|].
  apply IH. intros H. apply Hx. now right.
Qed.

Lemma indexOfFrom_present : forall l i x,
  In x l ->
  (i <= indexOfFrom i l x)%Z
  /\ nth_error l (Z.to_nat (indexOfFrom i l x - i)) = Some x.
Proof.
  induction l as [|y rest IH]; intros i x Hx; [destruct Hx|]. simpl.
  destruct (String.eqb_spec y x) as [->|Hne].
  - split; [lia|]. now rewrite Z.sub_diag.
  - destruct Hx as [E|Hx]; [contradiction|].
    destruct (IH (i + 1)%Z x Hx) as [Hle Hnth]. split; [lia|].
    replace (Z.to_nat (indexOfFrom (i + 1) rest x - i))
      with (S (Z.to_nat (indexOfFrom (i + 1) rest x - (i + 1)))) by lia.
    exact Hnth.
Qed.

Lemma indexOf_injective : forall l x y,
  In x l -> In y l -> indexOf l x = indexOf l y -> x = y.
Proof.
  unfold indexOf. intros l x y Hx Hy E.
  destruct (indexOfFrom_present l 0 x Hx) as [_ Nx].
  destruct (indexOfFrom_present l 0 y Hy) as [_ Ny].
  rewrite E in Nx. congruence.
Qed.

Lemma catalogIndex_known : forall c,
  In c MIGRATION_ORDER <-> (0 <= catalogIndex c)%Z.
Proof.
  intros c. unfold catalogIndex, indexOf. split.
  - intros H. now destruct (indexOfFrom_present _ 0 c H).
  - intros H. destruct (in_dec string_dec c MIGRATION_ORDER) as [|Hn];
      [assumption|].
    rewrite (indexOfFrom_absent _ 0 c Hn) in H. lia.
Qed.

Lemma includes_In : forall l x, includes l x = true <-> In x l.
Proof.
  intros l x. unfold includes. rewrite existsb_exists. split.
  - intros (y & Hy & E). apply String.eqb_eq in E. now subst.
  - intros H. exists x. split; [assumption|apply String.eqb_refl].
Qed.

Lemma MIGRATION_ORDER_strictly_sorted :
  StronglySorted (fun a b => (catalogIndex a < catalogIndex b)%Z)
    MIGRATION_ORDER.
Proof.
  unfold MIGRATION_ORDER.
  repeat (constructor; [|repeat (constructor; [vm_compute; reflexivity|])]).
  all: try constructor.
Qed.

Lemma startedComponents_cons : forall ev t,
  startedComponents (ev :: t)
  = (startedComponents [ev] ++ startedComponents t)%list.
Proof. intros. apply (startedComponents_app [ev] t). Qed.

Lemma progressUpdates_cons : forall ev t,
  progressUpdates (ev :: t)
  = (progressUpdates [ev] ++ progressUpdates t)%list.
Proof. intros. apply (progressUpdates_app [ev] t). Qed.

Lemma sortedComponents_perm : forall requested,
  Permutation requested (sortedComponents requested).
Proof. intros. apply arraySort_perm. Qed.

Lemma sortedComponents_sorted : forall requested,
  StronglySorted (fun a b => (catalogIndex a <= catalogIndex b)%Z)
    (sortedComponents requested).
Proof.
  intros. apply (arraySort_sorted byMigrationOrder catalogIndex).
  reflexivity.
Qed.

(** On names of the catalog without repetition the sort is the catalog
    filtered by membership. *)
Lemma sortedComponents_known : forall requested,
  NoDup requested ->
  (forall c, In c requested -> In c MIGRATION_ORDER) ->
  sortedComponents requested = filter (includes requested) MIGRATION_ORDER.
Proof.
  intros requested Hnd Hknown.
  pose proof (sortedComponents_perm requested) as Hp.
  apply (strictly_sorted_unique catalogIndex).
  - apply sorted_nodup_strict.
    + intros a b Ha Hb. apply indexOf_injective; apply Hknown;
        eapply Permutation_in; try eassumption; now apply Permutation_sym.
    + eapply Permutation_NoDup; eassumption.
    + apply sortedComponents_sorted.
  - apply filter_strictly_sorted, MIGRATION_ORDER_strictly_sorted.
  - intros x. rewrite filter_In, includes_In. split.
    + intros Hx. apply (Permutation_in _ (Permutation_sym Hp)) in Hx. auto.
    + intros [_ Hx]. now apply (Permutation_in _ Hp).
Qed.

(** With the placeholder collaborators a job on a live source runs every
    component of the sorted array and completes, whatever the names are. *)
Lemma live_job_runs_sorted_components : forall d,
  Components2.source_type (Components2.source d) = SourceLive ->
  outcome (Components2.worker d)
    = inr {| Components2.status := "completed";
             Components2.idMappings := [];
             Components2.jobId := Components2.job_id (Components2.job d) |}
  /\ startedComponents (events (Components2.worker d))
     = sortedComponents (Components2.components (Components2.job d))
  /\ progressUpdates (events (Components2.worker d))
     = map (fun i => progressValue i
                       (length (Components2.components (Components2.job d))))
           (seq 1 (length (Components2.components (Components2.job d)))).
Proof.
  intros d Hlive. unfold Components2.worker.
  rewrite Facts2.processJob2_reading. cbv zeta.
  unfold Reading2.validated. rewrite Hlive. simpl.
  set (failure := Reading2.failure _ _ _ _).
  assert (Hok : forall c, failure c = None).
  { intros c. unfold failure, Reading2.failure, Reading2.fetched.
    rewrite Hlive. reflexivity. }
  set (sorted := sortedComponents _).
  destruct (loopOutcome_ok failure sorted 0 (fun c _ => Hok c))
    as (Ho & Ha & Hc).
  rewrite Ho. unfold outcome, events. cbn [fst snd app].
  rewrite startedComponents_cons, progressUpdates_cons.
  unfold failure.
  rewrite (loopTrace_started _ _ (Facts2.body2_starts_nothing _ _ _ _ _ _)).
  rewrite (loopTrace_progress _ _ _ (Facts2.body2_progress _ _ _ _ _ _)).
  fold failure. rewrite Ha, Hc. repeat split.
  unfold sorted. now rewrite <- (Permutation_length (sortedComponents_perm _)).
Qed.






(** ** The sort is in place *)

Lemma migrateAll_keeps_data : forall {S} (body : string -> nat -> M S nat),
  (forall c k s, finalData (body c k s) = s) ->
  forall items k s, finalData (migrateAll body items k s) = s.
Proof.
  intros S body Hbody. induction items as [|c rest IH]; intros k s.
  - reflexivity.
  - simpl. unfold bind at 1.
    unfold migrateComponent, bind, log, emit, tryCatch, throw.
    specialize (Hbody c k s).
    destruct (body c k s) as [[t s1] [e|n]]; unfold finalData in *;
      simpl in *; subst s1; [reflexivity|].
    specialize (IH n s).
    destruct (migrateAll body rest n s) as [[t2 s2] r]. exact IH.
Qed.

Lemma body1_keeps_data : forall sd ld src total c k s,
  finalData (Components1.body sd ld src total c k s) = s.
Proof.
  intros. unfold Components1.body, bind, call, log, emit, updateProgress, ret.
  destruct (isSnapshot (Components1.source_type src)
            && Components1.truthyNumber (Components1.snapshotId src)).
  - destruct (componentInfoOf Components1.placeholderSnapshot c "file")
      as [e|info]; [reflexivity|].
    destruct (sd c (fileOf info)); reflexivity.
  - destruct (ld c (Components1.source_instanceInfo src)); reflexivity.
Qed.

Lemma processJob1_final_components : forall sd ld d,
  Components1.components
    (Components1.job (finalData (Components1.processJob sd ld d)))
  = sortedComponents (Components1.components (Components1.job d)).
Proof.
  intros sd ld d. unfold Components1.processJob.
  unfold bind at 1. unfold get at 1. cbv iota beta zeta.
  unfold bind at 1. unfold Components1.sortComponents at 1.
  unfold bind at 1. unfold get at 1. cbv iota beta zeta.
  unfold bind at 1. unfold put at 1. cbv iota beta.
  unfold ret at 1. cbv iota beta.
  set (d' := {| Components1.source := _ |}).
  set (sorted := sortedComponents _).
  unfold bind at 1. unfold log at 1, emit at 1. cbv iota beta.
  unfold tryCatch.
  unfold bind at 1.
  assert (Hloop : forall s,
    finalData
      (migrateAll (Components1.body sd ld (Components1.source d)
                     (length (Components1.components (Components1.job d))))
         sorted 0 s) = s).
  { intros s. apply migrateAll_keeps_data. intros. apply body1_keeps_data. }
  destruct (isSnapshot _ && _).
  - unfold call at 1.
    destruct (validateSnapshot1 _ _) as [e|[]].
    + reflexivity.
    + unfold bind at 1. specialize (Hloop d').
      destruct (migrateAll _ sorted 0 d') as [[t s2] [e|n]];
        unfold finalData in Hloop; simpl in Hloop; subst s2; reflexivity.
  - unfold ret at 1. unfold bind at 1. specialize (Hloop d').
    destruct (migrateAll _ sorted 0 d') as [[t s2] [e|n]];
      unfold finalData in Hloop; simpl in Hloop; subst s2; reflexivity.
Qed.

(** C10: the sort works on the array held by the job data and hands that same
    array back, so once the ordered list has been computed the job's stored
    components are in sorted order, which need not be the order the caller
    supplied.  In queue.ts the sort runs first, on every job; in part_001 it
    runs once validation has passed. *)
Theorem sort_mutates_job_components :
  forall (store : string -> option Snapshot)
         (sd : string -> option string -> exn + SourceData)
         (ld : string -> Components2.InstanceInfo -> exn + SourceData)
         (d : Components2.MigrationJobData) (snapshot : option Snapshot),
    outcome (Components2.validationPhase store (Components2.source d)
               (Components2.components (Components2.job d)) d)
      = inr snapshot ->
    Components2.sortComponents d
      = ([], Reading2.sortedData d,
         inr (sortedComponents (Components2.components (Components2.job d))))
    /\ Components2.components
         (Components2.job (finalData (Components2.processJob store sd ld d)))
       = sortedComponents (Components2.components (Components2.job d))
    /\ (forall sd1 ld1 d1,
          Components1.components
            (Components1.job (finalData (Components1.processJob sd1 ld1 d1)))
          = sortedComponents (Components1.components (Components1.job d1)))
    /\ (exists d2,
          Components2.components
            (Components2.job (finalData (Components2.worker d2)))
          <> Components2.components (Components2.job d2))
    /\ (exists d1,
          Components1.components
            (Components1.job (finalData (Components1.worker d1)))
          <> Components1.components (Components1.job d1)).
Proof.
  intros store sd ld d snapshot Hv.
  rewrite Facts2.validationPhase2_reading in Hv. unfold outcome in Hv.
  cbn [snd] in Hv.
  split; [reflexivity|]. split.
  - rewrite Facts2.processJob2_reading. cbv zeta. rewrite Hv.
    destruct (loopOutcome _ _ 0); reflexivity.
  - split; [apply processJob1_final_components|]. split.
    + exists (Samples.job2 SourceLive None ["triggers"; "groups"]).
      vm_compute. discriminate.
    + exists (Samples.job1 SourceLive None ["triggers"; "groups"]).
      vm_compute. discriminate.
Qed.

Lemma sort_mutates_job_components_witness :
  Components2.components
    (Components2.job
       (finalData (Components2.worker
                     (Samples.job2 SourceSnapshot (Some "1")
                        ["ticket_forms"; "ticket_fields"]))))
  = ["ticket_fields"; "ticket_forms"].
Proof.
  apply (sort_mutates_job_components
           Components2.fetchSnapshotFromConvex Components2.fetchSnapshotData
           Components2.fetchLiveData
           (Samples.job2 SourceSnapshot (Some "1")
              ["ticket_forms"; "ticket_fields"])
           (Components2.fetchSnapshotFromConvex "1")).
  reflexivity.
Defined.

(** ** The snapshot validator *)

Lemma string_app_nil_r : forall s : string, (s ++ "")%string = s.
Proof. induction s as [|a s IH]; simpl; [reflexivity|]. now rewrite IH. Qed.

Lemma contains_refl : forall s, contains s s.
Proof. intros s. exists "", "". simpl. now rewrite string_app_nil_r. Qed.

Lemma string_app_assoc : forall a b c : string,
  ((a ++ b) ++ c = a ++ (b ++ c))%string.
Proof.
  induction a as [|x a IH]; intros; simpl; [reflexivity|]. now rewrite IH.
Qed.

Lemma contains_prefixed : forall p s x, contains s x -> contains (p ++ s) x.
Proof.
  intros p s x (before & after & ->). exists (p ++ before), after.
  now rewrite string_app_assoc.
Qed.

Lemma contains_suffixed : forall s q x, contains s x -> contains (s ++ q) x.
Proof.
  intros s q x (before & after & ->). exists before, (after ++ q).
  now rewrite !string_app_assoc.
Qed.

(** Every element of a joined list shows up in the joined string. *)
Lemma join_contains : forall sep l x, In x l -> contains (join sep l) x.
Proof.
  intros sep. induction l as [|y rest IH]; intros x Hx; [destruct Hx|].
  destruct rest as [|z rest'].
  - destruct Hx as [<-|[]]. apply contains_refl.
  - change (join sep (y :: z :: rest'))
      with (y ++ sep ++ join sep (z :: rest')).
    destruct Hx as [<-|Hx].
    + apply contains_suffixed, contains_refl.
    + apply contains_prefixed, contains_prefixed, IH, Hx.
Qed.

(** The validator's test finds a component missing when the breakdown has
    no entry of that name and [Object.prototype] has no property of that
    name either. *)
Lemma isMissing_true : forall b c,
  isMissing b c = true
  <-> lookup c b = None /\ ~ In c objectPrototypeKeys.
Proof.
  intros b c. unfold isMissing, getProperty.
  destruct (lookup c b) as [info|].
  - split; [discriminate|]. intros [H _]. discriminate H.
  - destruct (includes objectPrototypeKeys c) eqn:E.
    + apply includes_In in E. split; [discriminate|]. intros [_ H].
      contradiction.
    + split; [|reflexivity]. intros _. split; [reflexivity|].
      intros H. apply includes_In in H. congruence.
Qed.

Lemma isMissing_own : forall b c,
  lookup c b <> None -> isMissing b c = false.
Proof.
  intros b c H. unfold isMissing, getProperty.
  destruct (lookup c b); [reflexivity|contradiction].
Qed.

(** No component of the catalog bears the name of an [Object.prototype]
    property. *)
Lemma catalog_not_inherited : forall c,
  In c MIGRATION_ORDER -> ~ In c objectPrototypeKeys.
Proof.
  intros c Hc Hp. apply includes_In in Hp.
  unfold MIGRATION_ORDER in Hc. simpl in Hc.
  repeat (destruct Hc as [<-|Hc]; [discriminate Hp|]). exact Hc.
Qed.

Lemma missing_nonempty : forall b components c,
  In c components -> isMissing b c = true ->
  (0 <? length (filter (isMissing b) components))%nat = true.
Proof.
  intros b components c Hin Hmiss. apply Nat.ltb_lt.
  assert (Hf : In c (filter (isMissing b) components)).
  { apply filter_In. split; assumption. }
  destruct (filter (isMissing b) components); [destruct Hf|simpl; lia].
Qed.

Lemma nothing_missing : forall b components,
  (forall c, In c components -> isMissing b c = false) ->
  filter (isMissing b) components = [].
Proof.
  intros b. induction components as [|c rest IH]; intros Hall;
    [reflexivity|]. simpl.
  rewrite (Hall c (or_introl eq_refl)).
  apply IH. intros c' H. apply Hall. now right.
Qed.

(** C7 (as the code has it): a locked snapshot never validates.  Without a
    breakdown the error is the missing-breakdown one; with a breakdown the
    error is the locked one exactly when the validator's test finds every
    required component, as it does when the breakdown holds an entry for each
    of them, and otherwise it is the missing-components error, because those
    checks come first.  The same holds for the validator of queue.ts on a
    snapshot that has a breakdown. *)
Theorem locked_snapshot_never_validates :
  forall (snapshot : Snapshot) (components : list string),
    locked snapshot = true ->
    validateSnapshot (Some snapshot) components <> inr tt
    /\ (breakdown snapshot = None ->
        validateSnapshot (Some snapshot) components
        = inl (Error "Snapshot breakdown is missing"))
    /\ (forall b,
          breakdown snapshot = Some b ->
          ((forall c, In c components -> isMissing b c = false) <->
           validateSnapshot (Some snapshot) components
             = inl (Error "Cannot use locked snapshot for migration"))
          /\ ((forall c, In c components -> lookup c b <> None) ->
              validateSnapshot (Some snapshot) components
              = inl (Error "Cannot use locked snapshot for migration"))
          /\ ((exists c, In c components /\ isMissing b c = true) ->
              validateSnapshot (Some snapshot) components
              = inl (Error ("Snapshot missing required components: "
                            ++ join ", " (filter (isMissing b) components))))
          /\ validateSnapshot1 snapshot components
             = validateSnapshot (Some snapshot) components)
    /\ validateSnapshot1 snapshot components <> inr tt.
Proof.
  intros snapshot components Hlocked.
  unfold validateSnapshot, validateSnapshot1. rewrite Hlocked.
  split; [|split; [|split]].
  - destruct (breakdown snapshot) as [b|]; [|discriminate].
    destruct (0 <? _)%nat; discriminate.
  - intros ->. reflexivity.
  - intros b ->.
    assert (Hfound : (forall c, In c components -> isMissing b c = false) ->
                     filter (isMissing b) components = []).
    { apply nothing_missing. }
    split; [split|split; [|split]].
    + intros Hall. now rewrite (Hfound Hall).
    + intros Hv c Hin. destruct (isMissing b c) eqn:Hm; [|reflexivity].
      rewrite (missing_nonempty b components c Hin Hm) in Hv.
      discriminate.
    + intros Hall. rewrite Hfound; [reflexivity|].
      intros c Hin. apply isMissing_own, Hall, Hin.
    + intros (c & Hin & Hm).
      now rewrite (missing_nonempty b components c Hin Hm).
    + reflexivity.
  - destruct (breakdown snapshot) as [b|].
    + destruct (0 <? _)%nat; discriminate.
    + destruct components; discriminate.
Qed.

Lemma locked_snapshot_never_validates_witness :
  validateSnapshot (Some Samples.lockedGroups) ["groups"] <> inr tt
  /\ validateSnapshot (Some Samples.lockedGroups) ["groups"]
     = inl (Error "Cannot use locked snapshot for migration")
  /\ validateSnapshot (Some Samples.lockedGroups) ["groups"; "views"]
     = inl (Error "Snapshot missing required components: views")
  /\ validateSnapshot (Some Samples.lockedEmpty) ["constructor"]
     = inl (Error "Cannot use locked snapshot for migration").
Proof.
  destruct (locked_snapshot_never_validates Samples.lockedGroups ["groups"]
              eq_refl) as (Hne & _ & Hb & _).
  split; [exact Hne|]. split.
  { destruct (Hb _ eq_refl) as (_ & Hown & _). apply Hown.
    intros c [<-|[]]. discriminate. }
  split.
  - destruct (locked_snapshot_never_validates Samples.lockedGroups
                ["groups"; "views"] eq_refl) as (_ & _ & Hb' & _).
    destruct (Hb' _ eq_refl) as (_ & _ & Hmiss & _). apply Hmiss.
    exists "views". split; [simpl; auto|reflexivity].
  - destruct (locked_snapshot_never_validates Samples.lockedEmpty
                ["constructor"] eq_refl) as (_ & _ & Hb' & _).
    destruct (Hb' _ eq_refl) as (Hiff & _). apply Hiff.
    intros c [<-|[]]. reflexivity.
Defined.

(** C7 (as stated) fails: a locked snapshot that also lacks a required
    component is turned down for the missing component, not for being
    locked. *)
Lemma locked_snapshot_reports_missing_first :
  locked Samples.lockedEmpty = true
  /\ validateSnapshot (Some Samples.lockedEmpty) ["groups"]
     = inl (Error "Snapshot missing required components: groups")
  /\ validateSnapshot (Some Samples.lockedEmpty) ["groups"]
     <> inl (Error "Cannot use locked snapshot for migration")
  /\ ~ (forall snapshot components,
          locked snapshot = true ->
          validateSnapshot (Some snapshot) components
          = inl (Error "Cannot use locked snapshot for migration")).
Proof.
  split; [reflexivity|]. split; [reflexivity|]. split; [discriminate|].
  intros H. specialize (H Samples.lockedEmpty ["groups"] eq_refl).
  discriminate.
Qed.

(** A required component the validator's test finds missing makes both
    validators throw the missing-components error. *)
Lemma validateSnapshot_missing : forall snapshot b components c,
  breakdown snapshot = Some b ->
  In c components -> isMissing b c = true ->
  validateSnapshot (Some snapshot) components
    = inl (Error ("Snapshot missing required components: "
                  ++ join ", " (filter (isMissing b) components)))
  /\ validateSnapshot1 snapshot components
     = validateSnapshot (Some snapshot) components.
Proof.
  intros snapshot b components c Hb Hin Hm.
  unfold validateSnapshot, validateSnapshot1. rewrite Hb.
  now rewrite (missing_nonempty b components c Hin Hm).
Qed.

(** Where C8 holds: when the snapshot has a breakdown and at least one
    required component has no entry in it and is not the name of an
    [Object.prototype] property, validation throws one error whose message
    is "Snapshot missing required components: " followed by all such names
    joined by ", ", in the order they were required; whether the snapshot is
    locked makes no difference.  The validator of queue.ts does the same. *)
Lemma validateSnapshot_names_missing :
  forall (snapshot : Snapshot) (b : Breakdown) (components : list string),
    breakdown snapshot = Some b ->
    (exists c, In c components /\ lookup c b = None
               /\ ~ In c objectPrototypeKeys) ->
    exists message,
      validateSnapshot (Some snapshot) components = inl (Error message)
      /\ validateSnapshot1 snapshot components = inl (Error message)
      /\ message = "Snapshot missing required components: "
                   ++ join ", " (filter (isMissing b) components)
      /\ (forall c, In c (filter (isMissing b) components)
                    <-> In c components /\ lookup c b = None
                        /\ ~ In c objectPrototypeKeys)
      /\ (forall c, In c components -> lookup c b = None ->
                    ~ In c objectPrototypeKeys -> contains message c).
Proof.
  intros snapshot b components Hb (c0 & Hin0 & Hnone0 & Hp0).
  exists ("Snapshot missing required components: "
          ++ join ", " (filter (isMissing b) components)).
  destruct (validateSnapshot_missing snapshot b components c0 Hb Hin0
              (proj2 (isMissing_true b c0) (conj Hnone0 Hp0)))
    as [Hv Hv1].
  rewrite Hv1, Hv.
  assert (Hfilter : forall c, In c (filter (isMissing b) components)
                              <-> In c components /\ lookup c b = None
                                  /\ ~ In c objectPrototypeKeys).
  { intros c. rewrite filter_In, isMissing_true. reflexivity. }
  split; [reflexivity|]. split; [reflexivity|]. split; [reflexivity|].
  split; [exact Hfilter|].
  intros c Hin Hnone Hp. apply contains_prefixed, join_contains.
  apply Hfilter. auto.
Qed.

(** C8, evaluated where it breaks: the validator reads
    [snapshot.breakdown[comp]] through the prototype chain, so a required
    component that bears the name of an [Object.prototype] property is found
    although the breakdown has no entry for it.  On the mock snapshot, which
    holds [ticket_fields] and [ticket_forms] only, [groups] is reported
    missing but [constructor] is not: required alone it validates, required
    next to [groups] it is left out of the message; the job that requests it
    completes, after logging a fetch of size [undefined]. *)
Theorem validateSnapshot_accepts_inherited_name :
  let snapshot := Components2.fetchSnapshotFromConvex "1" in
  let run :=
    Components2.worker
      (Samples.job2 SourceSnapshot (Some "1") ["constructor"]) in
  (exists snap b,
     snapshot = Some snap /\ breakdown snap = Some b
     /\ lookup "groups" b = None /\ lookup "constructor" b = None)
  /\ validateSnapshot snapshot ["groups"]
     = inl (Error "Snapshot missing required components: groups")
  /\ validateSnapshot snapshot ["constructor"] = inr tt
  /\ validateSnapshot snapshot ["groups"; "constructor"]
     = inl (Error "Snapshot missing required components: groups")
  /\ validateSnapshot (Ignored.fetchSnapshotFromConvex "1") ["constructor"]
     = inr tt
  /\ events run
     = [ Log (Initializing "tmp/migration-1");
         Log (FetchingSnapshot "1");
         Log (ValidatingSnapshot "Snapshot 1");
         Log ValidationSuccessful;
         Log (Starting "constructor");
         Log (FetchingFromSnapshot "constructor" None);
         Log (Processing "constructor" 1 1);
         Log (Creating "constructor" "acme-new");
         UpdateProgress (progressValue 1 1) ]
  /\ render (FetchingFromSnapshot "constructor" None)
     = "Fetching constructor from snapshot (size: undefined bytes)"
  /\ outcome run
     = inr {| Components2.status := "completed";
              Components2.idMappings := [];
              Components2.jobId := "migration-1" |}.
Proof.
  cbv zeta. split.
  { do 2 eexists. repeat split; reflexivity. }
  repeat split; reflexivity.
Qed.

(** ** Validation comes before migration *)

Lemma truthy_nonempty : forall sid, sid <> "" -> truthy (Some sid) = true.
Proof. intros [|a s] H; [contradiction|reflexivity]. Qed.

(** What a run of part_001 on a snapshot source with a usable [snapshotId]
    looks like, by the outcome of the lookup and of the validator. *)
Lemma snapshot_job2_cases : forall store sd ld d sid,
  Components2.source_type (Components2.source d) = SourceSnapshot ->
  Components2.snapshotId (Components2.source d) = Some sid ->
  sid <> "" ->
  let requested := Components2.components (Components2.job d) in
  let run := Components2.processJob store sd ld d in
  match store sid with
  | None =>
      outcome run = inl (Error ("Snapshot " ++ sid ++ " not found"))
      /\ startedComponents (events run) = []
      /\ progressUpdates (events run) = []
  | Some snap =>
      match validateSnapshot (Some snap) requested with
      | inl e =>
          outcome run = inl e
          /\ startedComponents (events run) = []
          /\ progressUpdates (events run) = []
      | inr _ =>
          exists rest,
            events run
            = ([ Log (Initializing ("tmp/"
                        ++ Components2.job_id (Components2.job d)));
                 Log (FetchingSnapshot sid);
                 Log (ValidatingSnapshot (snapshot_name snap));
                 Log ValidationSuccessful ] ++ rest)%list
      end
  end.
Proof.
  intros store sd ld d sid Htype Hsid Hne requested run.
  unfold run. rewrite Facts2.processJob2_reading. cbv zeta.
  unfold Reading2.validated.
  rewrite Htype, Hsid, (truthy_nonempty sid Hne). cbn [isSnapshot andb].
  destruct (store sid) as [snap|]; [|repeat split].
  fold requested.
  destruct (validateSnapshot (Some snap) requested) as [e|[]];
    [repeat split|].
  cbn [fst snd].
  destruct (loopOutcome _ _ 0); eexists; unfold events; cbn [fst snd app];
    reflexivity.
Qed.

Lemma snapshot_job0_cases : forall store sd ld d sid,
  Ignored.source_type (Ignored.source d) = SourceSnapshot ->
  Ignored.snapshotId (Ignored.source d) = Some sid ->
  sid <> "" ->
  let run := Ignored.processJob store sd ld d in
  match store sid with
  | None =>
      outcome run = inl (Error ("Snapshot " ++ sid ++ " not found"))
      /\ startedComponents (events run) = []
      /\ progressUpdates (events run) = []
  | Some snap =>
      match validateSnapshot (Some snap) MIGRATION_ORDER with
      | inl e =>
          outcome run = inl e
          /\ startedComponents (events run) = []
          /\ progressUpdates (events run) = []
      | inr _ =>
          exists rest,
            events run
            = ([ Log (Initializing ("tmp/" ++ Ignored.jobId d));
                 Log (FetchingSnapshot sid);
                 Log (ValidatingSnapshot (snapshot_name snap));
                 Log ValidationSuccessful ] ++ rest)%list
      end
  end.
Proof.
  intros store sd ld d sid Htype Hsid Hne run.
  unfold run. rewrite Facts0.processJob0_reading. cbv zeta.
  unfold Reading0.validated.
  rewrite Htype, Hsid, (truthy_nonempty sid Hne). cbn [isSnapshot andb].
  destruct (store sid) as [snap|]; [|repeat split].
  destruct (validateSnapshot (Some snap) MIGRATION_ORDER) as [e|[]];
    [repeat split|].
  cbn [fst snd].
  destruct (loopOutcome _ _ 0); eexists; unfold events; cbn [fst snd app];
    reflexivity.
Qed.

(** C3 (as the code has it): for every job whose source type is snapshot and
    whose [snapshotId] is present and not the empty string, in part_001 and in
    part_000 alike: if the id does not resolve the job fails with
    "Snapshot <id> not found", no component step is started and no progress
    is reported; and whenever a component step is started, the id resolved,
    the validator accepted the snapshot, and the run opens with the lines up
    to "Snapshot validation successful". *)
Theorem snapshot_validated_before_any_component :
  forall (store : string -> option Snapshot) (sid : string),
    sid <> "" ->
    (forall sd ld d,
       Components2.source_type (Components2.source d) = SourceSnapshot ->
       Components2.snapshotId (Components2.source d) = Some sid ->
       let run := Components2.processJob store sd ld d in
       (store sid = None ->
        outcome run = inl (Error ("Snapshot " ++ sid ++ " not found"))
        /\ startedComponents (events run) = []
        /\ progressUpdates (events run) = [])
       /\ (startedComponents (events run) <> [] ->
           exists snap rest,
             store sid = Some snap
             /\ validateSnapshot (Some snap)
                  (Components2.components (Components2.job d)) = inr tt
             /\ events run
                = ([ Log (Initializing ("tmp/"
                            ++ Components2.job_id (Components2.job d)));
                     Log (FetchingSnapshot sid);
                     Log (ValidatingSnapshot (snapshot_name snap));
                     Log ValidationSuccessful ] ++ rest)%list))
    /\ (forall sd ld d,
          Ignored.source_type (Ignored.source d) = SourceSnapshot ->
          Ignored.snapshotId (Ignored.source d) = Some sid ->
          let run := Ignored.processJob store sd ld d in
          (store sid = None ->
           outcome run = inl (Error ("Snapshot " ++ sid ++ " not found"))
           /\ startedComponents (events run) = []
           /\ progressUpdates (events run) = [])
          /\ (startedComponents (events run) <> [] ->
              exists snap rest,
                store sid = Some snap
                /\ validateSnapshot (Some snap) MIGRATION_ORDER = inr tt
                /\ events run
                   = ([ Log (Initializing ("tmp/" ++ Ignored.jobId d));
                        Log (FetchingSnapshot sid);
                        Log (ValidatingSnapshot (snapshot_name snap));
                        Log ValidationSuccessful ] ++ rest)%list)).
Proof.
  intros store sid Hne. split.
  - intros sd ld d Htype Hsid run.
    pose proof (snapshot_job2_cases store sd ld d sid Htype Hsid Hne) as H.
    cbv zeta in H. fold run in H.
    destruct (store sid) as [snap|].
    + split; [discriminate|]. intros Hstarted.
      destruct (validateSnapshot (Some snap) _) as [e|[]] eqn:Hv.
      * destruct H as (_ & Hs & _). contradiction.
      * destruct H as [rest Hrest]. exists snap, rest. auto.
    + split; [intros _; exact H|].
      destruct H as (_ & Hs & _). intros Hstarted. contradiction.
  - intros sd ld d Htype Hsid run.
    pose proof (snapshot_job0_cases store sd ld d sid Htype Hsid Hne) as H.
    cbv zeta in H. fold run in H.
    destruct (store sid) as [snap|].
    + split; [discriminate|]. intros Hstarted.
      destruct (validateSnapshot (Some snap) _) as [e|[]] eqn:Hv.
      * destruct H as (_ & Hs & _). contradiction.
      * destruct H as [rest Hrest]. exists snap, rest. auto.
    + split; [intros _; exact H|].
      destruct H as (_ & Hs & _). intros Hstarted. contradiction.
Qed.

Lemma snapshot_validated_before_any_component_witness :
  outcome (Components2.worker
             (Samples.job2 SourceSnapshot (Some "2") ["groups"]))
  = inl (Error "Snapshot 2 not found")
  /\ startedComponents
       (events (Components2.worker
                  (Samples.job2 SourceSnapshot (Some "2") ["groups"]))) = []
  /\ progressUpdates
       (events (Components2.worker
                  (Samples.job2 SourceSnapshot (Some "2") ["groups"]))) = [].
Proof.
  assert (Hne : "2" <> "") by discriminate.
  destruct (snapshot_validated_before_any_component
              Components2.fetchSnapshotFromConvex "2" Hne) as [H2 _].
  destruct (H2 Components2.fetchSnapshotData Components2.fetchLiveData
              (Samples.job2 SourceSnapshot (Some "2") ["groups"])
              eq_refl eq_refl) as [Hnone _].
  apply Hnone. reflexivity.
Defined.

(** C3 (as stated) fails: a job whose source type is snapshot but whose
    [snapshotId] is the empty string (or is absent) skips the lookup and the
    validator altogether; its components are fetched from the live instance
    and the job completes, although the id resolves to no snapshot. *)
Lemma snapshot_job_with_empty_id_skips_validation :
  let d := Samples.job2 SourceSnapshot (Some "") ["ticket_forms"] in
  let run := Components2.worker d in
  Components2.fetchSnapshotFromConvex "" = None
  /\ events run
     = [ Log (Initializing "tmp/migration-1");
         Log (Starting "ticket_forms");
         Log (FetchingFromLive "ticket_forms" "acme");
         Log (Processing "ticket_forms" 1 1);
         Log (Creating "ticket_forms" "acme-new");
         UpdateProgress (progressValue 1 1) ]
  /\ outcome run
     = inr {| Components2.status := "completed";
              Components2.idMappings := [];
              Components2.jobId := "migration-1" |}
  /\ startedComponents
       (events (Components2.worker
                  (Samples.job2 SourceSnapshot None ["ticket_forms"])))
     = ["ticket_forms"]
  /\ startedComponents
       (events (Ignored.worker (Samples.job0 SourceSnapshot (Some "") None)))
     = MIGRATION_ORDER
  /\ ~ (forall d sid,
          Components2.source_type (Components2.source d) = SourceSnapshot ->
          Components2.snapshotId (Components2.source d) = Some sid ->
          Components2.fetchSnapshotFromConvex sid = None ->
          startedComponents (events (Components2.worker d)) = []
          /\ exists e, outcome (Components2.worker d) = inl e).
Proof.
  cbv zeta. repeat (split; [reflexivity|]).
  intros H.
  destruct (H (Samples.job2 SourceSnapshot (Some "") ["ticket_forms"]) ""
              eq_refl eq_refl eq_refl) as [Hs _].
  discriminate.
Qed.

(** ** Fail-fast *)

Lemma render_error_names_component_and_message : forall c message,
  contains (render (ErrorProcessing c message)) c
  /\ contains (render (ErrorProcessing c message)) message.
Proof.
  intros c message. simpl. split.
  - exists "Error processing ", (": " ++ message). reflexivity.
  - exists ("Error processing " ++ c ++ ": "), "".
    rewrite string_app_nil_r, !string_app_assoc. reflexivity.
Qed.

(** The run of either processor once validation has returned [snapshot] and
    the loop over [items] stops at [c]. *)
Lemma loop_failure_trace :
  forall (bodyTrace : string -> nat -> list Event)
         (failure : string -> option exn) (totalSteps : nat),
    (forall c k, startedComponents (bodyTrace c k) = []) ->
    (forall c k, progressUpdates (bodyTrace c k)
                 = match failure c with
                   | Some _ => []
                   | None => [progressValue (S k) totalSteps]
                   end) ->
    forall before c after e,
      (forall c', In c' before -> failure c' = None) ->
      failure c = Some e ->
      let t := loopTrace bodyTrace failure (before ++ c :: after) 0 in
      loopOutcome failure (before ++ c :: after) 0 = inl e
      /\ startedComponents t = (before ++ [c])%list
      /\ length (progressUpdates t) = length before
      /\ exists t', t = (t' ++ [Log (ErrorProcessing c (errorMessage e))])%list.
Proof.
  intros bodyTrace failure totalSteps Hs Hp before c after e Hok Hc t.
  destruct (loop_fails_at bodyTrace failure before c after e 0 Hok Hc)
    as (Ho & Ha & Hn & t' & Ht).
  split; [assumption|]. subst t.
  rewrite (loopTrace_started bodyTrace failure Hs).
  rewrite (loopTrace_progress bodyTrace failure totalSteps Hp).
  rewrite Ha, Hn, length_map, length_seq.
  repeat split. exists t'. assumption.
Qed.

(** C4 (as the code has it): in part_001 and in part_000, with any
    collaborators, if the [try] block of a component throws (and those of the
    components before it in the list do not), the processor rethrows that
    same value, so the job fails; the components started are exactly those
    up to the failing one, none after it; one progress update was made per
    earlier component; and the last two lines logged are
    "Error processing <component>: <message>", which contains the component
    name and the message, then the fatal-error line with the same message.
    The message is the error's own when the thrown value is an [Error], and
    the fixed text "An unknown error occurred" when it is anything else. *)
Theorem component_failure_aborts_job :
  forall (store : string -> option Snapshot)
         (snapshot : option Snapshot) (before : list string) (c : string)
         (after : list string) (e : exn),
    (forall sd ld d,
       let requested := Components2.components (Components2.job d) in
       let step :=
         Components2.body sd ld (Components2.source d) (Components2.target d)
           snapshot (length requested) in
       outcome (Components2.validationPhase store (Components2.source d)
                  requested d) = inr snapshot ->
       sortedComponents requested = (before ++ c :: after)%list ->
       outcome (migrateAll step before 0 (Reading2.sortedData d))
         = inr (length before) ->
       outcome (step c (length before) (Reading2.sortedData d)) = inl e ->
       let run := Components2.processJob store sd ld d in
       outcome run = inl e
       /\ startedComponents (events run) = (before ++ [c])%list
       /\ length (progressUpdates (events run)) = length before
       /\ (exists t message,
             events run
             = (t ++ [ Log (ErrorProcessing c message);
                       Log (FatalError message) ])%list
             /\ contains (render (ErrorProcessing c message)) c
             /\ contains (render (ErrorProcessing c message)) message
             /\ match e with
                | Error m | TypeError m => message = m
                | Thrown _ => message = "An unknown error occurred"
                end))
    /\ (forall sd ld d,
          let ignored :=
            match Ignored.ignoredItems d with Some l => l | None => [] end in
          let step :=
            Ignored.body sd ld (Ignored.source d) (Ignored.target d)
              snapshot (length MIGRATION_ORDER) in
          outcome (Ignored.validationPhase store (Ignored.source d) d)
            = inr snapshot ->
          Ignored.componentsToMigrate ignored = (before ++ c :: after)%list ->
          outcome (migrateAll step before 0 d) = inr (length before) ->
          outcome (step c (length before) d) = inl e ->
          let run := Ignored.processJob store sd ld d in
          outcome run = inl e
          /\ startedComponents (events run) = (before ++ [c])%list
          /\ length (progressUpdates (events run)) = length before
          /\ (exists t message,
                events run
                = (t ++ [ Log (ErrorProcessing c message);
                          Log (FatalError message) ])%list
                /\ contains (render (ErrorProcessing c message)) c
                /\ contains (render (ErrorProcessing c message)) message
                /\ match e with
                   | Error m | TypeError m => message = m
                   | Thrown _ => message = "An unknown error occurred"
                   end)).
Proof.
  intros store snapshot before c after e. split.
  - intros sd ld d requested step Hv Hsorted Hbefore Hc run.
    unfold run. rewrite Facts2.processJob2_reading. cbv zeta.
    rewrite Facts2.validationPhase2_reading in Hv. unfold outcome in Hv.
    cbn [snd] in Hv. fold requested. rewrite Hv, Hsorted.
    set (failure := Reading2.failure sd ld (Components2.source d) snapshot).
    assert (Hok : forall c', In c' before -> failure c' = None).
    { unfold step in Hbefore.
      rewrite (migrateAll_reading _ _ _ (Facts2.body2_reading _ _ _ _ _ _))
        in Hbefore.
      unfold outcome in Hbefore. cbn [snd] in Hbefore.
      exact (loopOutcome_succeeds _ _ _ _ Hbefore). }
    assert (Hfail : failure c = Some e).
    { unfold step in Hc. rewrite Facts2.body2_reading in Hc.
      unfold outcome in Hc. cbn [snd] in Hc. fold failure in Hc.
      destruct (failure c); [now injection Hc as ->|discriminate]. }
    destruct (loop_failure_trace _ failure (length requested)
                (Facts2.body2_starts_nothing sd ld (Components2.source d)
                   (Components2.target d) snapshot (length requested))
                (Facts2.body2_progress sd ld (Components2.source d)
                   (Components2.target d) snapshot (length requested))
                before c after e Hok Hfail)
      as (Ho & Hs & Hp & t' & Ht).
    rewrite Ho. unfold outcome, events. cbn [fst snd].
    destruct (Facts2.validated2_quiet (Components2.source d) store requested)
      as [Hq1 Hq2].
    rewrite !startedComponents_app, !progressUpdates_app, !length_app, Hs, Hp.
    rewrite startedComponents_cons, progressUpdates_cons, Hq1, Hq2.
    split; [reflexivity|].
    split; [simpl; now rewrite app_nil_r|].
    split; [simpl; lia|].
    exists ((Log (Initializing
                    ("tmp/" ++ Components2.job_id (Components2.job d)))
             :: fst (Reading2.validated (Components2.source d) store
                       requested)) ++ t')%list, (errorMessage e).
    split; [rewrite Ht, <- !app_assoc; reflexivity|].
    split; [apply render_error_names_component_and_message|].
    split; [apply render_error_names_component_and_message|].
    destruct e; reflexivity.
  - intros sd ld d ignored step Hv Hitems Hbefore Hc run.
    unfold run. rewrite Facts0.processJob0_reading. cbv zeta.
    rewrite Facts0.validationPhase0_reading in Hv. unfold outcome in Hv.
    cbn [snd] in Hv. fold ignored. rewrite Hv, Hitems.
    set (failure := Reading0.failure sd ld (Ignored.source d) snapshot).
    assert (Hok : forall c', In c' before -> failure c' = None).
    { unfold step in Hbefore.
      rewrite (migrateAll_reading _ _ _ (Facts0.body0_reading _ _ _ _ _ _))
        in Hbefore.
      unfold outcome in Hbefore. cbn [snd] in Hbefore.
      exact (loopOutcome_succeeds _ _ _ _ Hbefore). }
    assert (Hfail : failure c = Some e).
    { unfold step in Hc. rewrite Facts0.body0_reading in Hc.
      unfold outcome in Hc. cbn [snd] in Hc. fold failure in Hc.
      destruct (failure c); [now injection Hc as ->|discriminate]. }
    destruct (loop_failure_trace _ failure (length MIGRATION_ORDER)
                (Facts0.body0_starts_nothing sd ld (Ignored.source d)
                   (Ignored.target d) snapshot (length MIGRATION_ORDER))
                (Facts0.body0_progress sd ld (Ignored.source d)
                   (Ignored.target d) snapshot (length MIGRATION_ORDER))
                before c after e Hok Hfail)
      as (Ho & Hs & Hp & t' & Ht).
    rewrite Ho. unfold outcome, events. cbn [fst snd].
    destruct (Facts0.validated0_quiet (Ignored.source d) store MIGRATION_ORDER)
      as [Hq1 Hq2].
    rewrite !startedComponents_app, !progressUpdates_app, !length_app, Hs, Hp.
    rewrite startedComponents_cons, progressUpdates_cons, Hq1, Hq2.
    split; [reflexivity|].
    split; [simpl; now rewrite app_nil_r|].
    split; [simpl; lia|].
    exists ((Log (Initializing ("tmp/" ++ Ignored.jobId d))
             :: fst (Reading0.validated (Ignored.source d) store
                       MIGRATION_ORDER)) ++ t')%list, (errorMessage e).
    split; [rewrite Ht, <- !app_assoc; reflexivity|].
    split; [apply render_error_names_component_and_message|].
    split; [apply render_error_names_component_and_message|].
    destruct e; reflexivity.
Qed.

Lemma component_failure_aborts_job_witness :
  let d := Samples.job2 SourceLive None ["macros"; "groups"; "views"] in
  let run :=
    Components2.processJob Components2.fetchSnapshotFromConvex
      Components2.fetchSnapshotData Samples.macrosFail d in
  outcome run = inl (Error "429 Too Many Requests")
  /\ startedComponents (events run) = ["groups"; "macros"]
  /\ length (progressUpdates (events run)) = 1%nat
  /\ errorLines (events run)
     = [ ErrorProcessing "macros" "429 Too Many Requests";
         FatalError "429 Too Many Requests" ].
Proof.
  cbv zeta.
  destruct (component_failure_aborts_job Components2.fetchSnapshotFromConvex
              None ["groups"] "macros" ["views"]
              (Error "429 Too Many Requests")) as [H2 _].
  destruct (H2 Components2.fetchSnapshotData Samples.macrosFail
              (Samples.job2 SourceLive None ["macros"; "groups"; "views"])
              eq_refl eq_refl eq_refl eq_refl) as (Ho & Hs & Hp & _).
  split; [exact Ho|]. split; [exact Hs|]. split; [exact Hp|]. reflexivity.
Defined.

Lemma startsWith_app : forall needle rest,
  startsWith (needle ++ rest) needle = true.
Proof.
  induction needle as [|a needle IH]; intros rest; simpl; [reflexivity|].
  now rewrite Ascii.eqb_refl, IH.
Qed.

Lemma contains_containsb : forall hay needle,
  contains hay needle -> containsb hay needle = true.
Proof.
  intros hay needle (before & after & ->).
  assert (Hunfold : forall h,
    containsb h needle
    = startsWith h needle
      || match h with
         | EmptyString => false
         | String _ rest => containsb rest needle
         end) by (intros [|b h]; reflexivity).
  induction before as [|a before IH].
  - change ("" ++ needle ++ after) with (needle ++ after).
    now rewrite Hunfold, startsWith_app.
  - change (String a before ++ needle ++ after)
      with (String a (before ++ needle ++ after)).
    rewrite Hunfold, IH. apply orb_true_r.
Qed.

(** C4 (as stated) fails: what a component throws need not be an [Error].
    The live-instance client below rejects on [macros] with the plain value
    "429 Too Many Requests"; the job aborts with that value, but the two
    error lines carry the fixed text "An unknown error occurred" and no line
    of the run contains what was thrown.  part_000 does the same. *)
Lemma thrown_value_is_not_logged :
  let thrown := "429 Too Many Requests" in
  let run2 :=
    Components2.processJob Components2.fetchSnapshotFromConvex
      Components2.fetchSnapshotData Samples.macrosThrow
      (Samples.job2 SourceLive None ["macros"; "groups"; "views"]) in
  let run0 :=
    Ignored.processJob Ignored.fetchSnapshotFromConvex
      Ignored.fetchSnapshotData Samples.macrosThrow
      (Samples.job0 SourceLive None None) in
  outcome run2 = inl (Thrown thrown)
  /\ startedComponents (events run2) = ["groups"; "macros"]
  /\ errorLines (events run2)
     = [ ErrorProcessing "macros" "An unknown error occurred";
         FatalError "An unknown error occurred" ]
  /\ (forall line, In (Log line) (events run2) ->
        ~ contains (render line) thrown)
  /\ outcome run0 = inl (Thrown thrown)
  /\ errorLines (events run0)
     = [ ErrorProcessing "macros" "An unknown error occurred";
         FatalError "An unknown error occurred" ]
  /\ (forall line, In (Log line) (events run0) ->
        ~ contains (render line) thrown).
Proof.
  cbv zeta.
  assert (Hno : forall t : list Event,
    forallb (fun ev =>
               match ev with
               | Log line =>
                   negb (containsb (render line) "429 Too Many Requests")
               | UpdateProgress _ => true
               end) t = true ->
    forall line, In (Log line) t ->
                 ~ contains (render line) "429 Too Many Requests").
  { intros t Ht line Hin Hc. rewrite forallb_forall in Ht.
    specialize (Ht _ Hin). cbv beta iota in Ht.
    rewrite (contains_containsb _ _ Hc) in Ht. discriminate Ht. }
  split; [reflexivity|]. split; [reflexivity|]. split; [reflexivity|].
  split; [apply Hno; vm_compute; reflexivity|].
  split; [reflexivity|]. split; [reflexivity|].
  apply Hno. vm_compute. reflexivity.
Qed.


(** ** Progress *)

(** With the placeholder collaborators a live job of part_000 runs the
    catalog minus the ignored names, and reports after its [k]-th component
    the double [(k / 14) * 100]. *)
Lemma ignored_live_job_progress : forall d,
  Ignored.source_type (Ignored.source d) = SourceLive ->
  let ignored :=
    match Ignored.ignoredItems d with Some l => l | None => [] end in
  outcome (Ignored.worker d)
    = inr {| Ignored.status := "completed";
             Ignored.result_jobId := Ignored.jobId d |}
  /\ startedComponents (events (Ignored.worker d))
     = Ignored.componentsToMigrate ignored
  /\ progressUpdates (events (Ignored.worker d))
     = map (fun i => progressValue i (length MIGRATION_ORDER))
           (seq 1 (length (Ignored.componentsToMigrate ignored))).
Proof.
  intros d Hlive ignored. unfold Ignored.worker.
  rewrite Facts0.processJob0_reading. cbv zeta.
  unfold Reading0.validated. rewrite Hlive. cbn [isSnapshot andb fst snd].
  fold ignored.
  set (failure := Reading0.failure _ _ _ _).
  assert (Hok : forall c, failure c = None).
  { intros c. unfold failure, Reading0.failure, Reading0.fetched.
    rewrite Hlive. reflexivity. }
  destruct (loopOutcome_ok failure (Ignored.componentsToMigrate ignored) 0
              (fun c _ => Hok c)) as (Ho & Ha & Hc).
  rewrite Ho. unfold outcome, events. cbn [fst snd app].
  rewrite startedComponents_cons, progressUpdates_cons.
  unfold failure.
  rewrite (loopTrace_started _ _ (Facts0.body0_starts_nothing _ _ _ _ _ _)).
  rewrite (loopTrace_progress _ _ _ (Facts0.body0_progress _ _ _ _ _ _)).
  fold failure. rewrite Ha, Hc. repeat split.
Qed.

(** C2, evaluated where it breaks: part_000 divides by the length of the whole
    catalog, not by the number of components left after [ignoredItems].  A live
    job that ignores [skills] migrates 13 components, completes, and its
    progress goes [(1 / 14) * 100], [(2 / 14) * 100], ... and stops at
    [(13 / 14) * 100], the double that prints as 92.85714285714286: below
    100, and not the [100 * 13 / 13] of the claim. *)
Theorem ignored_items_progress_stops_short :
  let d := Samples.job0 SourceLive None (Some ["skills"]) in
  let run := Ignored.worker d in
  outcome run
    = inr {| Ignored.status := "completed";
             Ignored.result_jobId := "migration-1" |}
  /\ startedComponents (events run) = Ignored.componentsToMigrate ["skills"]
  /\ length (Ignored.componentsToMigrate ["skills"]) = 13%nat
  /\ progressUpdates (events run)
     = map (fun i => progressValue i 14) (seq 1 13)
  /\ last (progressUpdates (events run)) 0%float
     = 92.857142857142861%float
  /\ (last (progressUpdates (events run)) 0 <? 100)%float = true
  /\ last (progressUpdates (events run)) 0%float <> 100%float
  /\ last (progressUpdates (events run)) 0%float
     <> (100 * numberOfNat 13 / numberOfNat 13)%float.
Proof.
  cbv zeta.
  destruct (ignored_live_job_progress
              (Samples.job0 SourceLive None (Some ["skills"])) eq_refl)
    as (Ho & Hs & Hp).
  split; [exact Ho|]. split; [exact Hs|]. split; [reflexivity|].
  split; [exact Hp|]. rewrite Hp.
  split; [reflexivity|]. split; [reflexivity|].
  split; intros H;
    apply (f_equal (fun x => (x <? 100)%float)) in H;
    vm_compute in H; discriminate H.
Qed.

(** ** What the validator is given *)

(** part_001 hands the validator the requested components, so a snapshot
    that lacks only components the job does not ask for is accepted. *)
Lemma components_job_validates_requested_only :
  let d := Samples.job2 SourceSnapshot (Some "1") ["ticket_forms"] in
  validateSnapshot (Components2.fetchSnapshotFromConvex "1") MIGRATION_ORDER
    <> inr tt
  /\ outcome (Components2.validationPhase Components2.fetchSnapshotFromConvex
                (Components2.source d)
                (Components2.components (Components2.job d)) d)
     = inr (Components2.fetchSnapshotFromConvex "1")
  /\ outcome (Components2.worker d)
     = inr {| Components2.status := "completed";
              Components2.idMappings := [];
              Components2.jobId := "migration-1" |}.
Proof. cbv zeta. split; [discriminate|]. split; reflexivity. Qed.

(** In part_000 a job on a resolved snapshot fails validation as soon as the
    snapshot lacks any component of the catalog, whatever [ignoredItems]
    says. *)
Lemma ignored_job_needs_whole_catalog : forall store sd ld d sid snap b c,
  Ignored.source_type (Ignored.source d) = SourceSnapshot ->
  Ignored.snapshotId (Ignored.source d) = Some sid ->
  sid <> "" ->
  store sid = Some snap ->
  breakdown snap = Some b ->
  In c MIGRATION_ORDER ->
  lookup c b = None ->
  outcome (Ignored.processJob store sd ld d)
    = inl (Error ("Snapshot missing required components: "
                  ++ join ", " (filter (isMissing b) MIGRATION_ORDER)))
  /\ startedComponents (events (Ignored.processJob store sd ld d)) = [].
Proof.
  intros store sd ld d sid snap b c Htype Hsid Hne Hstore Hb Hin Hnone.
  pose proof (snapshot_job0_cases store sd ld d sid Htype Hsid Hne) as H.
  cbv zeta in H. rewrite Hstore in H.
  destruct (validateSnapshot_missing snap b MIGRATION_ORDER c Hb Hin
              (proj2 (isMissing_true b c)
                 (conj Hnone (catalog_not_inherited c Hin))))
    as [Hv _].
  rewrite Hv in H. destruct H as (Ho & Hs & _). auto.
Qed.

(** C9, evaluated where it breaks: part_000 validates the snapshot against
    the whole of [MIGRATION_ORDER].  The job below ignores every component
    but [ticket_fields] and [ticket_forms], which are the two the snapshot
    holds; validating the components it will migrate succeeds, yet the job
    fails, naming the twelve ignored components as missing, and no component
    is started. *)
Theorem ignored_job_validates_whole_catalog :
  let ignored :=
    [ "custom_statuses"; "groups"; "custom_roles"; "brands";
      "dynamic_content"; "macros"; "triggers"; "trigger_categories";
      "views"; "webhooks"; "apps"; "skills" ] in
  let d := Samples.job0 SourceSnapshot (Some "1") (Some ignored) in
  let run := Ignored.worker d in
  Ignored.componentsToMigrate ignored = ["ticket_fields"; "ticket_forms"]
  /\ validateSnapshot (Ignored.fetchSnapshotFromConvex "1")
       (Ignored.componentsToMigrate ignored) = inr tt
  /\ outcome (Ignored.validationPhase Ignored.fetchSnapshotFromConvex
                (Ignored.source d) d)
     = inl (Error ("Snapshot missing required components: "
                   ++ join ", " ignored))
  /\ outcome run
     = inl (Error ("Snapshot missing required components: "
                   ++ join ", " ignored))
  /\ startedComponents (events run) = []
  /\ progressUpdates (events run) = [].
Proof.
  cbv zeta. repeat split; reflexivity.
Qed.

(** ** The result of a completed job *)

Lemma processJob1_result : forall sd ld d r,
  outcome (Components1.processJob sd ld d) = inr r ->
  r = {| Components1.status := "completed";
         Components1.idMappings := [];
         Components1.jobId := Components1.job_id (Components1.job d) |}.
Proof.
  intros sd ld d r. unfold Components1.processJob.
  unfold bind at 1. unfold get at 1. cbv iota beta zeta.
  unfold bind at 1. unfold Components1.sortComponents at 1.
  unfold bind at 1. unfold get at 1. cbv iota beta zeta.
  unfold bind at 1. unfold put at 1. cbv iota beta.
  unfold ret at 1. cbv iota beta.
  set (d' := {| Components1.source := _ |}).
  set (sorted := sortedComponents _).
  unfold bind at 1. unfold log at 1, emit at 1. cbv iota beta.
  unfold tryCatch. unfold bind at 1.
  destruct (isSnapshot _ && _).
  - unfold call at 1.
    destruct (validateSnapshot1 _ _) as [e|[]].
    + unfold bind, log, emit, throw, outcome. simpl. discriminate.
    + unfold bind at 1.
      destruct (migrateAll _ sorted 0 d') as [[t s2] [e|n]];
        unfold bind, log, emit, throw, ret, outcome; simpl;
        [discriminate|now intros [= <-]].
  - unfold ret at 1. unfold bind at 1.
    destruct (migrateAll _ sorted 0 d') as [[t s2] [e|n]];
      unfold bind, log, emit, throw, ret, outcome; simpl;
      [discriminate|now intros [= <-]].
Qed.

(** Whatever it migrated, a job that completes returns the fixed result of
    its processor: in part_001 and in queue.ts the status "completed", the
    job id and the [idMappings] list, which the processor creates empty and
    hands back as it is; in part_000 the status and the job id. *)
Theorem completed_job_result :
  (forall store sd ld d r,
     outcome (Components2.processJob store sd ld d) = inr r ->
     r = {| Components2.status := "completed";
            Components2.idMappings := [];
            Components2.jobId := Components2.job_id (Components2.job d) |})
  /\ (forall sd ld d r,
        outcome (Components1.processJob sd ld d) = inr r ->
        r = {| Components1.status := "completed";
               Components1.idMappings := [];
               Components1.jobId := Components1.job_id (Components1.job d) |})
  /\ (forall store sd ld d r,
        outcome (Ignored.processJob store sd ld d) = inr r ->
        r = {| Ignored.status := "completed";
               Ignored.result_jobId := Ignored.jobId d |}).
Proof.
  split; [|split].
  - intros store sd ld d r Hr.
    rewrite Facts2.processJob2_reading in Hr. cbv zeta in Hr.
    destruct (snd (Reading2.validated _ _ _)) as [e|snapshot];
      [discriminate|].
    destruct (loopOutcome _ _ 0); [discriminate|].
    unfold outcome in Hr. cbn [snd] in Hr. now injection Hr as <-.
  - apply processJob1_result.
  - intros store sd ld d r Hr.
    rewrite Facts0.processJob0_reading in Hr. cbv zeta in Hr.
    destruct (snd (Reading0.validated _ _ _)) as [e|snapshot];
      [discriminate|].
    destruct (loopOutcome _ _ 0); [discriminate|].
    unfold outcome in Hr. cbn [snd] in Hr. now injection Hr as <-.
Qed.

(** ** The Identifier Translator *)
Module TranslatorFacts.
Import IdentifierTranslator.

Lemma Id_eqb_refl : forall a, Id_eqb a a = true.
Proof. intros [s|n]; simpl; [apply String.eqb_refl|apply Z.eqb_refl]. Qed.

Lemma Id_eqb_eq : forall a b, Id_eqb a b = true -> a = b.
Proof.
  intros [s|n] [s'|n']; simpl; try discriminate; intros H.
  - apply String.eqb_eq in H. now subst.
  - apply Z.eqb_eq in H. now subst.
Qed.

Lemma find_snoc : forall (p : IdMapping -> bool) l x,
  existsb p l = false ->
  find p (l ++ [x]) = if p x then Some x else None.
Proof.
  induction l as [|y rest IH]; intros x H; simpl in *; [reflexivity|].
  apply orb_false_iff in H as [Hy Hrest]. rewrite Hy. now apply IH.
Qed.

Lemma find_app_found : forall (p : IdMapping -> bool) l l' m,
  find p l = Some m -> find p (l ++ l') = Some m.
Proof.
  induction l as [|y rest IH]; intros l' m H; simpl in *; [discriminate|].
  destruct (p y); [assumption|now apply IH].
Qed.

Lemma find_none_existsb : forall (p : IdMapping -> bool) l,
  find p l = None <-> existsb p l = false.
Proof.
  induction l as [|y rest IH]; simpl; [tauto|].
  destruct (p y); simpl; [split; discriminate|exact IH].
Qed.

(** Recording under another key does not change what this key resolves
    to. *)
Lemma record_other_key : forall table entityType sourceId t' s' target meta,
  hasKey entityType sourceId
    {| oldId := s'; newId := target; type := t'; metadata := meta |} = false ->
  resolve (fst (record t' s' target meta table)) entityType sourceId
  = resolve table entityType sourceId.
Proof.
  intros table entityType sourceId t' s' target meta Hother.
  unfold record, resolve.
  destruct (existsb (hasKey t' s') table); [reflexivity|]. cbn [fst].
  destruct (find (hasKey entityType sourceId) table) as [m|] eqn:E.
  - now rewrite (find_app_found _ _ _ _ E).
  - apply find_none_existsb in E. now rewrite (find_snoc _ _ _ E), Hother.
Qed.
End TranslatorFacts.

(** C6: on a table where [(entityType, sourceId)] is not recorded, [resolve]
    returns NotFound; [record] succeeds and afterwards [resolve] returns the
    recorded target id; a second [record] with the same key, whatever target
    and metadata it brings, fails with DuplicateMapping, leaves the table as
    it was, and [resolve] still returns the first target id. *)
Theorem translator_record_then_resolve :
  forall (table : list IdMapping) (entityType : string)
         (sourceId targetId : Id) (meta : option (list (string * string))),
    existsb (IdentifierTranslator.hasKey entityType sourceId) table = false ->
    let recorded :=
      IdentifierTranslator.record entityType sourceId targetId meta table in
    IdentifierTranslator.resolve table entityType sourceId
      = inl IdentifierTranslator.NotFound
    /\ IdentifierTranslator.resolve [] entityType sourceId
       = inl IdentifierTranslator.NotFound
    /\ snd recorded = inr tt
    /\ IdentifierTranslator.resolve (fst recorded) entityType sourceId
       = inr targetId
    /\ (forall targetId' meta',
          IdentifierTranslator.record entityType sourceId targetId' meta'
            (fst recorded)
          = (fst recorded, inl IdentifierTranslator.DuplicateMapping)
          /\ IdentifierTranslator.resolve
               (fst (IdentifierTranslator.record entityType sourceId
                       targetId' meta' (fst recorded)))
               entityType sourceId
             = inr targetId).
Proof.
  intros table entityType sourceId targetId meta Hfresh recorded.
  assert (Hkey : IdentifierTranslator.hasKey entityType sourceId
                   {| oldId := sourceId; newId := targetId;
                      type := entityType; metadata := meta |} = true).
  { unfold IdentifierTranslator.hasKey. simpl.
    now rewrite String.eqb_refl, TranslatorFacts.Id_eqb_refl. }
  assert (Hres : IdentifierTranslator.resolve (fst recorded) entityType sourceId
                 = inr targetId).
  { unfold recorded, IdentifierTranslator.record, IdentifierTranslator.resolve.
    rewrite Hfresh. cbn [fst].
    now rewrite (TranslatorFacts.find_snoc _ _ _ Hfresh), Hkey. }
  split.
  { unfold IdentifierTranslator.resolve.
    now rewrite (proj2 (TranslatorFacts.find_none_existsb _ _) Hfresh). }
  split; [reflexivity|].
  split.
  { unfold recorded, IdentifierTranslator.record. now rewrite Hfresh. }
  split; [exact Hres|].
  intros targetId' meta'.
  assert (Hdup : IdentifierTranslator.record entityType sourceId targetId' meta'
                   (fst recorded)
                 = (fst recorded, inl IdentifierTranslator.DuplicateMapping)).
  { unfold IdentifierTranslator.record at 1.
    replace (existsb (IdentifierTranslator.hasKey entityType sourceId)
               (fst recorded)) with true; [reflexivity|].
    symmetry. unfold recorded, IdentifierTranslator.record.
    rewrite Hfresh. cbn [fst]. rewrite existsb_app. simpl.
    now rewrite Hkey, orb_true_r. }
  split; [exact Hdup|]. now rewrite Hdup.
Qed.

Lemma translator_record_then_resolve_witness :
  IdentifierTranslator.resolve
    (fst (IdentifierTranslator.record "groups" (IdNumber 11) (IdNumber 9001)
            None []))
    "groups" (IdNumber 11)
  = inr (IdNumber 9001)
  /\ IdentifierTranslator.record "groups" (IdNumber 11) (IdString "other") None
       (fst (IdentifierTranslator.record "groups" (IdNumber 11)
               (IdNumber 9001) None []))
     = (fst (IdentifierTranslator.record "groups" (IdNumber 11)
               (IdNumber 9001) None []),
        inl IdentifierTranslator.DuplicateMapping).
Proof.
  destruct (translator_record_then_resolve [] "groups" (IdNumber 11)
              (IdNumber 9001) None eq_refl) as (_ & _ & _ & Hres & Hdup).
  split; [exact Hres|]. apply (Hdup (IdString "other") None).
Defined.

(** * Further properties *)

(** ** The validator as a decision *)

Lemma filter_missing_nil : forall b components,
  filter (isMissing b) components = [] <->
  (forall c, In c components -> isMissing b c = false).
Proof.
  intros b components. split; [|apply nothing_missing].
  intros Hnil c Hin. destruct (isMissing b c) eqn:Hm; [|reflexivity].
  assert (Hf : In c (filter (isMissing b) components)).
  { apply filter_In. split; assumption. }
  rewrite Hnil in Hf. destruct Hf.
Qed.

Lemma no_missing_test : forall b components,
  (0 <? length (filter (isMissing b) components))%nat = false <->
  filter (isMissing b) components = [].
Proof.
  intros b components.
  destruct (filter (isMissing b) components); simpl; split; intros H;
    try reflexivity; discriminate.
Qed.

(** X2: acceptance depends only on which components are required, and less
    is easier: a snapshot accepted for a list is accepted for every list made
    of components of that list (any reordering, any selection, with or
    without repetition), and a concatenation is accepted exactly when both
    parts are. *)
Theorem validateSnapshot_accepts_sublists :
  forall (snapshot : option Snapshot) (required fewer : list string),
    (forall c, In c fewer -> In c required) ->
    validateSnapshot snapshot required = inr tt ->
    validateSnapshot snapshot fewer = inr tt
    /\ (forall l1 l2,
          validateSnapshot snapshot (l1 ++ l2)%list = inr tt <->
          validateSnapshot snapshot l1 = inr tt
          /\ validateSnapshot snapshot l2 = inr tt).
Proof.
  intros snapshot required fewer Hsub Hok.
  assert (Hmono : forall l l',
            (forall c, In c l' -> In c l) ->
            validateSnapshot snapshot l = inr tt ->
            validateSnapshot snapshot l' = inr tt).
  { intros l l' Hin. unfold validateSnapshot.
    destruct snapshot as [s|]; [|discriminate].
    destruct (breakdown s) as [b|]; [|discriminate].
    destruct (0 <? length (filter (isMissing b) l))%nat eqn:Hm;
      [discriminate|].
    pose proof (proj1 (filter_missing_nil b l)
                  (proj1 (no_missing_test b l) Hm)) as Hall.
    rewrite (proj2 (filter_missing_nil b l')); [trivial|]. auto. }
  split; [exact (Hmono required fewer Hsub Hok)|].
  intros l1 l2. split.
  - intros H. split; apply (Hmono (l1 ++ l2)%list); try assumption;
      intros c Hc; apply in_or_app; auto.
  - intros [H1 H2]. revert H1 H2. unfold validateSnapshot.
    destruct snapshot as [s|]; [|discriminate].
    destruct (breakdown s) as [b|]; [|discriminate].
    rewrite filter_app.
    destruct (0 <? length (filter (isMissing b) l1))%nat eqn:Hm1;
      [discriminate|].
    destruct (0 <? length (filter (isMissing b) l2))%nat eqn:Hm2;
      [discriminate|].
    apply no_missing_test in Hm1, Hm2. now rewrite Hm1, Hm2.
Qed.

Lemma validateSnapshot_accepts_sublists_witness :
  validateSnapshot (Components2.fetchSnapshotFromConvex "1") ["ticket_forms"]
  = inr tt.
Proof.
  apply (validateSnapshot_accepts_sublists
           (Components2.fetchSnapshotFromConvex "1")
           ["ticket_fields"; "ticket_forms"] ["ticket_forms"]).
  - intros c [<-|[]]. simpl. auto.
  - reflexivity.
Defined.

(** X3: the validator of src/src/queue.ts gives the same result as the
    guarded one on every snapshot that has a breakdown; on a snapshot without
    one, where the guarded validator reports the missing breakdown, it throws
    a [TypeError] as soon as one component is required, and with no component
    required it looks at the lock alone. *)
Theorem validateSnapshot1_against_guarded :
  forall (snapshot : Snapshot) (components : list string),
    (breakdown snapshot <> None ->
     validateSnapshot1 snapshot components
     = validateSnapshot (Some snapshot) components)
    /\ (breakdown snapshot = None ->
        validateSnapshot (Some snapshot) components
        = inl (Error "Snapshot breakdown is missing")
        /\ (components <> [] ->
            exists message,
              validateSnapshot1 snapshot components
              = inl (TypeError message))
        /\ (validateSnapshot1 snapshot [] = inr tt <->
            locked snapshot = false)).
Proof.
  intros snapshot components. unfold validateSnapshot1, validateSnapshot.
  split.
  - destruct (breakdown snapshot); [reflexivity|congruence].
  - intros ->. split; [reflexivity|]. split.
    + destruct components as [|c rest]; [congruence|]. intros _.
      eexists. reflexivity.
    + destruct (locked snapshot); split; congruence.
Qed.

Lemma validateSnapshot1_against_guarded_witness :
  (exists message,
     validateSnapshot1 Components1.placeholderSnapshot ["groups"]
     = inl (TypeError message))
  /\ validateSnapshot1 Samples.lockedGroups ["groups"]
     = validateSnapshot (Some Samples.lockedGroups) ["groups"].
Proof.
  split.
  - destruct (validateSnapshot1_against_guarded
                Components1.placeholderSnapshot ["groups"]) as [_ H].
    destruct (H eq_refl) as (_ & Hthrow & _). apply Hthrow. discriminate.
  - destruct (validateSnapshot1_against_guarded
                Samples.lockedGroups ["groups"]) as [H _].
    apply H. discriminate.
Defined.

(** ** More on the sort *)

Section SortStability.
Context {A : Type} (compareFn : A -> A -> Z) (key : A -> Z).
Hypothesis compare_by_key : forall a b, compareFn a b = (key a - key b)%Z.

Lemma insertSorted_filter_key : forall k x l,
  filter (fun a => (key a =? k)%Z) (insertSorted compareFn x l)
  = filter (fun a => (key a =? k)%Z) (x :: l).
Proof.
  intros k x. induction l as [|y rest IH]; [reflexivity|].
  cbn [insertSorted]. rewrite compare_by_key.
  destruct (key x - key y <=? 0)%Z eqn:E; [reflexivity|].
  apply Z.leb_gt in E.
  cbn [filter] in *. rewrite IH.
  destruct (key x =? k)%Z eqn:Ex, (key y =? k)%Z eqn:Ey; try reflexivity.
  apply Z.eqb_eq in Ex, Ey. lia.
Qed.

Lemma arraySort_filter_key : forall k l,
  filter (fun a => (key a =? k)%Z) (arraySort compareFn l)
  = filter (fun a => (key a =? k)%Z) l.
Proof.
  intros k. induction l as [|x rest IH]; [reflexivity|].
  cbn [arraySort]. rewrite insertSorted_filter_key.
  cbn [filter]. now rewrite IH.
Qed.

Lemma arraySort_of_sorted : forall l,
  StronglySorted (fun a b => (key a <= key b)%Z) l ->
  arraySort compareFn l = l.
Proof.
  induction l as [|x rest IH]; intros Hs; [reflexivity|].
  inversion Hs as [|? ? Hrest Hall]; subst.
  cbn [arraySort]. rewrite (IH Hrest).
  destruct rest as [|y rest']; [reflexivity|].
  cbn [insertSorted]. rewrite compare_by_key.
  inversion Hall as [|? ? Hxy _]; subst.
  destruct (key x - key y <=? 0)%Z eqn:E; [reflexivity|].
  apply Z.leb_gt in E. lia.
Qed.
End SortStability.

(** X4: the sort is stable.  The components that share a catalog position
    (the names outside the catalog, which all sit at [-1], and the
    repetitions of one name) come out in the order the caller gave them. *)
Theorem sortedComponents_stable :
  forall (requested : list string) (position : Z),
    filter (fun c => (catalogIndex c =? position)%Z)
      (sortedComponents requested)
    = filter (fun c => (catalogIndex c =? position)%Z) requested.
Proof.
  intros requested position.
  apply (arraySort_filter_key byMigrationOrder catalogIndex). reflexivity.
Qed.

(** X5: sorting is idempotent, and a list already in catalog order is left
    as it is; so a job whose components were sorted in place by a first run
    is started in the same order, component by component, when the worker
    of part_001 runs again on the job data that run left. *)
Theorem sortedComponents_idempotent :
  forall requested : list string,
    sortedComponents (sortedComponents requested) = sortedComponents requested
    /\ (StronglySorted (fun a b => (catalogIndex a <= catalogIndex b)%Z)
          requested ->
        sortedComponents requested = requested)
    /\ (forall d,
          Components2.components (Components2.job d) = requested ->
          Components2.source_type (Components2.source d) = SourceLive ->
          startedComponents
            (events (Components2.worker (finalData (Components2.worker d))))
          = startedComponents (events (Components2.worker d))).
Proof.
  intros requested.
  assert (Hsorted : forall l,
            StronglySorted
              (fun a b => (catalogIndex a <= catalogIndex b)%Z) l ->
            sortedComponents l = l).
  { intros l. apply (arraySort_of_sorted byMigrationOrder catalogIndex).
    reflexivity. }
  split; [apply Hsorted, sortedComponents_sorted|]. split; [apply Hsorted|].
  intros d Hreq Hlive.
  destruct (live_job_runs_sorted_components d Hlive) as (_ & Hs & _).
  assert (Hfinal : finalData (Components2.worker d) = Reading2.sortedData d).
  { unfold Components2.worker. rewrite Facts2.processJob2_reading. cbv zeta.
    unfold Reading2.validated. rewrite Hlive. cbn [isSnapshot andb fst snd].
    destruct (loopOutcome _ _ 0); reflexivity. }
  rewrite Hfinal.
  destruct (live_job_runs_sorted_components (Reading2.sortedData d) Hlive)
    as (_ & Hs' & _).
  rewrite Hs', Hs. cbn [Reading2.sortedData Components2.job
                          Components2.components].
  apply Hsorted, sortedComponents_sorted.
Qed.

Lemma sortedComponents_idempotent_witness :
  sortedComponents ["groups"; "macros"; "views"] = ["groups"; "macros"; "views"]
  /\ startedComponents
       (events (Components2.worker
                  (finalData (Components2.worker
                                (Samples.job2 SourceLive None
                                   ["views"; "groups"])))))
     = startedComponents
         (events (Components2.worker
                    (Samples.job2 SourceLive None ["views"; "groups"]))).
Proof.
  split.
  - destruct (sortedComponents_idempotent ["groups"; "macros"; "views"])
      as (_ & H & _).
    apply H.
    repeat (constructor; [|repeat (constructor; [vm_compute; discriminate|])]).
    all: try constructor.
  - destruct (sortedComponents_idempotent ["views"; "groups"]) as (_ & _ & H).
    apply H; reflexivity.
Defined.

(** ** The list part_000 migrates *)

Lemma componentsToMigrate_In : forall ignored c,
  In c (Ignored.componentsToMigrate ignored) <->
  In c MIGRATION_ORDER /\ ~ In c ignored.
Proof.
  intros ignored c. unfold Ignored.componentsToMigrate.
  rewrite filter_In, negb_true_iff, <- not_true_iff_false, includes_In.
  tauto.
Qed.

Lemma strictly_sorted_NoDup : forall l : list string,
  StronglySorted (fun a b => (catalogIndex a < catalogIndex b)%Z) l ->
  NoDup l.
Proof.
  induction l as [|a rest IH]; intros Hs; [constructor|].
  inversion Hs as [|? ? Hrest Hall]; subst. constructor; [|now apply IH].
  intros Hin. rewrite Forall_forall in Hall. specialize (Hall a Hin). lia.
Qed.

(** X6: the list part_000 runs is the catalog with the ignored names taken
    out: it holds exactly the catalog names that are not ignored, each once,
    in catalog order, so never more than the fourteen of the catalog. *)
Theorem componentsToMigrate_is_catalog_minus_ignored :
  forall ignored : list string,
    (forall c, In c (Ignored.componentsToMigrate ignored) <->
               In c MIGRATION_ORDER /\ ~ In c ignored)
    /\ StronglySorted (fun a b => (catalogIndex a < catalogIndex b)%Z)
         (Ignored.componentsToMigrate ignored)
    /\ NoDup (Ignored.componentsToMigrate ignored)
    /\ (length (Ignored.componentsToMigrate ignored) <= 14)%nat.
Proof.
  intros ignored.
  assert (Hs : StronglySorted
                 (fun a b => (catalogIndex a < catalogIndex b)%Z)
                 (Ignored.componentsToMigrate ignored)).
  { apply filter_strictly_sorted, MIGRATION_ORDER_strictly_sorted. }
  split; [apply componentsToMigrate_In|]. split; [exact Hs|].
  split; [now apply strictly_sorted_NoDup|].
  apply (filter_length_le _ MIGRATION_ORDER).
Qed.

(** X7: only the catalog names among [ignoredItems] count.  Two ignore lists
    that agree on the catalog names give the same list to migrate, so names
    outside the catalog, repetitions and order in [ignoredItems] change
    nothing; nothing ignored gives the whole catalog and everything ignored
    gives the empty list. *)
Theorem componentsToMigrate_depends_on_catalog_names :
  forall ignored ignored' : list string,
    (forall c, In c MIGRATION_ORDER -> (In c ignored <-> In c ignored')) ->
    Ignored.componentsToMigrate ignored = Ignored.componentsToMigrate ignored'
    /\ ((forall c, In c MIGRATION_ORDER -> ~ In c ignored) ->
        Ignored.componentsToMigrate ignored = MIGRATION_ORDER)
    /\ ((forall c, In c MIGRATION_ORDER -> In c ignored) ->
        Ignored.componentsToMigrate ignored = []).
Proof.
  intros ignored ignored' Hagree. unfold Ignored.componentsToMigrate.
  split; [|split].
  - apply filter_ext_in. intros c Hc. f_equal.
    destruct (includes ignored c) eqn:E, (includes ignored' c) eqn:E';
      try reflexivity.
    + apply includes_In, (Hagree c Hc), includes_In in E. congruence.
    + apply includes_In, (Hagree c Hc), includes_In in E'. congruence.
  - intros Hnone.
    rewrite <- (filter_ext_in (fun _ => true)).
    + clear. induction MIGRATION_ORDER as [|x l IH]; simpl; congruence.
    + intros c Hc. symmetry. apply negb_true_iff, not_true_iff_false.
      rewrite includes_In. now apply Hnone.
  - intros Hall.
    rewrite <- (filter_ext_in (fun _ => false)).
    + clear. induction MIGRATION_ORDER as [|x l IH]; simpl; congruence.
    + intros c Hc. symmetry. apply negb_false_iff, includes_In.
      now apply Hall.
Qed.

Lemma componentsToMigrate_depends_on_catalog_names_witness :
  Ignored.componentsToMigrate ["skills"; "no_such_component"; "skills"]
  = Ignored.componentsToMigrate ["skills"].
Proof.
  apply (componentsToMigrate_depends_on_catalog_names
           ["skills"; "no_such_component"; "skills"] ["skills"]).
  intros c Hc. simpl. split.
  - intros [<-|[<-|[<-|[]]]]; auto.
    exfalso. revert Hc. unfold MIGRATION_ORDER. simpl.
    intuition discriminate.
  - intros [<-|[]]. auto.
Defined.

(** X8: the two ways of choosing components agree.  A job of part_001 that
    requests, without repetition, exactly the catalog names a job of part_000
    does not ignore migrates the same components in the same order; on a live
    source the two workers start the same components. *)
Theorem requested_and_ignored_agree :
  forall (requested ignored : list string),
    NoDup requested ->
    (forall c, In c requested <-> In c MIGRATION_ORDER /\ ~ In c ignored) ->
    sortedComponents requested = Ignored.componentsToMigrate ignored
    /\ (forall d2 d0,
          Components2.components (Components2.job d2) = requested ->
          Components2.source_type (Components2.source d2) = SourceLive ->
          Ignored.ignoredItems d0 = Some ignored ->
          Ignored.source_type (Ignored.source d0) = SourceLive ->
          startedComponents (events (Components2.worker d2))
          = startedComponents (events (Ignored.worker d0))).
Proof.
  intros requested ignored Hnd Hreq.
  assert (Heq : sortedComponents requested
                = Ignored.componentsToMigrate ignored).
  { rewrite (sortedComponents_known requested Hnd)
      by (intros c Hc; now apply Hreq).
    unfold Ignored.componentsToMigrate. apply filter_ext_in. intros c Hc.
    destruct (includes ignored c) eqn:E; simpl.
    - apply not_true_iff_false. rewrite includes_In. intros Hin.
      apply Hreq in Hin. apply includes_In in E. tauto.
    - apply includes_In, Hreq. split; [assumption|].
      rewrite <- includes_In. congruence. }
  split; [exact Heq|].
  intros d2 d0 H2 Hlive2 H0 Hlive0.
  destruct (live_job_runs_sorted_components d2 Hlive2) as (_ & -> & _).
  destruct (ignored_live_job_progress d0 Hlive0) as (_ & -> & _).
  now rewrite H2, H0.
Qed.

Lemma requested_and_ignored_agree_witness :
  sortedComponents ["views"; "groups"]
  = Ignored.componentsToMigrate
      [ "custom_statuses"; "custom_roles"; "ticket_fields"; "ticket_forms";
        "brands"; "dynamic_content"; "macros"; "triggers";
        "trigger_categories"; "webhooks"; "apps"; "skills" ].
Proof.
  apply (requested_and_ignored_agree ["views"; "groups"]
           [ "custom_statuses"; "custom_roles"; "ticket_fields";
             "ticket_forms"; "brands"; "dynamic_content"; "macros";
             "triggers"; "trigger_categories"; "webhooks"; "apps";
             "skills" ]).
  - repeat constructor; simpl; intuition discriminate.
  - intros c. unfold MIGRATION_ORDER. simpl. split.
    + intros [<-|[<-|[]]]; (split; [auto 20|intuition discriminate]).
    + intros [Hin Hnot].
      repeat (destruct Hin as [<-|Hin];
              [solve [auto | exfalso; apply Hnot; auto 20]|]).
      destruct Hin.
Defined.

(** ** More on the loop *)

Section LoopObservations.
Variable bodyTrace : string -> nat -> list Event.
Variable failure : string -> option exn.

Lemma succeededCount_le : forall items,
  (succeededCount failure items <= length items)%nat.
Proof.
  induction items as [|c rest IH]; simpl; [lia|].
  destruct (failure c); lia.
Qed.

Lemma succeededCount_completed : forall items k n,
  loopOutcome failure items k = inr n ->
  succeededCount failure items = length items.
Proof.
  intros items k n H.
  exact (proj2 (proj2 (loopOutcome_ok failure items k
                         (loopOutcome_succeeds failure items k n H)))).
Qed.

Lemma succeededCount_failed : forall items k e,
  loopOutcome failure items k = inl e ->
  (succeededCount failure items < length items)%nat.
Proof.
  induction items as [|c rest IH]; intros k e H; simpl in *; [discriminate|].
  destruct (failure c); [lia|]. specialize (IH _ _ H). lia.
Qed.

(** What an observer sees of a loop in which nothing throws: what it sees of
    each step, step after step. *)
Lemma loopTrace_observed : forall {X} (obs : Event -> list X)
    (g : string -> nat -> list X) items k,
  (forall c, In c items -> failure c = None) ->
  (forall c i, In c items ->
     flat_map obs (Log (Starting c) :: bodyTrace c i) = g c i) ->
  flat_map obs (loopTrace bodyTrace failure items k)
  = flat_map (fun ci => g (fst ci) (snd ci))
      (combine items (seq k (length items))).
Proof.
  intros X obs g. induction items as [|c rest IH]; intros k Hok Hobs;
    [reflexivity|].
  cbn [loopTrace length seq combine flat_map fst snd].
  rewrite (Hok c (or_introl eq_refl)), flat_map_app.
  rewrite (Hobs c k (or_introl eq_refl)). f_equal.
  apply IH; intros; [apply Hok|apply Hobs]; now right.
Qed.

Lemma loopTrace_errorLines :
  (forall c k, errorLines (bodyTrace c k) = []) ->
  forall items k,
    match loopOutcome failure items k with
    | inl e =>
        exists c, In c items
                  /\ errorLines (loopTrace bodyTrace failure items k)
                     = [ErrorProcessing c (errorMessage e)]
    | inr _ => errorLines (loopTrace bodyTrace failure items k) = []
    end.
Proof.
  intros Hbody. induction items as [|c rest IH]; intros k; [reflexivity|].
  cbn [loopTrace loopOutcome].
  assert (Hhead : forall t,
            errorLines ((Log (Starting c) :: bodyTrace c k) ++ t)
            = errorLines t).
  { intros t. unfold errorLines at 1. rewrite flat_map_app.
    cbn [flat_map]. fold (errorLines (bodyTrace c k)).
    now rewrite Hbody. }
  destruct (failure c) as [e|].
  - exists c. split; [now left|]. now rewrite Hhead.
  - specialize (IH (S k)).
    destruct (loopOutcome failure rest (S k)) as [e|n].
    + destruct IH as (c' & Hin & Herr). exists c'. split; [now right|].
      now rewrite Hhead.
    + now rewrite Hhead.
Qed.
End LoopObservations.

Lemma flat_map_singleton_fst : forall {X Y} (l : list (X * Y)),
  flat_map (fun xy => [fst xy]) l = map fst l.
Proof. induction l as [|a l IH]; simpl; congruence. Qed.

Lemma flat_map_nothing : forall {X Y} (l : list X),
  flat_map (fun _ : X => @nil Y) l = [].
Proof. induction l as [|a l IH]; simpl; congruence. Qed.

Lemma map_fst_combine_seq : forall {X} (l : list X) k,
  map fst (combine l (seq k (length l))) = l.
Proof.
  induction l as [|a l IH]; intros k; simpl; [reflexivity|].
  now rewrite IH.
Qed.

(** ** src/src/queue.ts read as a straight line *)
Module Facts1.
Import Components1.
Section Facts.
Variable snapshotData : string -> option string -> exn + SourceData.
Variable liveData : string -> InstanceInfo -> exn + SourceData.

Lemma body1_reading : forall src totalSteps c k s,
  body snapshotData liveData src totalSteps c k s =
    (Reading1.bodyTrace snapshotData liveData src totalSteps c k, s,
     match Reading1.failure snapshotData liveData src c with
     | Some e => inl e
     | None => inr (S k)
     end).
Proof.
  intros. unfold body, Reading1.bodyTrace, Reading1.failure, Reading1.fetched.
  rewrite Nat.add_1_r.
  destruct (isSnapshot (source_type src) && truthyNumber (snapshotId src));
    unfold bind, call, log, emit, updateProgress, ret; simpl.
  - reflexivity.
  - destruct (liveData c (source_instanceInfo src)); reflexivity.
Qed.

Lemma body1_starts_nothing : forall src totalSteps c k,
  startedComponents
    (Reading1.bodyTrace snapshotData liveData src totalSteps c k) = [].
Proof.
  intros. unfold Reading1.bodyTrace.
  destruct (Reading1.fetched _ _ _ _); reflexivity.
Qed.

Lemma body1_progress : forall src totalSteps c k,
  progressUpdates
    (Reading1.bodyTrace snapshotData liveData src totalSteps c k) =
    match Reading1.failure snapshotData liveData src c with
    | Some _ => []
    | None => [progressValue (S k) totalSteps]
    end.
Proof.
  intros. unfold Reading1.bodyTrace, Reading1.failure.
  destruct (Reading1.fetched _ _ _ _); reflexivity.
Qed.

(** The whole processor, as one case analysis. *)
Lemma processJob1_reading : forall d,
  let requested := components (job d) in
  let sorted := sortedComponents requested in
  let init := Log (Initializing ("tmp/" ++ job_id (job d))) in
  let checked :=
    if isSnapshot (source_type (source d))
       && truthyNumber (snapshotId (source d))
    then validateSnapshot1 placeholderSnapshot sorted
    else inr tt in
  processJob snapshotData liveData d =
    match checked with
    | inl e =>
        ([init; Log (FatalError (errorMessage e))],
         Reading1.sortedData d, inl e)
    | inr _ =>
        let failure :=
          Reading1.failure snapshotData liveData (source d) in
        let t :=
          loopTrace
            (Reading1.bodyTrace snapshotData liveData (source d)
               (length requested))
            failure sorted 0 in
        match loopOutcome failure sorted 0 with
        | inl e =>
            (init :: t ++ [Log (FatalError (errorMessage e))],
             Reading1.sortedData d, inl e)
        | inr _ =>
            (init :: t, Reading1.sortedData d,
             inr {| status := "completed";
                    idMappings := [];
                    jobId := job_id (job d) |})
        end
    end%list.
Proof.
  intros d requested sorted init checked. unfold processJob.
  unfold bind at 1. unfold get at 1. cbv iota beta zeta.
  unfold bind at 1. unfold sortComponents at 1.
  unfold bind at 1. unfold get at 1. cbv iota beta zeta.
  unfold bind at 1. unfold put at 1. cbv iota beta.
  unfold ret at 1. cbv iota beta.
  fold requested. fold sorted. fold (Reading1.sortedData d).
  unfold bind at 1. unfold log at 1, emit at 1. cbv iota beta.
  unfold tryCatch. unfold bind at 1.
  unfold checked.
  destruct (isSnapshot _ && _).
  - unfold call at 1.
    destruct (validateSnapshot1 placeholderSnapshot sorted) as [e|[]].
    + unfold bind, log, emit, throw. reflexivity.
    + unfold bind at 1.
      rewrite (migrateAll_reading _ _ _ (body1_reading _ _)).
      destruct (loopOutcome _ sorted 0) as [e|n].
      * unfold bind, log, emit, throw. simpl.
        rewrite ?app_nil_r. reflexivity.
      * unfold ret. simpl. rewrite ?app_nil_r. reflexivity.
  - unfold ret at 1. unfold bind at 1.
    rewrite (migrateAll_reading _ _ _ (body1_reading _ _)).
    destruct (loopOutcome _ sorted 0) as [e|n].
    + unfold bind, log, emit, throw. simpl.
      rewrite ?app_nil_r. reflexivity.
    + unfold ret. simpl. rewrite ?app_nil_r. reflexivity.
Qed.
End Facts.
End Facts1.

(** ** A validated snapshot job *)

Lemma validateSnapshot_ok_inv : forall s l,
  validateSnapshot (Some s) l = inr tt ->
  exists b,
    breakdown s = Some b
    /\ (forall c, In c l -> isMissing b c = false)
    /\ locked s = false.
Proof.
  intros s l. unfold validateSnapshot.
  destruct (breakdown s) as [b|]; [|discriminate].
  destruct (0 <? _)%nat eqn:Hm; [discriminate|].
  destruct (locked s); [discriminate|]. intros _.
  exists b. repeat split.
  exact (proj1 (filter_missing_nil b l) (proj1 (no_missing_test b l) Hm)).
Qed.

(** What the validator's test finds is what the loop reads: the entry, or
    the inherited value when there is no entry. *)
Lemma found_componentInfo : forall snap b c property,
  breakdown snap = Some b ->
  isMissing b c = false ->
  componentInfoOf snap c property = inr (getProperty b c)
  /\ match lookup c b with
     | Some info =>
         sizeOf (getProperty b c) = Some (size info)
         /\ fileOf (getProperty b c) = Some (file info)
     | None =>
         In c objectPrototypeKeys
         /\ sizeOf (getProperty b c) = None
         /\ fileOf (getProperty b c) = None
     end.
Proof.
  intros snap b c property Hb Hm. unfold componentInfoOf. rewrite Hb.
  unfold isMissing in Hm. unfold getProperty in *.
  destruct (lookup c b) as [info|]; [repeat split|].
  destruct (includes objectPrototypeKeys c) eqn:E; [|discriminate Hm].
  apply includes_In in E. repeat split. exact E.
Qed.

(** The run of part_001 once the snapshot has been found and accepted. *)
Lemma snapshot_job2_run : forall store sd ld d sid snap,
  Components2.source_type (Components2.source d) = SourceSnapshot ->
  Components2.snapshotId (Components2.source d) = Some sid ->
  sid <> "" ->
  store sid = Some snap ->
  validateSnapshot (Some snap) (Components2.components (Components2.job d))
    = inr tt ->
  let requested := Components2.components (Components2.job d) in
  let opening :=
    [ Log (Initializing ("tmp/" ++ Components2.job_id (Components2.job d)));
      Log (FetchingSnapshot sid);
      Log (ValidatingSnapshot (snapshot_name snap));
      Log ValidationSuccessful ] in
  let failure :=
    Reading2.failure sd ld (Components2.source d) (Some snap) in
  let t :=
    loopTrace
      (Reading2.bodyTrace sd ld (Components2.source d) (Components2.target d)
         (Some snap) (length requested))
      failure (sortedComponents requested) 0 in
  Components2.processJob store sd ld d =
    match loopOutcome failure (sortedComponents requested) 0 with
    | inl e =>
        (opening ++ t ++ [Log (FatalError (errorMessage e))],
         Reading2.sortedData d, inl e)
    | inr _ =>
        (opening ++ t, Reading2.sortedData d,
         inr {| Components2.status := "completed";
                Components2.idMappings := [];
                Components2.jobId :=
                  Components2.job_id (Components2.job d) |})
    end%list.
Proof.
  intros store sd ld d sid snap Htype Hsid Hne Hstore Hv.
  cbv zeta. rewrite Facts2.processJob2_reading. cbv zeta.
  unfold Reading2.validated.
  rewrite Htype, Hsid, (truthy_nonempty sid Hne), Hstore, Hv.
  cbn [isSnapshot andb fst snd].
  destruct (loopOutcome _ _ 0); reflexivity.
Qed.

Lemma snapshot_job0_run : forall store sd ld d sid snap,
  Ignored.source_type (Ignored.source d) = SourceSnapshot ->
  Ignored.snapshotId (Ignored.source d) = Some sid ->
  sid <> "" ->
  store sid = Some snap ->
  validateSnapshot (Some snap) MIGRATION_ORDER = inr tt ->
  let items :=
    Ignored.componentsToMigrate
      (match Ignored.ignoredItems d with Some l => l | None => [] end) in
  let opening :=
    [ Log (Initializing ("tmp/" ++ Ignored.jobId d));
      Log (FetchingSnapshot sid);
      Log (ValidatingSnapshot (snapshot_name snap));
      Log ValidationSuccessful ] in
  let failure := Reading0.failure sd ld (Ignored.source d) (Some snap) in
  let t :=
    loopTrace
      (Reading0.bodyTrace sd ld (Ignored.source d) (Ignored.target d)
         (Some snap) (length MIGRATION_ORDER))
      failure items 0 in
  Ignored.processJob store sd ld d =
    match loopOutcome failure items 0 with
    | inl e =>
        (opening ++ t ++ [Log (FatalError (errorMessage e))], d, inl e)
    | inr _ =>
        (opening ++ t, d,
         inr {| Ignored.status := "completed";
                Ignored.result_jobId := Ignored.jobId d |})
    end%list.
Proof.
  intros store sd ld d sid snap Htype Hsid Hne Hstore Hv.
  cbv zeta. rewrite Facts0.processJob0_reading. cbv zeta.
  unfold Reading0.validated.
  rewrite Htype, Hsid, (truthy_nonempty sid Hne), Hstore, Hv.
  cbn [isSnapshot andb fst snd].
  destruct (loopOutcome _ _ 0); reflexivity.
Qed.

Lemma map_fst_snapshotFetches : forall t,
  map fst (snapshotFetches t)
  = flat_map (fun ev =>
                match ev with
                | Log (FetchingFromSnapshot c _) => [c]
                | _ => []
                end) t.
Proof.
  induction t as [|ev t IH]; [reflexivity|].
  unfold snapshotFetches in *. cbn [flat_map]. rewrite map_app, IH.
  destruct ev as [[]|]; reflexivity.
Qed.

(** One step of part_001 on a snapshot that holds the component, with a
    storage client that answers. *)
Lemma snapshot_step2 : forall sd ld src tgt snap b total c,
  Components2.source_type src = SourceSnapshot ->
  breakdown snap = Some b ->
  isMissing b c = false ->
  (forall c' f, exists x, sd c' f = inr x) ->
  Reading2.failure sd ld src (Some snap) c = None
  /\ forall k,
       Reading2.bodyTrace sd ld src tgt (Some snap) total c k
       = [ Log (FetchingFromSnapshot c (sizeOf (getProperty b c)));
           Log (Processing c (k + 1) total);
           Log (Creating c
                  (Components2.subdomain
                     (Components2.target_instanceInfo tgt)));
           UpdateProgress (progressValue (S k) total) ].
Proof.
  intros sd ld src tgt snap b total c Htype Hb Hm Hsd.
  unfold Reading2.failure, Reading2.bodyTrace, Reading2.fetched.
  rewrite Htype, (proj1 (found_componentInfo snap b c "size" Hb Hm)).
  cbn [isSnapshot fst snd].
  destruct (Hsd c (fileOf (getProperty b c))) as [x ->].
  split; reflexivity.
Qed.

Lemma snapshot_step0 : forall sd ld src tgt snap b total c,
  Ignored.source_type src = SourceSnapshot ->
  breakdown snap = Some b ->
  isMissing b c = false ->
  (forall c' f, exists x, sd c' f = inr x) ->
  Reading0.failure sd ld src (Some snap) c = None
  /\ forall k,
       Reading0.bodyTrace sd ld src tgt (Some snap) total c k
       = [ Log (FetchingFromSnapshot c (sizeOf (getProperty b c)));
           Log (Creating c
                  (Ignored.subdomain (Ignored.target_instanceInfo tgt)));
           UpdateProgress (progressValue (S k) total) ].
Proof.
  intros sd ld src tgt snap b total c Htype Hb Hm Hsd.
  unfold Reading0.failure, Reading0.bodyTrace, Reading0.fetched.
  rewrite Htype, (proj1 (found_componentInfo snap b c "size" Hb Hm)).
  cbn [isSnapshot fst snd].
  destruct (Hsd c (fileOf (getProperty b c))) as [x ->].
  split; reflexivity.
Qed.

(** X9: in part_001, once the snapshot of a job has been found and accepted,
    no step can trip on a missing breakdown entry: with a storage client that
    answers, the job completes, every requested component is started, in
    sorted order, each is read from the snapshot, and the live instance is
    never asked.  The size logged for a component is the one its breakdown
    entry gives; a component without an entry got past the validator only
    under the name of an [Object.prototype] property, and its size is logged
    as [undefined]. *)
Theorem validated_snapshot_job_reads_snapshot_only :
  forall store sd ld d sid snap b,
    Components2.source_type (Components2.source d) = SourceSnapshot ->
    Components2.snapshotId (Components2.source d) = Some sid ->
    sid <> "" ->
    store sid = Some snap ->
    breakdown snap = Some b ->
    validateSnapshot (Some snap) (Components2.components (Components2.job d))
      = inr tt ->
    (forall c f, exists x, sd c f = inr x) ->
    let requested := Components2.components (Components2.job d) in
    let run := Components2.processJob store sd ld d in
    outcome run
      = inr {| Components2.status := "completed";
               Components2.idMappings := [];
               Components2.jobId := Components2.job_id (Components2.job d) |}
    /\ startedComponents (events run) = sortedComponents requested
    /\ liveFetches (events run) = []
    /\ map fst (snapshotFetches (events run)) = sortedComponents requested
    /\ (forall c n, In (c, n) (snapshotFetches (events run)) ->
          match lookup c b with
          | Some info => n = Some (size info)
          | None => In c objectPrototypeKeys /\ n = None
          end).
Proof.
  intros store sd ld d sid snap b Htype Hsid Hne Hstore Hb Hv Hsd
    requested run.
  destruct (validateSnapshot_ok_inv _ _ Hv) as (b' & Hb' & Hall & _).
  assert (b' = b) by congruence. subst b'.
  assert (Hin : forall c, In c (sortedComponents requested) ->
                          isMissing b c = false).
  { intros c Hc. apply Hall.
    apply (Permutation_in _ (Permutation_sym
                               (sortedComponents_perm requested)) Hc). }
  pose proof (snapshot_job2_run store sd ld d sid snap Htype Hsid Hne
                Hstore Hv) as Hrun.
  cbv zeta in Hrun. fold requested in Hrun.
  set (failure := Reading2.failure sd ld (Components2.source d) (Some snap))
    in *.
  set (bt := Reading2.bodyTrace sd ld (Components2.source d)
               (Components2.target d) (Some snap) (length requested)) in *.
  assert (Hok : forall c, In c (sortedComponents requested) ->
                          failure c = None).
  { intros c Hc.
    exact (proj1 (snapshot_step2 sd ld _ (Components2.target d) snap b
                    (length requested) c Htype Hb (Hin c Hc) Hsd)). }
  destruct (loopOutcome_ok failure (sortedComponents requested) 0 Hok)
    as (Ho & Ha & _).
  rewrite Ho in Hrun. unfold run. rewrite Hrun.
  unfold outcome, events. cbn [fst snd].
  split; [reflexivity|].
  split.
  { rewrite startedComponents_app.
    unfold bt, failure.
    rewrite (loopTrace_started _ _ (Facts2.body2_starts_nothing _ _ _ _ _ _)).
    fold failure. now rewrite Ha. }
  assert (Hlive : liveFetches (loopTrace bt failure
                                 (sortedComponents requested) 0) = []).
  { unfold liveFetches.
    rewrite (loopTrace_observed bt failure _ (fun _ _ => []) _ 0 Hok).
    - apply flat_map_nothing.
    - intros c i Hc. unfold bt.
      rewrite (proj2 (snapshot_step2 sd ld _ (Components2.target d) snap b
                        (length requested) c Htype Hb (Hin c Hc) Hsd) i).
      reflexivity. }
  assert (Hsnap : snapshotFetches (loopTrace bt failure
                                     (sortedComponents requested) 0)
                  = flat_map
                      (fun ci =>
                         [(fst ci, sizeOf (getProperty b (fst ci)))])
                      (combine (sortedComponents requested)
                         (seq 0 (length (sortedComponents requested))))).
  { unfold snapshotFetches.
    rewrite (loopTrace_observed bt failure _
               (fun c _ => [(c, sizeOf (getProperty b c))]) _ 0 Hok);
      [reflexivity|].
    intros c i Hc. unfold bt.
    rewrite (proj2 (snapshot_step2 sd ld _ (Components2.target d) snap b
                      (length requested) c Htype Hb (Hin c Hc) Hsd) i).
    reflexivity. }
  split.
  { unfold liveFetches. rewrite flat_map_app. fold liveFetches.
    fold (liveFetches (loopTrace bt failure (sortedComponents requested) 0)).
    now rewrite Hlive. }
  assert (Hall' : snapshotFetches
                    ([ Log (Initializing
                              ("tmp/" ++ Components2.job_id
                                           (Components2.job d)));
                       Log (FetchingSnapshot sid);
                       Log (ValidatingSnapshot (snapshot_name snap));
                       Log ValidationSuccessful ]
                     ++ loopTrace bt failure (sortedComponents requested) 0)
                  = snapshotFetches
                      (loopTrace bt failure (sortedComponents requested) 0)).
  { unfold snapshotFetches. now rewrite flat_map_app. }
  split.
  - rewrite map_fst_snapshotFetches, flat_map_app. cbn [flat_map app].
    rewrite (loopTrace_observed bt failure _ (fun c _ => [c]) _ 0 Hok).
    + rewrite (flat_map_singleton_fst
                 (combine (sortedComponents requested)
                    (seq 0 (length (sortedComponents requested))))).
      apply map_fst_combine_seq.
    + intros c i Hc. unfold bt.
      rewrite (proj2 (snapshot_step2 sd ld _ (Components2.target d) snap b
                        (length requested) c Htype Hb (Hin c Hc) Hsd) i).
      reflexivity.
  - rewrite Hall', Hsnap.
    intros c n Hcn. apply in_flat_map in Hcn as ([c' i] & Hci & Hcn).
    cbn [fst] in Hcn. destruct Hcn as [[= <- <-]|[]].
    apply in_combine_l in Hci.
    pose proof (proj2 (found_componentInfo snap b c' "size" Hb (Hin c' Hci)))
      as Hfound.
    destruct (lookup c' b) as [info|].
    + exact (proj1 Hfound).
    + destruct Hfound as (Hp & Hs & _). split; assumption.
Qed.

Lemma validated_snapshot_job_reads_snapshot_only_witness :
  let run :=
    Components2.worker
      (Samples.job2 SourceSnapshot (Some "1")
         ["ticket_forms"; "ticket_fields"; "valueOf"]) in
  startedComponents (events run)
  = ["valueOf"; "ticket_fields"; "ticket_forms"]
  /\ liveFetches (events run) = []
  /\ map fst (snapshotFetches (events run))
     = ["valueOf"; "ticket_fields"; "ticket_forms"]
  /\ snapshotFetches (events run)
     = [ ("valueOf", None); ("ticket_fields", Some 4500%nat);
         ("ticket_forms", Some 2500%nat) ].
Proof.
  cbv zeta.
  pose (b := [ ("ticket_fields",
                {| count := "10"; size := 4500;
                   file := "/1/1/ticket_fields.json" |});
               ("ticket_forms",
                {| count := "1"; size := 2500;
                   file := "/1/1/ticket_forms.json" |}) ]).
  pose (snap := {| snapshot_id := "1"; snapshot_name := "Snapshot 1";
                   tags := ["dev"; "stable"; "backup"]; parent := Some "1";
                   locked := false; createdAt := "2024-01-01T00:00:00.000Z";
                   breakdown := Some b |}).
  assert (Hne : "1" <> "") by discriminate.
  assert (Hsd : forall c f, exists x,
                  Components2.fetchSnapshotData c f = inr x)
    by (intros c f; eexists; reflexivity).
  destruct (validated_snapshot_job_reads_snapshot_only
              Components2.fetchSnapshotFromConvex Components2.fetchSnapshotData
              Components2.fetchLiveData
              (Samples.job2 SourceSnapshot (Some "1")
                 ["ticket_forms"; "ticket_fields"; "valueOf"])
              "1" snap b eq_refl eq_refl Hne eq_refl eq_refl eq_refl Hsd)
    as (_ & Hs & Hl & Hf & _).
  split; [exact Hs|]. split; [exact Hl|]. split; [exact Hf|]. reflexivity.
Defined.

(** X10: in part_000 the snapshot is accepted only if it holds the whole
    catalog, so after acceptance every component the job keeps is in it:
    with a storage client that answers, the job completes whatever
    [ignoredItems] is, the components started are the catalog minus the
    ignored ones, each is read from the snapshot, and the live instance is
    never asked. *)
Theorem validated_snapshot_job_of_catalog_completes :
  forall store sd ld d sid snap,
    Ignored.source_type (Ignored.source d) = SourceSnapshot ->
    Ignored.snapshotId (Ignored.source d) = Some sid ->
    sid <> "" ->
    store sid = Some snap ->
    validateSnapshot (Some snap) MIGRATION_ORDER = inr tt ->
    (forall c f, exists x, sd c f = inr x) ->
    let items :=
      Ignored.componentsToMigrate
        (match Ignored.ignoredItems d with Some l => l | None => [] end) in
    let run := Ignored.processJob store sd ld d in
    outcome run
      = inr {| Ignored.status := "completed";
               Ignored.result_jobId := Ignored.jobId d |}
    /\ startedComponents (events run) = items
    /\ liveFetches (events run) = []
    /\ map fst (snapshotFetches (events run)) = items.
Proof.
  intros store sd ld d sid snap Htype Hsid Hne Hstore Hv Hsd items run.
  destruct (validateSnapshot_ok_inv _ _ Hv) as (b & Hb & Hall & _).
  assert (Hin : forall c, In c items -> isMissing b c = false).
  { intros c Hc. apply Hall. now apply componentsToMigrate_In in Hc. }
  pose proof (snapshot_job0_run store sd ld d sid snap Htype Hsid Hne
                Hstore Hv) as Hrun.
  cbv zeta in Hrun. fold items in Hrun.
  set (failure := Reading0.failure sd ld (Ignored.source d) (Some snap)) in *.
  set (bt := Reading0.bodyTrace sd ld (Ignored.source d) (Ignored.target d)
               (Some snap) (length MIGRATION_ORDER)) in *.
  assert (Hok : forall c, In c items -> failure c = None).
  { intros c Hc.
    exact (proj1 (snapshot_step0 sd ld _ (Ignored.target d) snap b
                    (length MIGRATION_ORDER) c Htype Hb (Hin c Hc) Hsd)). }
  destruct (loopOutcome_ok failure items 0 Hok) as (Ho & Ha & _).
  rewrite Ho in Hrun. unfold run. rewrite Hrun.
  unfold outcome, events. cbn [fst snd].
  split; [reflexivity|].
  split.
  { rewrite startedComponents_app. unfold bt, failure.
    rewrite (loopTrace_started _ _ (Facts0.body0_starts_nothing _ _ _ _ _ _)).
    fold failure. now rewrite Ha. }
  split.
  - unfold liveFetches. rewrite flat_map_app. cbn [flat_map app].
    rewrite (loopTrace_observed bt failure _ (fun _ _ => []) _ 0 Hok).
    + apply flat_map_nothing.
    + intros c i Hc. unfold bt.
      rewrite (proj2 (snapshot_step0 sd ld _ (Ignored.target d) snap b
                        (length MIGRATION_ORDER) c Htype Hb (Hin c Hc) Hsd) i).
      reflexivity.
  - rewrite map_fst_snapshotFetches, flat_map_app. cbn [flat_map app].
    rewrite (loopTrace_observed bt failure _ (fun c _ => [c]) _ 0 Hok).
    + rewrite (flat_map_singleton_fst
                 (combine items (seq 0 (length items)))).
      apply map_fst_combine_seq.
    + intros c i Hc. unfold bt.
      rewrite (proj2 (snapshot_step0 sd ld _ (Ignored.target d) snap b
                        (length MIGRATION_ORDER) c Htype Hb (Hin c Hc) Hsd) i).
      reflexivity.
Qed.

Lemma validated_snapshot_job_of_catalog_completes_witness :
  let run :=
    Ignored.processJob Samples.fullStore Ignored.fetchSnapshotData
      Ignored.fetchLiveData
      (Samples.job0 SourceSnapshot (Some "9") (Some ["skills"; "apps"])) in
  outcome run
    = inr {| Ignored.status := "completed";
             Ignored.result_jobId := "migration-1" |}
  /\ liveFetches (events run) = [].
Proof.
  cbv zeta.
  assert (Hne : "9" <> "") by discriminate.
  assert (Hsd : forall c f, exists x, Ignored.fetchSnapshotData c f = inr x)
    by (intros c f; eexists; reflexivity).
  destruct (validated_snapshot_job_of_catalog_completes
              Samples.fullStore Ignored.fetchSnapshotData
              Ignored.fetchLiveData
              (Samples.job0 SourceSnapshot (Some "9")
                 (Some ["skills"; "apps"]))
              "9" Samples.fullSnapshot eq_refl eq_refl Hne eq_refl eq_refl
              Hsd)
    as (Ho & _ & Hl & _).
  split; assumption.
Defined.

(** ** Progress on any run *)

Lemma progressSteps_length : forall n m, length (progressSteps n m) = m.
Proof. intros. unfold progressSteps. now rewrite length_map, length_seq. Qed.

Lemma progressSteps_split : forall n m k,
  progressSteps n (m + k)
  = (progressSteps n m
     ++ map (fun i => progressValue i n) (seq (1 + m) k))%list.
Proof. intros. unfold progressSteps. now rewrite seq_app, map_app. Qed.

Lemma increasing_prefix : forall l1 l2,
  increasing (l1 ++ l2) = true -> increasing l1 = true.
Proof.
  induction l1 as [|p l1 IH]; intros l2 H; [reflexivity|].
  destruct l1 as [|q l1]; [reflexivity|].
  change (((p <? q)%float && increasing ((q :: l1) ++ l2)) = true) in H.
  apply andb_true_iff in H as [Hpq H].
  change (((p <? q)%float && increasing (q :: l1)) = true).
  now rewrite Hpq, (IH l2 H).
Qed.

Lemma forallb_prefix : forall (f : float -> bool) l1 l2,
  forallb f (l1 ++ l2) = true -> forallb f l1 = true.
Proof.
  intros f l1 l2 H. rewrite forallb_app in H. now destruct (forallb f l1).
Qed.

Lemma existsb_prefix : forall (f : float -> bool) l1 l2,
  existsb f (l1 ++ l2) = false -> existsb f l1 = false.
Proof.
  intros f l1 l2 H. rewrite existsb_app in H. now destruct (existsb f l1).
Qed.

(** The first [m] values of a run of [n] steps whose table is in order. *)
Lemma progress_steps : forall n m,
  progressInOrder n = true ->
  (m <= n)%nat ->
  let reported := progressSteps n m in
  increasing reported = true
  /\ inPercentRange reported = true
  /\ ((m < n)%nat ->
      belowFull reported = true /\ reportsFull reported = false)
  /\ ((0 < m)%nat -> m = n ->
      (last reported 0 =? 100)%float = true /\ reportsFull reported = true).
Proof.
  intros n m Hn Hm reported. unfold progressInOrder in Hn.
  apply andb_true_iff in Hn as [Hn Hlast].
  apply andb_true_iff in Hn as [Hn Hnone].
  apply andb_true_iff in Hn as [Hn Hbelow].
  apply andb_true_iff in Hn as [Hinc Hrange].
  apply negb_true_iff in Hnone.
  assert (Hall : progressSteps n n
                 = (reported
                    ++ map (fun i => progressValue i n)
                         (seq (1 + m) (n - m)))%list).
  { unfold reported. rewrite <- progressSteps_split. f_equal. lia. }
  split; [rewrite Hall in Hinc; exact (increasing_prefix _ _ Hinc)|].
  split; [rewrite Hall in Hrange; exact (forallb_prefix _ _ _ Hrange)|].
  split.
  - intros Hlt.
    assert (Hbut : progressSteps n (n - 1)
                   = (reported
                      ++ map (fun i => progressValue i n)
                           (seq (1 + m) (n - 1 - m)))%list).
    { unfold reported. rewrite <- progressSteps_split. f_equal. lia. }
    rewrite Hbut in Hbelow, Hnone.
    split; [exact (forallb_prefix _ _ _ Hbelow)|].
    exact (existsb_prefix _ _ _ Hnone).
  - intros Hpos ->. destruct n as [|k]; [lia|].
    cbn [Nat.eqb orb] in Hlast.
    assert (Hsnoc : reported
                    = (progressSteps (S k) k
                       ++ [progressValue (S k) (S k)])%list).
    { unfold reported, progressSteps. now rewrite seq_S, map_app. }
    rewrite Hsnoc, last_last. split; [exact Hlast|].
    unfold reportsFull. rewrite existsb_app. cbn [existsb].
    rewrite Hlast. cbn [orb]. apply orb_true_r.
Qed.

(** The table of a run is in order for every number of steps up to 256, and
    so is that of the catalog. *)
Lemma progressInOrder_checked : forall n,
  (n <= 256)%nat -> progressInOrder n = true.
Proof.
  intros n Hn.
  assert (Hall : forallb progressInOrder (seq 0 257) = true)
    by (vm_compute; reflexivity).
  rewrite forallb_forall in Hall. apply Hall. apply in_seq. lia.
Qed.

(** The progress a run of part_001 reports, whatever happens in it. *)
Lemma run2_progress_shape : forall store sd ld d,
  let n := length (Components2.components (Components2.job d)) in
  let run := Components2.processJob store sd ld d in
  exists m,
    (m <= n)%nat
    /\ progressUpdates (events run)
       = map (fun i => progressValue i n) (seq 1 m)
    /\ (forall r, outcome run = inr r -> m = n)
    /\ (forall e, outcome run = inl e -> m = 0%nat \/ (m < n)%nat).
Proof.
  intros store sd ld d n run. unfold run.
  rewrite Facts2.processJob2_reading. cbv zeta.
  destruct (Facts2.validated2_quiet (Components2.source d) store
              (Components2.components (Components2.job d))) as [_ Hq].
  destruct (snd (Reading2.validated _ _ _)) as [e|snapshot].
  - exists 0%nat. unfold events, outcome. cbn [fst snd].
    rewrite progressUpdates_app, progressUpdates_cons, Hq.
    repeat split; try lia; try discriminate; auto.
  - set (failure := Reading2.failure sd ld (Components2.source d) snapshot).
    set (sorted := sortedComponents
                     (Components2.components (Components2.job d))).
    assert (Hlen : length sorted = n).
    { unfold sorted, n. symmetry.
      apply Permutation_length, sortedComponents_perm. }
    exists (succeededCount failure sorted).
    pose proof (succeededCount_le failure sorted) as Hle.
    assert (Hp : progressUpdates
                   (loopTrace
                      (Reading2.bodyTrace sd ld (Components2.source d)
                         (Components2.target d) snapshot
                         (length (Components2.components (Components2.job d))))
                      failure sorted 0)
                 = map (fun i => progressValue i n)
                       (seq 1 (succeededCount failure sorted))).
    { unfold failure.
      now rewrite (loopTrace_progress _ _ _
                     (Facts2.body2_progress _ _ _ _ _ _)). }
    destruct (loopOutcome failure sorted 0) as [e|k] eqn:Ho;
      unfold events, outcome; cbn [fst snd].
    + rewrite !progressUpdates_app, progressUpdates_cons, Hq, Hp.
      cbn [progressUpdates flat_map app]. rewrite app_nil_r.
      split; [lia|]. split; [reflexivity|]. split; [discriminate|].
      intros _ _. right.
      pose proof (succeededCount_failed failure sorted 0 e Ho). lia.
    + rewrite !progressUpdates_app, progressUpdates_cons, Hq, Hp.
      cbn [progressUpdates flat_map app].
      split; [lia|]. split; [reflexivity|]. split; [|discriminate].
      intros _ _. rewrite (succeededCount_completed failure sorted 0 k Ho).
      exact Hlen.
Qed.

Lemma run0_progress_shape : forall store sd ld d,
  let items :=
    Ignored.componentsToMigrate
      (match Ignored.ignoredItems d with Some l => l | None => [] end) in
  let run := Ignored.processJob store sd ld d in
  exists m,
    (m <= length items)%nat
    /\ progressUpdates (events run)
       = map (fun i => progressValue i 14) (seq 1 m)
    /\ (forall r, outcome run = inr r -> m = length items)
    /\ (forall e, outcome run = inl e -> m = 0%nat \/ (m < length items)%nat).
Proof.
  intros store sd ld d items run. unfold run.
  rewrite Facts0.processJob0_reading. cbv zeta. fold items.
  destruct (Facts0.validated0_quiet (Ignored.source d) store MIGRATION_ORDER)
    as [_ Hq].
  destruct (snd (Reading0.validated _ _ _)) as [e|snapshot].
  - exists 0%nat. unfold events, outcome. cbn [fst snd].
    rewrite progressUpdates_app, progressUpdates_cons, Hq.
    repeat split; try lia; try discriminate; auto.
  - set (failure := Reading0.failure sd ld (Ignored.source d) snapshot).
    exists (succeededCount failure items).
    pose proof (succeededCount_le failure items) as Hle.
    assert (Hp : progressUpdates
                   (loopTrace
                      (Reading0.bodyTrace sd ld (Ignored.source d)
                         (Ignored.target d) snapshot (length MIGRATION_ORDER))
                      failure items 0)
                 = map (fun i => progressValue i 14)
                       (seq 1 (succeededCount failure items))).
    { unfold failure.
      now rewrite (loopTrace_progress _ _ _
                     (Facts0.body0_progress _ _ _ _ _ _)). }
    destruct (loopOutcome failure items 0) as [e|k] eqn:Ho;
      unfold events, outcome; cbn [fst snd].
    + rewrite !progressUpdates_app, progressUpdates_cons, Hq, Hp.
      cbn [progressUpdates flat_map app]. rewrite app_nil_r.
      split; [lia|]. split; [reflexivity|]. split; [discriminate|].
      intros _ _. right.
      pose proof (succeededCount_failed failure items 0 e Ho). lia.
    + rewrite !progressUpdates_app, progressUpdates_cons, Hq, Hp.
      cbn [progressUpdates flat_map app].
      split; [lia|]. split; [reflexivity|]. split; [|discriminate].
      intros _ _. exact (succeededCount_completed failure items 0 k Ho).
Qed.

(** X11: on every run of part_001, with any collaborators and whether the
    job completes or fails, the [k]-th value reported is the double
    [(k / n) * 100], [n] being the number of requested components; there are
    at most [n] values, exactly [n] when the job completes and fewer when it
    fails.  For up to 256 requested components, where the double arithmetic
    is checked by evaluation, the values strictly increase and lie above 0
    and at most at 100, the last value of a completed job is exactly 100, and
    a job that fails never reports 100. *)
Theorem components_progress_on_any_run :
  forall store sd ld d,
    let n := length (Components2.components (Components2.job d)) in
    let run := Components2.processJob store sd ld d in
    let reported := progressUpdates (events run) in
    (length reported <= n)%nat
    /\ reported = progressSteps n (length reported)
    /\ (forall r, outcome run = inr r -> length reported = n)
    /\ (forall e, outcome run = inl e ->
          length reported = 0%nat \/ (length reported < n)%nat)
    /\ ((n <= 256)%nat ->
        increasing reported = true
        /\ inPercentRange reported = true
        /\ (forall r, outcome run = inr r -> (0 < n)%nat ->
              (last reported 0 =? 100)%float = true)
        /\ (forall e, outcome run = inl e -> reportsFull reported = false)).
Proof.
  intros store sd ld d n run reported.
  destruct (run2_progress_shape store sd ld d)
    as (m & Hm & Hp & Hdone & Hfail).
  fold n in Hm, Hp, Hdone, Hfail. fold run in Hp, Hdone, Hfail.
  fold reported in Hp. fold (progressSteps n m) in Hp.
  assert (Hlen : length reported = m)
    by (rewrite Hp; apply progressSteps_length).
  rewrite Hlen.
  split; [exact Hm|]. split; [exact Hp|]. split; [exact Hdone|].
  split; [exact Hfail|].
  intros Hn.
  destruct (progress_steps n m (progressInOrder_checked n Hn) Hm)
    as (Hinc & Hrange & Hlt & Hfull).
  rewrite <- Hp in Hinc, Hrange, Hlt, Hfull.
  split; [exact Hinc|]. split; [exact Hrange|]. split.
  - intros r Hr Hpos. apply Hfull; [|exact (Hdone r Hr)].
    rewrite (Hdone r Hr). exact Hpos.
  - intros e He. destruct (Hfail e He) as [H0|Hless].
    + rewrite Hp, H0. reflexivity.
    + now apply Hlt.
Qed.

Lemma componentsToMigrate_full_iff : forall ignored,
  length (Ignored.componentsToMigrate ignored) = 14%nat <->
  (forall c, In c MIGRATION_ORDER -> ~ In c ignored).
Proof.
  intros ignored. unfold Ignored.componentsToMigrate. split.
  - intros Hlen c Hc.
    apply (filter_length_forallb _ MIGRATION_ORDER) in Hlen.
    rewrite forallb_forall in Hlen. specialize (Hlen c Hc).
    apply negb_true_iff, not_true_iff_false in Hlen.
    now rewrite includes_In in Hlen.
  - intros Hnone.
    rewrite <- (filter_ext_in (fun _ => true)).
    + reflexivity.
    + intros c Hc. symmetry. apply negb_true_iff, not_true_iff_false.
      rewrite includes_In. now apply Hnone.
Qed.

(** X12: on every run of part_000 the [k]-th value reported is the double
    [(k / 14) * 100], [14] being the length of the catalog: the values
    strictly increase and lie above 0 and at most at 100, and there is one per
    component kept when the job completes.  A completed job has reported 100
    exactly when no catalog component was ignored; a job that fails never
    reports 100. *)
Theorem ignored_progress_on_any_run :
  forall store sd ld d,
    let ignored :=
      match Ignored.ignoredItems d with Some l => l | None => [] end in
    let run := Ignored.processJob store sd ld d in
    let reported := progressUpdates (events run) in
    (length reported <= length (Ignored.componentsToMigrate ignored))%nat
    /\ reported = progressSteps 14 (length reported)
    /\ increasing reported = true
    /\ inPercentRange reported = true
    /\ (forall r, outcome run = inr r ->
          length reported = length (Ignored.componentsToMigrate ignored)
          /\ (reportsFull reported = true <->
              (forall c, In c MIGRATION_ORDER -> ~ In c ignored)))
    /\ (forall e, outcome run = inl e -> reportsFull reported = false).
Proof.
  intros store sd ld d ignored run reported.
  destruct (run0_progress_shape store sd ld d)
    as (m & Hm & Hp & Hdone & Hfail).
  fold ignored in Hm, Hdone, Hfail. fold run in Hp, Hdone, Hfail.
  fold reported in Hp. fold (progressSteps 14 m) in Hp.
  pose proof (filter_length_le
                (fun comp => negb (includes ignored comp)) MIGRATION_ORDER)
    as Hle14.
  change (length MIGRATION_ORDER) with 14%nat in Hle14.
  fold (Ignored.componentsToMigrate ignored) in Hle14.
  assert (Hm14 : (m <= 14)%nat) by lia.
  assert (Hlen : length reported = m)
    by (rewrite Hp; apply progressSteps_length).
  assert (H14 : progressInOrder 14 = true) by (vm_compute; reflexivity).
  destruct (progress_steps 14 m H14 Hm14) as (Hinc & Hrange & Hlt & Hfull).
  rewrite <- Hp in Hinc, Hrange, Hlt, Hfull.
  rewrite Hlen.
  split; [exact Hm|]. split; [exact Hp|]. split; [exact Hinc|].
  split; [exact Hrange|]. split.
  - intros r Hr. pose proof (Hdone r Hr) as Hd.
    split; [exact Hd|]. rewrite <- componentsToMigrate_full_iff, <- Hd.
    split.
    + intros Hex. destruct (Nat.eq_dec m 14) as [|Hne]; [assumption|].
      assert (Hless : (m < 14)%nat) by lia.
      destruct (Hlt Hless) as [_ Hnone]. congruence.
    + intros E. apply Hfull; [lia|exact E].
  - intros e He. destruct (Hfail e He) as [H0|Hless].
    + rewrite Hp, H0. reflexivity.
    + apply Hlt. lia.
Qed.

(** ** Error lines *)

Lemma errorLines_app : forall t1 t2,
  errorLines (t1 ++ t2) = (errorLines t1 ++ errorLines t2)%list.
Proof. intros. unfold errorLines. apply flat_map_app. Qed.

Lemma errorLines_init : forall p t,
  errorLines (Log (Initializing p) :: t) = errorLines t.
Proof. reflexivity. Qed.

Lemma body2_no_errors : forall sd ld src tgt snapshot total c k,
  errorLines (Reading2.bodyTrace sd ld src tgt snapshot total c k) = [].
Proof.
  intros. unfold Reading2.bodyTrace, Reading2.fetched.
  destruct (isSnapshot (Components2.source_type src)), snapshot as [snap|];
    simpl.
  1: destruct (componentInfoOf snap c "size") as [e|info]; simpl;
       [reflexivity|].
  1: destruct (sd c (fileOf info)); reflexivity.
  all: destruct (ld c (Components2.source_instanceInfo src)); reflexivity.
Qed.

Lemma body0_no_errors : forall sd ld src tgt snapshot total c k,
  errorLines (Reading0.bodyTrace sd ld src tgt snapshot total c k) = [].
Proof.
  intros. unfold Reading0.bodyTrace, Reading0.fetched.
  destruct (isSnapshot (Ignored.source_type src)), snapshot as [snap|];
    simpl.
  1: destruct (componentInfoOf snap c "size") as [e|info]; simpl;
       [reflexivity|].
  1: destruct (sd c (fileOf info)); reflexivity.
  all: destruct (ld c (Ignored.source_instanceInfo src)); reflexivity.
Qed.

Lemma validated2_no_errors : forall src store requested,
  errorLines (fst (Reading2.validated src store requested)) = [].
Proof.
  intros. unfold Reading2.validated.
  destruct (isSnapshot (Components2.source_type src)
            && truthy (Components2.snapshotId src)); [|reflexivity].
  destruct (Components2.snapshotId src) as [sid|]; [|reflexivity].
  destruct (store sid) as [snap|]; [|reflexivity].
  destruct (validateSnapshot (Some snap) requested) as [e|[]]; reflexivity.
Qed.

Lemma validated0_no_errors : forall src store requested,
  errorLines (fst (Reading0.validated src store requested)) = [].
Proof.
  intros. unfold Reading0.validated.
  destruct (isSnapshot (Ignored.source_type src)
            && truthy (Ignored.snapshotId src)); [|reflexivity].
  destruct (Ignored.snapshotId src) as [sid|]; [|reflexivity].
  destruct (store sid) as [snap|]; [|reflexivity].
  destruct (validateSnapshot (Some snap) requested) as [e|[]]; reflexivity.
Qed.

(** X13: what a run of part_001 or part_000 logs about errors, with any
    collaborators.  The first line is always the initialisation line.  A job
    that completes has logged no error line.  A job that fails has logged the
    fatal line last, with the message of the value it throws, and before it
    at most one component error line, for a component of the list, with the
    same message; no other error line exists. *)
Theorem error_lines_of_a_run :
  (forall store sd ld d,
     let run := Components2.processJob store sd ld d in
     (exists rest,
        events run
        = Log (Initializing ("tmp/" ++ Components2.job_id (Components2.job d)))
          :: rest)
     /\ (forall r, outcome run = inr r -> errorLines (events run) = [])
     /\ (forall e, outcome run = inl e ->
           (exists t,
              events run = (t ++ [Log (FatalError (errorMessage e))])%list)
           /\ (errorLines (events run) = [FatalError (errorMessage e)]
               \/ exists c,
                    In c (Components2.components (Components2.job d))
                    /\ errorLines (events run)
                       = [ ErrorProcessing c (errorMessage e);
                           FatalError (errorMessage e) ])))
  /\ (forall store sd ld d,
        let run := Ignored.processJob store sd ld d in
        (exists rest,
           events run = Log (Initializing ("tmp/" ++ Ignored.jobId d)) :: rest)
        /\ (forall r, outcome run = inr r -> errorLines (events run) = [])
        /\ (forall e, outcome run = inl e ->
              (exists t,
                 events run = (t ++ [Log (FatalError (errorMessage e))])%list)
              /\ (errorLines (events run) = [FatalError (errorMessage e)]
                  \/ exists c,
                       In c MIGRATION_ORDER
                       /\ errorLines (events run)
                          = [ ErrorProcessing c (errorMessage e);
                              FatalError (errorMessage e) ]))).
Proof.
  split.
  - intros store sd ld d run. unfold run.
    rewrite Facts2.processJob2_reading. cbv zeta.
    pose proof (validated2_no_errors (Components2.source d) store
                  (Components2.components (Components2.job d))) as Hq.
    destruct (snd (Reading2.validated _ _ _)) as [e|snapshot].
    + unfold events, outcome. cbn [fst snd].
      split; [eexists; reflexivity|]. split; [discriminate|].
      intros e' [= <-]. split; [eexists; reflexivity|]. left.
      rewrite errorLines_app.
      now rewrite errorLines_init, Hq.
    + pose proof (loopTrace_errorLines _
                    (Reading2.failure sd ld (Components2.source d) snapshot)
                    (body2_no_errors sd ld (Components2.source d)
                       (Components2.target d) snapshot
                       (length (Components2.components (Components2.job d))))
                    (sortedComponents
                       (Components2.components (Components2.job d))) 0)
        as Hloop.
      destruct (loopOutcome _ _ 0) as [e|n];
        unfold events, outcome; cbn [fst snd].
      * split; [eexists; reflexivity|]. split; [discriminate|].
        intros e' [= <-]. destruct Hloop as (c & Hc & Herr). split.
        { eexists. rewrite app_assoc. reflexivity. }
        right. exists c. split.
        { apply (Permutation_in _ (Permutation_sym
                                     (sortedComponents_perm _)) Hc). }
        rewrite !errorLines_app, Herr.
        now rewrite errorLines_init, Hq.
      * split; [eexists; reflexivity|]. split; [|discriminate].
        intros _ _. rewrite errorLines_app, Hloop.
        now rewrite errorLines_init, Hq.
  - intros store sd ld d run. unfold run.
    rewrite Facts0.processJob0_reading. cbv zeta.
    pose proof (validated0_no_errors (Ignored.source d) store
                  MIGRATION_ORDER) as Hq.
    destruct (snd (Reading0.validated _ _ _)) as [e|snapshot].
    + unfold events, outcome. cbn [fst snd].
      split; [eexists; reflexivity|]. split; [discriminate|].
      intros e' [= <-]. split; [eexists; reflexivity|]. left.
      rewrite errorLines_app.
      now rewrite errorLines_init, Hq.
    + pose proof (loopTrace_errorLines _
                    (Reading0.failure sd ld (Ignored.source d) snapshot)
                    (body0_no_errors sd ld (Ignored.source d)
                       (Ignored.target d) snapshot (length MIGRATION_ORDER))
                    (Ignored.componentsToMigrate
                       (match Ignored.ignoredItems d with
                        | Some l => l
                        | None => []
                        end)) 0)
        as Hloop.
      destruct (loopOutcome _ _ 0) as [e|n];
        unfold events, outcome; cbn [fst snd].
      * split; [eexists; reflexivity|]. split; [discriminate|].
        intros e' [= <-]. destruct Hloop as (c & Hc & Herr). split.
        { eexists. rewrite app_assoc. reflexivity. }
        right. exists c. split.
        { now apply componentsToMigrate_In in Hc. }
        rewrite !errorLines_app, Herr.
        now rewrite errorLines_init, Hq.
      * split; [eexists; reflexivity|]. split; [|discriminate].
        intros _ _. rewrite errorLines_app, Hloop.
        now rewrite errorLines_init, Hq.
Qed.

(** ** What a run leaves of the job data *)

(** X14: part_000 hands the job data back exactly as it got it.  part_001
    changes nothing but the order of [job.components]: source, target and job
    id stay, the components are the same with the same repetitions, and the
    data is either untouched (validation failed, before the sort) or holds
    the sorted array. *)
Theorem job_data_after_a_run :
  (forall store sd ld d, finalData (Ignored.processJob store sd ld d) = d)
  /\ (forall store sd ld d,
        let after := finalData (Components2.processJob store sd ld d) in
        Components2.source after = Components2.source d
        /\ Components2.target after = Components2.target d
        /\ Components2.job_id (Components2.job after)
           = Components2.job_id (Components2.job d)
        /\ Permutation (Components2.components (Components2.job d))
             (Components2.components (Components2.job after))
        /\ (after = d \/ after = Reading2.sortedData d)
        /\ (forall e,
              outcome (Components2.validationPhase store (Components2.source d)
                         (Components2.components (Components2.job d)) d)
              = inl e ->
              after = d)).
Proof.
  split.
  - intros store sd ld d. rewrite Facts0.processJob0_reading. cbv zeta.
    destruct (snd (Reading0.validated _ _ _)); [reflexivity|].
    destruct (loopOutcome _ _ 0); reflexivity.
  - intros store sd ld d after. unfold after.
    rewrite Facts2.processJob2_reading, Facts2.validationPhase2_reading.
    cbv zeta. unfold outcome at 1. cbn [snd].
    destruct (snd (Reading2.validated _ _ _)) as [e|snapshot].
    + unfold finalData. cbn [fst snd]. repeat split; auto.
    + destruct (loopOutcome _ _ 0); unfold finalData; cbn [fst snd];
        (repeat split; [apply sortedComponents_perm|now right|discriminate]).
Qed.

(** ** src/src/queue.ts on its placeholder snapshot *)

(** X15: in src/src/queue.ts the snapshot is still the empty placeholder, so
    a job whose source type is snapshot with a non-zero [snapshotId] cannot
    get through: as soon as it requests one component it fails with a
    [TypeError] in validation, logging only the initialisation and the fatal
    line, with no component started and no progress; its components array
    has been sorted all the same.  With no component requested it completes
    at once. *)
Theorem placeholder_snapshot_job_fails :
  forall sd ld d sid,
    Components1.source_type (Components1.source d) = SourceSnapshot ->
    Components1.snapshotId (Components1.source d) = Some sid ->
    sid <> 0%Z ->
    let requested := Components1.components (Components1.job d) in
    let run := Components1.processJob sd ld d in
    let init :=
      Log (Initializing ("tmp/" ++ Components1.job_id (Components1.job d))) in
    Components1.components (Components1.job (finalData run))
      = sortedComponents requested
    /\ startedComponents (events run) = []
    /\ progressUpdates (events run) = []
    /\ (requested <> [] ->
        exists message,
          outcome run = inl (TypeError message)
          /\ events run = [init; Log (FatalError message)])
    /\ (requested = [] ->
        events run = [init]
        /\ outcome run
           = inr {| Components1.status := "completed";
                    Components1.idMappings := [];
                    Components1.jobId :=
                      Components1.job_id (Components1.job d) |}).
Proof.
  intros sd ld d sid Htype Hsid Hne requested run init. unfold run.
  rewrite Facts1.processJob1_reading. cbv zeta. fold requested.
  rewrite Htype, Hsid. cbn [isSnapshot Components1.truthyNumber andb].
  replace (negb (sid =? 0)%Z) with true
    by (symmetry; apply negb_true_iff, Z.eqb_neq; assumption).
  destruct (sortedComponents requested) as [|c rest] eqn:Hsorted.
  - assert (Hreq : requested = []).
    { pose proof (Permutation_length (sortedComponents_perm requested)) as Hl.
      rewrite Hsorted in Hl. now destruct requested. }
    cbn. unfold Reading1.sortedData. fold requested. rewrite Hsorted.
    split; [reflexivity|]. split; [reflexivity|]. split; [reflexivity|].
    split; [intros Hn; contradiction|]. intros _. split; reflexivity.
  - cbn. unfold Reading1.sortedData. fold requested. rewrite Hsorted.
    split; [reflexivity|]. split; [reflexivity|]. split; [reflexivity|].
    split.
    + intros _. eexists. split; reflexivity.
    + intros Hreq. rewrite Hreq in Hsorted. discriminate.
Qed.

Lemma placeholder_snapshot_job_fails_witness :
  let run :=
    Components1.worker
      (Samples.job1 SourceSnapshot (Some 1%Z) ["views"; "groups"]) in
  (exists message, outcome run = inl (TypeError message))
  /\ startedComponents (events run) = []
  /\ Components1.components (Components1.job (finalData run))
     = ["groups"; "views"].
Proof.
  cbv zeta.
  assert (Hne : 1%Z <> 0%Z) by discriminate.
  destruct (placeholder_snapshot_job_fails
              Components1.fetchSnapshotData Components1.fetchLiveData
              (Samples.job1 SourceSnapshot (Some 1%Z) ["views"; "groups"])
              1%Z eq_refl eq_refl Hne) as (Hd & Hs & _ & Hfail & _).
  split; [|split; assumption].
  destruct Hfail as (message & Ho & _); [discriminate|].
  exists message. exact Ho.
Defined.

(** X16: in src/src/queue.ts a job that does not take the snapshot branch (a
    live source, or a snapshot source without a usable [snapshotId]) and
    whose live client answers completes: the requested components are
    started in sorted order, the [k]-th one logs "Processing <component>
    (k/n)" and then reports [k/n] of 100, and nothing else is logged but the
    initialisation line. *)
Theorem live_job_of_queue_ts_completes :
  forall sd ld d,
    isSnapshot (Components1.source_type (Components1.source d))
    && Components1.truthyNumber (Components1.snapshotId (Components1.source d))
    = false ->
    (forall c i, exists x, ld c i = inr x) ->
    let requested := Components1.components (Components1.job d) in
    let n := length requested in
    let run := Components1.processJob sd ld d in
    outcome run
      = inr {| Components1.status := "completed";
               Components1.idMappings := [];
               Components1.jobId := Components1.job_id (Components1.job d) |}
    /\ startedComponents (events run) = sortedComponents requested
    /\ processingLines (events run)
       = map (fun ci => (fst ci, S (snd ci), n))
           (combine (sortedComponents requested) (seq 0 n))
    /\ progressUpdates (events run)
       = map (fun i => progressValue i n) (seq 1 n)
    /\ length (events run) = (1 + 3 * n)%nat.
Proof.
  intros sd ld d Hguard Hld requested n run. unfold run.
  rewrite Facts1.processJob1_reading. cbv zeta. fold requested.
  rewrite Hguard.
  set (failure := Reading1.failure sd ld (Components1.source d)).
  set (bt := Reading1.bodyTrace sd ld (Components1.source d)
               (length requested)).
  set (sorted := sortedComponents requested).
  assert (Hlen : length sorted = n).
  { unfold sorted, n. symmetry.
    apply Permutation_length, sortedComponents_perm. }
  assert (Hfetched : forall c, exists x,
            Reading1.fetched sd ld (Components1.source d) c = inr x).
  { intros c. unfold Reading1.fetched. rewrite Hguard. apply Hld. }
  assert (Hok : forall c, In c sorted -> failure c = None).
  { intros c _. unfold failure, Reading1.failure.
    destruct (Hfetched c) as [x ->]. reflexivity. }
  assert (Hbt : forall c k,
            bt c k = [ Log (Processing c (k + 1) (length requested));
                       UpdateProgress
                         (progressValue (S k) (length requested)) ]).
  { intros c k. unfold bt, Reading1.bodyTrace.
    destruct (Hfetched c) as [x ->]. reflexivity. }
  destruct (loopOutcome_ok failure sorted 0 Hok) as (Ho & Ha & Hc).
  rewrite Ho. unfold outcome, events. cbn [fst snd].
  split; [reflexivity|]. split.
  { rewrite startedComponents_cons. cbn [startedComponents flat_map app].
    fold (startedComponents (loopTrace bt failure sorted 0)).
    unfold bt, failure.
    rewrite (loopTrace_started _ _ (Facts1.body1_starts_nothing sd ld _ _)).
    fold failure. exact Ha. }
  split.
  { unfold processingLines. cbn [flat_map app].
    rewrite (loopTrace_observed bt failure _
               (fun c i => [(c, S i, length requested)]) _ 0 Hok).
    - rewrite Hlen. fold n.
      generalize (combine sorted (seq 0 n)).
      induction l as [|ci l IH]; [reflexivity|].
      cbn [flat_map map app]. now rewrite IH.
    - intros c i _. rewrite Hbt, Nat.add_1_r. reflexivity. }
  split.
  { rewrite progressUpdates_cons. cbn [progressUpdates flat_map app].
    fold (progressUpdates (loopTrace bt failure sorted 0)).
    unfold bt, failure.
    rewrite (loopTrace_progress _ _ _ (Facts1.body1_progress sd ld _ _)).
    fold failure. now rewrite Hc, Hlen. }
  assert (Hgen : forall items k,
            (forall c, In c items -> failure c = None) ->
            length (loopTrace bt failure items k) = (3 * length items)%nat).
  { induction items as [|c rest IH]; intros k Hall; [reflexivity|].
    cbn [loopTrace]. rewrite (Hall c (or_introl eq_refl)), Hbt.
    cbn [app length]. rewrite IH by (intros; apply Hall; now right). lia. }
  cbn [length]. rewrite (Hgen sorted 0%nat Hok), Hlen. lia.
Qed.

Lemma live_job_of_queue_ts_completes_witness :
  let run :=
    Components1.worker (Samples.job1 SourceLive None ["views"; "groups"]) in
  startedComponents (events run) = ["groups"; "views"]
  /\ processingLines (events run)
     = [("groups", 1%nat, 2%nat); ("views", 2%nat, 2%nat)].
Proof.
  cbv zeta.
  assert (Hld : forall c (i : Components1.InstanceInfo), exists x,
                  Components1.fetchLiveData c i = inr x)
    by (intros c i; eexists; reflexivity).
  destruct (live_job_of_queue_ts_completes
              Components1.fetchSnapshotData Components1.fetchLiveData
              (Samples.job1 SourceLive None ["views"; "groups"])
              eq_refl Hld) as (_ & Hs & Hp & _).
  split; assumption.
Defined.

(** ** The workers as shipped, on the mock snapshot table *)

(** The read [table[sid] || null] on a table of one snapshot. *)
Lemma snapshotOrNull_single : forall key snap sid,
  snapshotOrNull [(key, snap)] sid
  = if String.eqb key sid then Some snap
    else if includes objectPrototypeKeys sid
         then Some (inheritedAsSnapshot sid)
         else None.
Proof.
  intros key snap sid. unfold snapshotOrNull, getProperty. cbn [lookup].
  destruct (String.eqb key sid); [reflexivity|].
  destruct (includes objectPrototypeKeys sid); reflexivity.
Qed.

Lemma isMissing_inherited : forall b c,
  In c objectPrototypeKeys -> isMissing b c = false.
Proof.
  intros b c Hc. destruct (isMissing b c) eqn:Hm; [|reflexivity].
  apply isMissing_true in Hm as [_ Hn]. contradiction.
Qed.

(** X17: part_000 as shipped, with its mock snapshot table, can never
    migrate from a snapshot.  Every job whose source type is snapshot with a
    non-empty [snapshotId] fails before any component is started, whatever it
    ignores: for id 1 because the mock snapshot holds two of the fourteen
    components the validator is given; for an id that names an
    [Object.prototype] property with "Snapshot breakdown is missing",
    because the table read yields the inherited value; and for any other id
    with "Snapshot <id> not found". *)
Theorem shipped_ignored_worker_rejects_snapshot_jobs :
  forall d sid,
    Ignored.source_type (Ignored.source d) = SourceSnapshot ->
    Ignored.snapshotId (Ignored.source d) = Some sid ->
    sid <> "" ->
    let run := Ignored.worker d in
    startedComponents (events run) = []
    /\ progressUpdates (events run) = []
    /\ (sid = "1" ->
        outcome run
        = inl (Error ("Snapshot missing required components: "
                      ++ "custom_statuses, groups, custom_roles, brands, "
                      ++ "dynamic_content, macros, triggers, "
                      ++ "trigger_categories, views, webhooks, apps, "
                      ++ "skills")))
    /\ (In sid objectPrototypeKeys ->
        outcome run = inl (Error "Snapshot breakdown is missing"))
    /\ (sid <> "1" -> ~ In sid objectPrototypeKeys ->
        outcome run = inl (Error ("Snapshot " ++ sid ++ " not found"))).
Proof.
  intros d sid Htype Hsid Hne run.
  pose proof (snapshot_job0_cases Ignored.fetchSnapshotFromConvex
                Ignored.fetchSnapshotData Ignored.fetchLiveData d sid
                Htype Hsid Hne) as H.
  cbv zeta in H. fold (Ignored.worker d) in H. fold run in H.
  unfold Ignored.fetchSnapshotFromConvex, Ignored.mockSnapshots in H.
  rewrite snapshotOrNull_single in H.
  destruct (String.eqb_spec "1" sid) as [<-|Hother].
  - change (validateSnapshot _ MIGRATION_ORDER)
      with (@inl exn unit
              (Error ("Snapshot missing required components: "
                      ++ "custom_statuses, groups, custom_roles, "
                      ++ "brands, dynamic_content, macros, "
                      ++ "triggers, trigger_categories, views, "
                      ++ "webhooks, apps, skills"))) in H.
    cbv beta iota in H. destruct H as (Ho & Hs & Hp).
    split; [exact Hs|]. split; [exact Hp|]. split; [intros _; exact Ho|].
    split; [|congruence].
    intros Hin. apply includes_In in Hin. discriminate Hin.
  - destruct (includes objectPrototypeKeys sid) eqn:Hi.
    + change (validateSnapshot (Some (inheritedAsSnapshot sid))
                MIGRATION_ORDER)
        with (@inl exn unit (Error "Snapshot breakdown is missing")) in H.
      cbv beta iota in H. destruct H as (Ho & Hs & Hp).
      split; [exact Hs|]. split; [exact Hp|]. split; [congruence|].
      split; [intros _; exact Ho|].
      intros _ Hnot. apply includes_In in Hi. contradiction.
    + destruct H as (Ho & Hs & Hp).
      split; [exact Hs|]. split; [exact Hp|]. split; [congruence|].
      split; [|intros _ _; exact Ho].
      intros Hin. apply includes_In in Hin. congruence.
Qed.

Lemma shipped_ignored_worker_rejects_snapshot_jobs_witness :
  startedComponents
    (events (Ignored.worker
               (Samples.job0 SourceSnapshot (Some "1")
                  (Some ["skills"; "apps"])))) = []
  /\ outcome (Ignored.worker
                (Samples.job0 SourceSnapshot (Some "toString") None))
     = inl (Error "Snapshot breakdown is missing").
Proof.
  split.
  - assert (Hne : "1" <> "") by discriminate.
    apply (shipped_ignored_worker_rejects_snapshot_jobs
             (Samples.job0 SourceSnapshot (Some "1")
                (Some ["skills"; "apps"]))
             "1" eq_refl eq_refl Hne).
  - assert (Hne : "toString" <> "") by discriminate.
    apply (shipped_ignored_worker_rejects_snapshot_jobs
             (Samples.job0 SourceSnapshot (Some "toString") None)
             "toString" eq_refl eq_refl Hne).
    simpl. auto 10.
Defined.

Lemma snapshot_job2_completes : forall store sd ld d sid snap,
  Components2.source_type (Components2.source d) = SourceSnapshot ->
  Components2.snapshotId (Components2.source d) = Some sid ->
  sid <> "" ->
  store sid = Some snap ->
  validateSnapshot (Some snap) (Components2.components (Components2.job d))
    = inr tt ->
  (forall c f, exists x, sd c f = inr x) ->
  exists r, outcome (Components2.processJob store sd ld d) = inr r.
Proof.
  intros store sd ld d sid snap Htype Hsid Hne Hstore Hv Hsd.
  destruct (validateSnapshot_ok_inv _ _ Hv) as (b & Hb & Hall & _).
  pose proof (snapshot_job2_run store sd ld d sid snap Htype Hsid Hne
                Hstore Hv) as Hrun.
  cbv zeta in Hrun.
  set (failure := Reading2.failure sd ld (Components2.source d) (Some snap))
    in *.
  set (sorted := sortedComponents
                   (Components2.components (Components2.job d))) in *.
  assert (Hok : forall c, In c sorted -> failure c = None).
  { intros c Hc.
    pose proof (Hall c (Permutation_in _ (Permutation_sym
                                             (sortedComponents_perm _)) Hc))
      as Hfound.
    exact (proj1 (snapshot_step2 sd ld _ (Components2.target d) snap b
                    (length (Components2.components (Components2.job d)))
                    c Htype Hb Hfound Hsd)). }
  destruct (loopOutcome_ok failure sorted 0 Hok) as (Ho & _).
  rewrite Ho in Hrun. rewrite Hrun. eexists. reflexivity.
Qed.

(** X18: part_001 as shipped, with its mock snapshot table and placeholder
    clients: a job whose source type is snapshot with a non-empty
    [snapshotId] completes exactly when the id is 1 and every requested
    component is [ticket_fields] or [ticket_forms], the two components the
    mock snapshot holds, or bears the name of an [Object.prototype]
    property, which the validator and the loop find through the prototype
    chain. *)
Theorem shipped_components_worker_on_snapshot_jobs :
  forall d sid,
    Components2.source_type (Components2.source d) = SourceSnapshot ->
    Components2.snapshotId (Components2.source d) = Some sid ->
    sid <> "" ->
    ((exists r, outcome (Components2.worker d) = inr r) <->
     sid = "1"
     /\ forall c, In c (Components2.components (Components2.job d)) ->
                  c = "ticket_fields" \/ c = "ticket_forms"
                  \/ In c objectPrototypeKeys).
Proof.
  intros d sid Htype Hsid Hne.
  set (held := [ ("ticket_fields",
                  {| count := "10"; size := 4500;
                     file := "/1/1/ticket_fields.json" |});
                 ("ticket_forms",
                  {| count := "1"; size := 2500;
                     file := "/1/1/ticket_forms.json" |}) ]).
  assert (Hheld : forall c,
            isMissing held c = false <->
            c = "ticket_fields" \/ c = "ticket_forms"
            \/ In c objectPrototypeKeys).
  { intros c. split.
    - intros Hm.
      destruct (in_dec string_dec c objectPrototypeKeys) as [Hp|Hp]; [auto|].
      destruct (lookup c held) as [info|] eqn:Hl.
      + revert Hl. unfold held. cbn [lookup].
        destruct (String.eqb_spec "ticket_fields" c) as [<-|_]; [auto|].
        destruct (String.eqb_spec "ticket_forms" c) as [<-|_]; [auto|].
        discriminate.
      + rewrite (proj2 (isMissing_true held c) (conj Hl Hp)) in Hm.
        discriminate Hm.
    - intros [->|[->|Hp]]; [reflexivity|reflexivity|].
      now apply isMissing_inherited. }
  pose proof (snapshot_job2_cases Components2.fetchSnapshotFromConvex
                Components2.fetchSnapshotData Components2.fetchLiveData
                d sid Htype Hsid Hne) as H.
  cbv zeta in H. fold (Components2.worker d) in H.
  split.
  - intros [r Hr].
    unfold Components2.fetchSnapshotFromConvex, Components2.mockSnapshots
      in H.
    rewrite snapshotOrNull_single in H.
    destruct (String.eqb_spec "1" sid) as [<-|Hother].
    + split; [reflexivity|].
      destruct (validateSnapshot _ (Components2.components (Components2.job d)))
        as [e|[]] eqn:Hv.
      * destruct H as (Ho & _). congruence.
      * intros c Hc.
        destruct (validateSnapshot_ok_inv _ _ Hv) as (b & Hb & Hall & _).
        injection Hb as <-. apply Hheld, Hall, Hc.
    + destruct (includes objectPrototypeKeys sid).
      * change (validateSnapshot (Some (inheritedAsSnapshot sid))
                  (Components2.components (Components2.job d)))
          with (@inl exn unit (Error "Snapshot breakdown is missing")) in H.
        cbv beta iota in H. destruct H as (Ho & _). congruence.
      * destruct H as (Ho & _). congruence.
  - intros [-> Hall].
    apply (snapshot_job2_completes Components2.fetchSnapshotFromConvex
             Components2.fetchSnapshotData Components2.fetchLiveData d "1"
             _ Htype Hsid Hne eq_refl).
    + unfold validateSnapshot. cbn [breakdown locked].
      fold held.
      rewrite (nothing_missing held
                 (Components2.components (Components2.job d)));
        [reflexivity|].
      intros c Hc. apply Hheld, Hall, Hc.
    + intros c f. eexists. reflexivity.
Qed.

Lemma shipped_components_worker_on_snapshot_jobs_witness :
  exists r,
    outcome (Components2.worker
               (Samples.job2 SourceSnapshot (Some "1")
                  ["ticket_forms"; "valueOf"; "ticket_forms"])) = inr r.
Proof.
  assert (Hne : "1" <> "") by discriminate.
  apply (shipped_components_worker_on_snapshot_jobs
           (Samples.job2 SourceSnapshot (Some "1")
              ["ticket_forms"; "valueOf"; "ticket_forms"])
           "1" eq_refl eq_refl Hne).
  split; [reflexivity|].
  intros c [<-|[<-|[<-|[]]]]; simpl; auto 10.
Defined.

(** ** Locked snapshots *)

Lemma locked_never_ok : forall snap components,
  locked snap = true ->
  exists e, validateSnapshot (Some snap) components = inl e.
Proof.
  intros snap components Hl. unfold validateSnapshot. rewrite Hl.
  destruct (breakdown snap); [|eexists; reflexivity].
  destruct (0 <? _)%nat; eexists; reflexivity.
Qed.

(** X19: a job on a locked snapshot migrates nothing.  In part_001 and in
    part_000, with any store and clients, when the [snapshotId] of a
    snapshot-sourced job resolves to a locked snapshot the job fails, no
    component is started and no progress is reported. *)
Theorem locked_snapshot_job_migrates_nothing :
  forall (store : string -> option Snapshot) (sid : string) (snap : Snapshot),
    sid <> "" ->
    store sid = Some snap ->
    locked snap = true ->
    (forall sd ld d,
       Components2.source_type (Components2.source d) = SourceSnapshot ->
       Components2.snapshotId (Components2.source d) = Some sid ->
       let run := Components2.processJob store sd ld d in
       (exists e, outcome run = inl e)
       /\ startedComponents (events run) = []
       /\ progressUpdates (events run) = [])
    /\ (forall sd ld d,
          Ignored.source_type (Ignored.source d) = SourceSnapshot ->
          Ignored.snapshotId (Ignored.source d) = Some sid ->
          let run := Ignored.processJob store sd ld d in
          (exists e, outcome run = inl e)
          /\ startedComponents (events run) = []
          /\ progressUpdates (events run) = []).
Proof.
  intros store sid snap Hne Hstore Hlocked. split.
  - intros sd ld d Htype Hsid run.
    pose proof (snapshot_job2_cases store sd ld d sid Htype Hsid Hne) as H.
    cbv zeta in H. fold run in H. rewrite Hstore in H.
    destruct (locked_never_ok snap
                (Components2.components (Components2.job d)) Hlocked)
      as [e He].
    rewrite He in H. destruct H as (Ho & Hs & Hp).
    split; [now exists e|]. split; assumption.
  - intros sd ld d Htype Hsid run.
    pose proof (snapshot_job0_cases store sd ld d sid Htype Hsid Hne) as H.
    cbv zeta in H. fold run in H. rewrite Hstore in H.
    destruct (locked_never_ok snap MIGRATION_ORDER Hlocked) as [e He].
    rewrite He in H. destruct H as (Ho & Hs & Hp).
    split; [now exists e|]. split; assumption.
Qed.

Lemma locked_snapshot_job_migrates_nothing_witness :
  let run :=
    Components2.processJob Samples.lockedStore Components2.fetchSnapshotData
      Components2.fetchLiveData
      (Samples.job2 SourceSnapshot (Some "8") ["groups"]) in
  outcome run = inl (Error "Cannot use locked snapshot for migration")
  /\ startedComponents (events run) = [].
Proof.
  cbv zeta.
  assert (Hne : "8" <> "") by discriminate.
  destruct (locked_snapshot_job_migrates_nothing Samples.lockedStore "8"
              Samples.lockedGroups Hne eq_refl eq_refl) as [H2 _].
  destruct (H2 Components2.fetchSnapshotData Components2.fetchLiveData
              (Samples.job2 SourceSnapshot (Some "8") ["groups"])
              eq_refl eq_refl) as (_ & Hs & _).
  split; [reflexivity|exact Hs].
Defined.

(** ** From the route to the worker *)

(** X20: the [/migration] route of the second revision of index.ts names the
    job "migration-<now>", puts that id in the job data and in the reply, and
    echoes the components in the order the caller sent them; the reply shows
    the [snapshotId] only when it is there and not zero.  When the worker of
    src/src/queue.ts completes the job it was given, the [jobId] it returns
    is the one of the reply, while the components stored in the job data are
    by then in sorted order and no longer the echoed one in general. *)
Theorem postMigration_then_worker :
  forall (now : nat) (body : Intake1.MigrationJobBody),
    let name := fst (fst (Intake1.postMigration now body)) in
    let data := snd (fst (Intake1.postMigration now body)) in
    let reply := snd (Intake1.postMigration now body) in
    name = "migration-" ++ showNat now
    /\ Intake1.reply_jobId reply = name
    /\ Components1.job_id (Components1.job data) = name
    /\ Intake1.details_components (Intake1.details reply)
       = Intake1.body_components body
    /\ (Intake1.details_snapshotId
          (Intake1.details_source (Intake1.details reply)) = None <->
        Components1.snapshotId (Intake1.body_source body) = None
        \/ Components1.snapshotId (Intake1.body_source body) = Some 0%Z)
    /\ (forall sd ld,
          let run := Components1.processJob sd ld data in
          Components1.components (Components1.job (finalData run))
            = sortedComponents (Intake1.details_components
                                  (Intake1.details reply))
          /\ forall r, outcome run = inr r ->
               Components1.jobId r = Intake1.reply_jobId reply
               /\ Components1.status r = "completed").
Proof.
  intros now body name data reply.
  split; [reflexivity|]. split; [reflexivity|]. split; [reflexivity|].
  split; [reflexivity|]. split.
  - unfold reply, Intake1.postMigration.
    cbn [snd Intake1.details Intake1.details_source
           Intake1.details_snapshotId].
    destruct (Components1.snapshotId (Intake1.body_source body)) as [z|];
      cbn [Components1.truthyNumber].
    + destruct (Z.eqb_spec z 0) as [->|Hz]; cbn [negb].
      * split; auto.
      * split; [discriminate|]. intros [H|H]; congruence.
    + split; auto.
  - intros sd ld run. split.
    + exact (processJob1_final_components sd ld data).
    + intros r Hr. unfold run in Hr.
      rewrite (processJob1_result sd ld data r Hr). split; reflexivity.
Qed.

(** ** What a run does not look at *)

Lemma loop_reading_ext :
  forall (bt bt' : string -> nat -> list Event)
         (f f' : string -> option exn),
    (forall c k, bt c k = bt' c k) ->
    (forall c, f c = f' c) ->
    forall items k,
      loopTrace bt f items k = loopTrace bt' f' items k
      /\ loopOutcome f items k = loopOutcome f' items k.
Proof.
  intros bt bt' f f' Hbt Hf. induction items as [|c rest IH]; intros k.
  - split; reflexivity.
  - cbn [loopTrace loopOutcome]. rewrite <- Hbt, <- Hf.
    destruct (f c); [split; reflexivity|].
    destruct (IH (S k)) as [-> ->]. split; reflexivity.
Qed.

(** X21: the worker of part_000 reads [jobId], [source], [target] and
    [ignoredItems] and nothing else of the job data: two jobs that agree on
    these four make the same calls and end the same way, with any
    collaborators, whatever their [type], [translation] and
    [translationLocales] are. *)
Theorem ignored_worker_ignores_translation :
  forall store sd ld d d',
    Ignored.jobId d = Ignored.jobId d' ->
    Ignored.source d = Ignored.source d' ->
    Ignored.target d = Ignored.target d' ->
    Ignored.ignoredItems d = Ignored.ignoredItems d' ->
    events (Ignored.processJob store sd ld d)
    = events (Ignored.processJob store sd ld d')
    /\ outcome (Ignored.processJob store sd ld d)
       = outcome (Ignored.processJob store sd ld d').
Proof.
  intros store sd ld d d' Hid Hsrc Htgt Hig.
  rewrite !Facts0.processJob0_reading. cbv zeta.
  rewrite Hid, Hsrc, Htgt, Hig.
  destruct (snd (Reading0.validated _ _ _)); [split; reflexivity|].
  destruct (loopOutcome _ _ 0); split; reflexivity.
Qed.

Lemma ignored_worker_ignores_translation_witness :
  events (Ignored.worker (Samples.job0 SourceLive None (Some ["skills"])))
  = events
      (Ignored.worker
         {| Ignored.jobId := "migration-1";
            Ignored.job_type := "partial";
            Ignored.source :=
              {| Ignored.source_type := SourceLive;
                 Ignored.source_instanceInfo := Samples.info0 "acme";
                 Ignored.snapshotId := None |};
            Ignored.target :=
              {| Ignored.target_instanceInfo := Samples.info0 "acme-new" |};
            Ignored.ignoredItems := Some ["skills"];
            Ignored.translation := Some true;
            Ignored.translationLocales := Some ["fr"; "de"] |}).
Proof.
  apply (ignored_worker_ignores_translation
           Ignored.fetchSnapshotFromConvex Ignored.fetchSnapshotData
           Ignored.fetchLiveData
           (Samples.job0 SourceLive None (Some ["skills"]))); reflexivity.
Defined.

(** X22: the worker of part_001 as shipped uses of the two instances only
    their [subdomain]: two jobs with the same job id and components, the same
    source type and [snapshotId], and the same source and target subdomains
    make the same calls, log lines included, and end the same way, whatever
    the credentials, tags, names and ids of the instances are.  No credential
    reaches a log line. *)
Theorem shipped_components_worker_uses_subdomains_only :
  forall d d',
    Components2.job d = Components2.job d' ->
    Components2.source_type (Components2.source d)
    = Components2.source_type (Components2.source d') ->
    Components2.snapshotId (Components2.source d)
    = Components2.snapshotId (Components2.source d') ->
    Components2.subdomain
      (Components2.source_instanceInfo (Components2.source d))
    = Components2.subdomain
        (Components2.source_instanceInfo (Components2.source d')) ->
    Components2.subdomain
      (Components2.target_instanceInfo (Components2.target d))
    = Components2.subdomain
        (Components2.target_instanceInfo (Components2.target d')) ->
    events (Components2.worker d) = events (Components2.worker d')
    /\ outcome (Components2.worker d) = outcome (Components2.worker d').
Proof.
  intros d d' Hjob Htype Hsid Hsub Htsub. unfold Components2.worker.
  rewrite !Facts2.processJob2_reading. cbv zeta. rewrite <- Hjob.
  assert (Hv : Reading2.validated (Components2.source d')
                 Components2.fetchSnapshotFromConvex
                 (Components2.components (Components2.job d))
               = Reading2.validated (Components2.source d)
                   Components2.fetchSnapshotFromConvex
                   (Components2.components (Components2.job d))).
  { unfold Reading2.validated. now rewrite Htype, Hsid. }
  rewrite Hv.
  destruct (snd (Reading2.validated _ _ _)) as [e|snapshot];
    [split; reflexivity|].
  assert (Hfetched : forall c,
            Reading2.fetched Components2.fetchSnapshotData
              Components2.fetchLiveData (Components2.source d') snapshot c
            = Reading2.fetched Components2.fetchSnapshotData
                Components2.fetchLiveData (Components2.source d) snapshot c).
  { intros c. unfold Reading2.fetched, Components2.fetchLiveData.
    now rewrite Htype, Hsub. }
  destruct (loop_reading_ext
              (Reading2.bodyTrace Components2.fetchSnapshotData
                 Components2.fetchLiveData (Components2.source d')
                 (Components2.target d') snapshot
                 (length (Components2.components (Components2.job d))))
              (Reading2.bodyTrace Components2.fetchSnapshotData
                 Components2.fetchLiveData (Components2.source d)
                 (Components2.target d) snapshot
                 (length (Components2.components (Components2.job d))))
              (Reading2.failure Components2.fetchSnapshotData
                 Components2.fetchLiveData (Components2.source d') snapshot)
              (Reading2.failure Components2.fetchSnapshotData
                 Components2.fetchLiveData (Components2.source d) snapshot)
              (fun c k => ltac:(unfold Reading2.bodyTrace;
                                rewrite Hfetched, Htsub; reflexivity))
              (fun c => ltac:(unfold Reading2.failure;
                              rewrite Hfetched; reflexivity))
              (sortedComponents (Components2.components (Components2.job d)))
              0%nat) as [-> ->].
  destruct (loopOutcome _ _ 0); split; reflexivity.
Qed.

Lemma shipped_components_worker_uses_subdomains_only_witness :
  events (Components2.worker (Samples.job2 SourceLive None ["groups"]))
  = events
      (Components2.worker
         {| Components2.source :=
              {| Components2.source_type := SourceLive;
                 Components2.source_instanceInfo :=
                   {| Components2.instance_id := "7";
                      Components2.instance_name := "Other";
                      Components2.subdomain := "acme";
                      Components2.instance_tags := ["prod"];
                      Components2.credentials :=
                        {| Components2.token := "secret";
                           Components2.email := "root@acme.test" |} |};
                 Components2.snapshotId := None |};
            Components2.target :=
              {| Components2.target_instanceInfo :=
                   Samples.info2 "acme-new" |};
            Components2.job :=
              {| Components2.job_id := "migration-1";
                 Components2.components := ["groups"] |} |}).
Proof.
  apply (shipped_components_worker_uses_subdomains_only
           (Samples.job2 SourceLive None ["groups"])); reflexivity.
Defined.
